(** * jx: pull-request label extraction, regex pull requests and app secrets

    A shallow embedding of

    - [pkg/cmd/step/pr/step_pr_labels.go]          (module [PRLabels]),
    - [pkg/cmd/step/create/pr/step_create_pr_regex.go] (module [CreatePRRegex]),
    - [pkg/jx/cmd/add_app.go] and its companion file holding [GetDevEnv],
      [initVault], [handleValues] and [handleSecrets]  (module [AddApp]),

    together with the few functions of the Go standard library these files
    call (module [Go]).  Go strings are byte strings; they are modelled by
    [string], whose characters are the 256 byte values. *)

From Stdlib Require Import ZArith NArith Strings.String Strings.Ascii List Bool Lia.
From Stdlib Require Import Numbers.DecimalString Numbers.DecimalPos.
From stdpp Require Import base gmap strings list.

Import ListNotations.
Local Open Scope Z_scope.

(* ------------------------------------------------------------------ *)
(** ** Errors and outcomes shared by the three commands *)

(** Go [error] values.  The text of a message is kept apart from the error it
    wraps, the way [errors.Wrapf] keeps its cause. *)
Inductive error : Type :=
| ErrExternal (msg : string)
    (* an error handed back by a collaborator outside these files *)
| ErrMissingOption (name : string)
    (* util.MissingOption(name) *)
| ErrInvalidOption (name value message : string)
    (* util.InvalidOptionf(name, value, message, ...) *)
| ErrText (msg : string)
    (* fmt.Errorf with the given text *)
| ErrFmt (format : string) (args : list string) (err : error)
    (* fmt.Errorf(format, args..., err) *)
| ErrNum (fn input : string) (range : bool)
    (* *strconv.NumError: ErrSyntax when [range] is false, ErrRange otherwise *)
| ErrWrap (cause : error) (msg : string)
    (* errors.Wrapf(cause, msg) *)
| ErrWithStack (cause : error).
    (* errors.WithStack(cause) *)

(** How a Go function call ends: it returns without an error, it returns an
    error (and whatever else it returns next to the error, of type [E]), or
    it panics on a nil pointer. *)
Inductive outcome (E A : Type) : Type :=
| Ok (a : A)
| Err (e : E)
| Panic.
Arguments Ok {E A} a.
Arguments Err {E A} e.
Arguments Panic {E A}.

(** A computation over a state [S]: the state reached is returned on every
    path, since a Go method that fails has still changed its receiver. *)
Definition M (S E A : Type) : Type := S -> S * outcome E A.

Definition ret {S E A} (a : A) : M S E A := fun s => (s, Ok a).
Definition fail {S E A} (e : E) : M S E A := fun s => (s, Err e).
Definition panic {S E A} : M S E A := fun s => (s, Panic).

Definition bind {S E A B} (m : M S E A) (k : A -> M S E B) : M S E B :=
  fun s =>
    match m s with
    | (s', Ok a) => k a s'
    | (s', Err e) => (s', Err e)
    | (s', Panic) => (s', Panic)
    end.

Definition modify {S E} (f : S -> S) : M S E unit := fun s => (f s, Ok tt).

(** [x, err := f(...)] followed by [if err != nil { return ..., g(err) }]. *)
Definition lift {S E E' A} (g : E' -> E) (r : A + E') : M S E A :=
  match r with
  | inl a => ret a
  | inr e => fail (g e)
  end.

(** [err := f(...)] followed by [if err != nil { return ..., g(err) }]. *)
Definition check {S E E'} (g : E' -> E) (r : option E') : M S E unit :=
  match r with
  | None => ret tt
  | Some e => fail (g e)
  end.

(** Changes the value returned next to an error. *)
Definition mapErr {S E E' A} (g : E -> E') (m : M S E A) : M S E' A :=
  fun s =>
    match m s with
    | (s', Ok a) => (s', Ok a)
    | (s', Err e) => (s', Err (g e))
    | (s', Panic) => (s', Panic)
    end.

(** [when b m]: [if b { m }]. *)
Definition when {S E} (b : bool) (m : M S E unit) : M S E unit :=
  if b then m else ret tt.

Declare Scope go_scope.
Delimit Scope go_scope with go.
Notation "x <- m ; k" := (bind m (fun x => k))
  (at level 20, m at level 100, k at level 200, only parsing) : go_scope.
Notation "' p <- m ; k" := (bind m (fun x => let p := x in k))
  (at level 20, p pattern, m at level 100, k at level 200, only parsing) : go_scope.

(* ------------------------------------------------------------------ *)
(** ** The Go standard library functions the sources call *)

Module Go.

Definition byte_of (c : ascii) : N := N_of_ascii c.

(** ['0' <= c <= '9'], ['a' <= c <= 'z'], ['A' <= c <= 'Z']. *)
Definition isDigit (c : ascii) : bool :=
  ((48 <=? byte_of c) && (byte_of c <=? 57))%N.
Definition isLower (c : ascii) : bool :=
  ((97 <=? byte_of c) && (byte_of c <=? 122))%N.
Definition isUpper (c : ascii) : bool :=
  ((65 <=? byte_of c) && (byte_of c <=? 90))%N.

(** [len(s)]. *)
Definition len (s : string) : nat := String.length s.

(** [strings.HasPrefix(s, prefix)]. *)
Fixpoint HasPrefix (s prefix : string) : bool :=
  match prefix with
  | EmptyString => true
  | String p prefix' =>
      match s with
      | EmptyString => false
      | String c s' => if Ascii.eqb c p then HasPrefix s' prefix' else false
      end
  end.

(** [s[n:]] for [n <= len(s)]. *)
Fixpoint sliceFrom (n : nat) (s : string) : string :=
  match n, s with
  | O, _ => s
  | S n', String _ s' => sliceFrom n' s'
  | S _, EmptyString => EmptyString
  end.

(** [strings.TrimPrefix(s, prefix)]: [s] without the leading [prefix];
    [s] itself when it does not start with [prefix]. *)
Definition TrimPrefix (s prefix : string) : string :=
  if HasPrefix s prefix then sliceFrom (len prefix) s else s.

(** [strings.Join(elems, sep)]. *)
Fixpoint Join (elems : list string) (sep : string) : string :=
  match elems with
  | [] => EmptyString
  | [e] => e
  | e :: rest => e +:+ sep +:+ Join rest sep
  end.

(** The byte-wise branch of [strings.ToUpper]: [c -= 'a' - 'A'] on the
    lower-case letters. *)
Definition upperByte (c : ascii) : ascii :=
  if isLower c then ascii_of_N (byte_of c - 32) else c.

Fixpoint mapBytes (f : ascii -> ascii) (s : string) : string :=
  match s with
  | EmptyString => EmptyString
  | String c s' => String (f c) (mapBytes f s')
  end.

(** [c < utf8.RuneSelf] for every byte of [s]. *)
Fixpoint isASCII (s : string) : bool :=
  match s with
  | EmptyString => true
  | String c s' => (byte_of c <? 128)%N && isASCII s'
  end.

Section ToUpper.
(** [strings.Map(unicode.ToUpper, s)], the branch of [strings.ToUpper]
    taken for a string with a byte outside ASCII.  It depends on the
    Unicode tables and is left open. *)
Variable unicodeToUpper : string -> string.

(** [strings.ToUpper(s)]: ASCII-only strings are upper-cased byte by
    byte (the copy is skipped when there is no lower-case letter, which
    yields the same string); every other string goes through the
    Unicode mapping. *)
Definition ToUpper (s : string) : string :=
  if isASCII s then mapBytes upperByte s else unicodeToUpper s.
End ToUpper.

(** The regular expression ["[^a-zA-Z0-9]+"] compiled by
    [regexp.Compile]: one or more characters outside the three ranges.  A
    byte of a multi-byte or invalid UTF-8 sequence is outside the ranges
    as well, so working on bytes gives what the rune-based matcher
    gives. *)
Definition isAlnum (c : ascii) : bool := isLower c || isUpper c || isDigit c.

(** [reg.ReplaceAllString(src, repl)] for that expression and a
    replacement [repl] without [$]: matching is leftmost and greedy, so
    every maximal run of characters outside the ranges is replaced once.
    [inRun] tells that the character before belongs to a run whose
    replacement has been written already. *)
Fixpoint replaceRuns (inRun : bool) (src repl : string) : string :=
  match src with
  | EmptyString => EmptyString
  | String c rest =>
      if isAlnum c then String c (replaceRuns false rest repl)
      else if inRun then replaceRuns true rest repl
      else repl +:+ replaceRuns true rest repl
  end.

Definition ReplaceAllString (src repl : string) : string :=
  replaceRuns false src repl.

(** The shape of an environment key: every byte of [s] is a letter, a digit or ["_"], and no ["_"] follows
    another one; [afterSep] tells that the byte before is a ["_"]. *)
Fixpoint tidy (afterSep : bool) (s : string) : bool :=
  match s with
  | EmptyString => true
  | String c rest =>
      if isAlnum c then tidy false rest
      else Ascii.eqb c "_" && negb afterSep && tidy true rest
  end.

(** *** strconv.Atoi, on a platform whose [int] has 64 bits *)

Definition maxInt : Z := 2 ^ 63 - 1.
Definition minInt : Z := - 2 ^ 63.
Definition maxUint64 : Z := 2 ^ 64 - 1.

(** What reading an unsigned number gives: its value, a syntax error or a
    range error. *)
Inductive parsed : Type :=
| Value (n : Z)
| Syntax
| Range.

(** The loop of [strconv.ParseUint(s, 10, 64)] over the bytes of [s], [n]
    being the value read so far: a byte that is not a decimal digit is a
    syntax error; otherwise [n >= cutoff] ([n * 10] overflows) and
    [n * 10 + d > maxVal] are range errors. *)
Fixpoint parseUintFrom (n : Z) (s : string) : parsed :=
  match s with
  | EmptyString => Value n
  | String c rest =>
      if negb (isDigit c) then Syntax
      else if maxUint64 / 10 + 1 <=? n then Range
      else
        let n1 := n * 10 + (Z.of_N (byte_of c) - 48) in
        if maxUint64 <? n1 then Range else parseUintFrom n1 rest
  end.

Definition ParseUint (s : string) : parsed :=
  match s with
  | EmptyString => Syntax
  | _ => parseUintFrom 0 s
  end.

(** [strconv.Atoi(s)]: an optional sign, then [ParseUint] on the rest (the
    fast path [Atoi] takes on a short string gives the same results).  A
    syntax error returns 0; a value outside [int] returns the nearest [int]
    and a range error. *)
Definition Atoi (s : string) : Z * option error :=
  let syntax := (0, Some (ErrNum "Atoi" s false)) in
  let range (n : Z) := (n, Some (ErrNum "Atoi" s true)) in
  let neg := HasPrefix s "-" in
  let body := if neg || HasPrefix s "+" then sliceFrom 1 s else s in
  match ParseUint body with
  | Syntax => syntax
  | Range => if neg then range minInt else range maxInt
  | Value un =>
      if negb neg && (maxInt <? un) then range maxInt
      else if neg && (- minInt <? un) then range minInt
      else (if neg then - un else un, None)
  end.

(** [strconv.Itoa] and the verb [%d]: the decimal digits of [n]. *)
Definition Itoa (n : Z) : string :=
  DecimalString.NilEmpty.string_of_int (Z.to_int n).

(** [fmt.Sprintf(format, args...)] for the formats the sources use: plain
    text and the verbs [%s], [%v] and [%d], each argument being given by
    its text (a string as it is, an integer through [Itoa]).  Every verb
    takes the next argument. *)
Fixpoint Sprintf (format : string) (args : list string) : string :=
  match format with
  | String "%" (String v rest) =>
      if (Ascii.eqb v "s" || Ascii.eqb v "v" || Ascii.eqb v "d")%bool then
        match args with
        | a :: args' => a +:+ Sprintf rest args'
        | [] => "%!" +:+ String v "(MISSING)" +:+ Sprintf rest []
        end
      else String "%" (String v (Sprintf rest args))
  | String c rest => String c (Sprintf rest args)
  | EmptyString => EmptyString
  end.

(** [strings.Split(s, sep)] for a separator of one byte: the pieces between
    the separators, one piece (the empty one) for the empty string. *)
Fixpoint Split (s : string) (sep : ascii) : list string :=
  match s with
  | EmptyString => [EmptyString]
  | String c rest =>
      if Ascii.eqb c sep then EmptyString :: Split rest sep
      else
        match Split rest sep with
        | piece :: pieces => String c piece :: pieces
        | [] => [String c EmptyString]
        end
  end.

(** The newline written [\n] in a Go string. *)
Definition nl : string := String "010" EmptyString.

(** The bytes of a string. *)
Fixpoint bytes (s : string) : list N :=
  match s with
  | EmptyString => []
  | String c rest => byte_of c :: bytes rest
  end.

(** The verb [%v] on a [[]string], a [[]byte] and a [bool]. *)
Definition showStrings (l : list string) : string :=
  "[" +:+ Join l " " +:+ "]".
Definition showBytes (b : string) : string :=
  showStrings (map (fun n => Itoa (Z.of_N n)) (bytes b)).
Definition showBool (b : bool) : string :=
  if b then "true" else "false".

(** The value of a decimal numeral read from its most significant digit,
    [acc] being the value of the digits before it. *)
Fixpoint uintValue (acc : Z) (d : Decimal.uint) : Z :=
  match d with
  | Decimal.Nil => acc
  | Decimal.D0 l => uintValue (acc * 10 + 0) l
  | Decimal.D1 l => uintValue (acc * 10 + 1) l
  | Decimal.D2 l => uintValue (acc * 10 + 2) l
  | Decimal.D3 l => uintValue (acc * 10 + 3) l
  | Decimal.D4 l => uintValue (acc * 10 + 4) l
  | Decimal.D5 l => uintValue (acc * 10 + 5) l
  | Decimal.D6 l => uintValue (acc * 10 + 6) l
  | Decimal.D7 l => uintValue (acc * 10 + 7) l
  | Decimal.D8 l => uintValue (acc * 10 + 8) l
  | Decimal.D9 l => uintValue (acc * 10 + 9) l
  end.

(** Every byte of [s] is a capital letter, a digit or ["_"], and no ["_"]
    follows another one; [afterSep] tells that the byte before is a
    ["_"]. *)
Fixpoint keyShape (afterSep : bool) (s : string) : bool :=
  match s with
  | EmptyString => true
  | String c rest =>
      if isUpper c || isDigit c then keyShape false rest
      else Ascii.eqb c "_" && negb afterSep && keyShape true rest
  end.

(** [strings.IndexByte(s, c) >= 0]. *)
Fixpoint containsByte (c : ascii) (s : string) : bool :=
  match s with
  | EmptyString => false
  | String x rest => Ascii.eqb x c || containsByte c rest
  end.

(** The strings of a list one after the other. *)
Fixpoint concat (l : list string) : string :=
  match l with
  | [] => EmptyString
  | s :: rest => s +:+ concat rest
  end.

(** [s == ""]. *)
Definition isEmpty (s : string) : bool :=
  match s with
  | EmptyString => true
  | String _ _ => false
  end.

End Go.

(* ------------------------------------------------------------------ *)
(** ** Package gits: the types the commands share *)

Module gits.

(** [gits.GitRepository], as far as the commands read it. *)
Record GitRepository : Type := {
  Organisation : string;
  Name : string;
}.

(** [gits.ParseGitURL] belongs to another package; the commands only look
    at whether it fails.  It is a pure function of the URL. *)
Definition ParseGitURL_t : Type := string -> GitRepository + error.

(** A label of a pull request; [Name] is a [*string] and may be nil. *)
Record GitLabel : Type := {
  Label_Name : option string;
}.

Record GitPullRequest : Type := {
  Labels : list GitLabel;
}.

(** The interface [gits.GitProvider], reduced to the method called here. *)
Record GitProvider : Type := {
  GetPullRequest : string -> GitRepository -> Z -> GitPullRequest + error;
}.

End gits.

(* ------------------------------------------------------------------ *)
(** ** pkg/cmd/step/pr/step_pr_labels.go *)

Module PRLabels.
Import gits.

(** DefaultPrefix for all PR labels environment keys *)
Definition DefaultPrefix : string := "JX_PR_LABELS".

(** StepPRLabelsOptions holds the options for the cmd *)
Record StepPRLabelsOptions : Type := {
  Dir : string;
  Prefix : string;
  PullRequest : string;
  GitURL : string;
}.

Definition set_PullRequest (v : string) (o : StepPRLabelsOptions) :=
  {| Dir := Dir o; Prefix := Prefix o; PullRequest := v; GitURL := GitURL o |}.
Definition set_Prefix (v : string) (o : StepPRLabelsOptions) :=
  {| Dir := Dir o; Prefix := v; PullRequest := PullRequest o; GitURL := GitURL o |}.

(** What a run does that can be seen from outside, in the order it does
    it. *)
Inductive Event : Type :=
| EvWarn (msg : string)
    (* log.Logger().Warn(msg) *)
| EvGetPullRequest (owner : string) (repo : GitRepository) (number : Z)
    (* provider.GetPullRequest(owner, repo, number) *)
| EvStdout (text : string).
    (* fmt.Printf: text written to standard output *)

(** The surroundings of the command. *)
Record Sys : Type := {
  (* o.CreateGitProvider(dir): the repository and the provider (which can
     be nil), or an error *)
  CreateGitProvider : string -> (GitRepository * option GitProvider) + error;
  (* os.Getenv: the empty string for a variable that is not set *)
  Getenv : string -> string;
  ParseGitURL : ParseGitURL_t;
  (* strings.ToUpper outside ASCII *)
  unicodeToUpper : string -> string;
}.

Record St : Type := {
  opts : StepPRLabelsOptions;
  trace : list Event;
}.

Definition emit {E} (e : Event) : M St E unit :=
  modify (fun st => {| opts := opts st; trace := trace st ++ [e] |}).
Definition update {E} (f : StepPRLabelsOptions -> StepPRLabelsOptions) : M St E unit :=
  modify (fun st => {| opts := f (opts st); trace := trace st |}).
Definition options {E} : M St E StepPRLabelsOptions :=
  fun st => (st, Ok (opts st)).

Section Run.
Variable sys : Sys.
Local Open Scope go_scope.

(** The environment key of a label:
    [strings.ToUpper(reg.ReplaceAllString(name, "_"))] with [reg] compiled
    from ["[^a-zA-Z0-9]+"]. *)
Definition envKey (name : string) : string :=
  Go.ToUpper (unicodeToUpper sys) (Go.ReplaceAllString name "_").

(** The text printed for one label. *)
Definition labelText (prefix name : string) : string :=
  Go.Sprintf "%v_%v='%v'" [prefix; envKey name; name].

(** The loop [for _, v := range pr.Labels]. *)
Fixpoint printLabels (labels : list GitLabel) : M St error unit :=
  match labels with
  | [] => ret tt
  | v :: rest =>
      match Label_Name v with
      | None => panic
      | Some name =>
          o <- options ;
          _ <- emit (EvStdout (labelText (Prefix o) name)) ;
          printLabels rest
      end
  end.

(** Run implements the execution.  [regexp.Compile] cannot fail on the
    constant expression, so its error branch is left out. *)
Definition Run : M St error unit :=
  o <- options ;
  ' (gitInfo, provider) <- lift id (CreateGitProvider sys (Dir o)) ;
  match provider with
  | None =>
      fail (ErrText "No Git provider could be found. Are you in a directory containing a `.git/config` file?")
  | Some provider =>
      _ <- when (Go.isEmpty (PullRequest o))
             (update (set_PullRequest (Go.TrimPrefix (Getenv sys "BRANCH_NAME") "PR-"))) ;
      o <- options ;
      if Go.isEmpty (PullRequest o) then fail (ErrMissingOption "pr") else
      _ <- when (Go.isEmpty (Prefix o)) (update (set_Prefix DefaultPrefix)) ;
      o <- options ;
      let '(prNum, err) := Go.Atoi (PullRequest o) in
      _ <- when (bool_decide (err <> None))
             (emit (EvWarn ("Unable to convert PR " +:+ PullRequest o +:+ " to a number"))) ;
      gitInfo <- (if Go.isEmpty (GitURL o) then ret gitInfo
                  else lift (fun e => ErrWrap e (Go.Sprintf "parsing %s" [GitURL o]))
                            (ParseGitURL sys (GitURL o))) ;
      _ <- emit (EvGetPullRequest (Organisation gitInfo) gitInfo prNum) ;
      pr <- lift (fun e => ErrWrap e (Go.Sprintf "failed to find PullRequest %d" [Go.Itoa prNum]))
                 (GetPullRequest provider (Organisation gitInfo) gitInfo prNum) ;
      printLabels (Labels pr)
  end.

End Run.

(** The numbers the provider was asked for, and what went to standard
    output and to the warning log. *)
Definition requested (t : list Event) : list Z :=
  omap (fun e => match e with EvGetPullRequest _ _ n => Some n | _ => None end) t.
Definition stdout (t : list Event) : string :=
  fold_right (fun e acc => match e with EvStdout s => s +:+ acc | _ => acc end) EmptyString t.
Definition warnings (t : list Event) : list string :=
  omap (fun e => match e with EvWarn m => Some m | _ => None end) t.

(** The lines of a text: the pieces ended by a newline, and the rest when
    it is not empty. *)
Fixpoint lines_from (cur : string) (s : string) : list string :=
  match s with
  | EmptyString => if Go.isEmpty cur then [] else [cur]
  | String c rest =>
      if Ascii.eqb c "010" then cur :: lines_from EmptyString rest
      else lines_from (cur +:+ String c EmptyString) rest
  end.
Definition lines (s : string) : list string := lines_from EmptyString s.

(** A run from the command line: nothing has happened yet. *)
Definition start (o : StepPRLabelsOptions) : St := {| opts := o; trace := [] |}.

(** *** A concrete setting, for examples *)

Definition repo0 : GitRepository := {| Organisation := "acme"; Name := "web" |}.
Definition pr34 : GitPullRequest :=
  {| Labels := [ {| Label_Name := Some "bug" |};
                 {| Label_Name := Some "kind/feature" |} ] |}.
Definition provider0 : GitProvider :=
  {| GetPullRequest := fun _ _ n =>
       if (n =? 34)%Z then inl pr34 else inr (ErrExternal "404 Not Found") |}.
Definition sys0 (branch : string) : Sys :=
  {| CreateGitProvider := fun _ => inl (repo0, Some provider0);
     Getenv := fun k => if String.eqb k "BRANCH_NAME" then branch else EmptyString;
     ParseGitURL := fun _ => inr (ErrExternal "unsupported URL");
     unicodeToUpper := fun s => s |}.
Definition flags (pr prefix : string) : StepPRLabelsOptions :=
  {| Dir := "."; Prefix := prefix; PullRequest := pr; GitURL := EmptyString |}.

(** A provider whose pull request 35 has a label without a name, and a
    setting in which the repository is given by [--url]. *)
Definition pr35 : GitPullRequest :=
  {| Labels := [ {| Label_Name := Some "bug" |};
                 {| Label_Name := None |};
                 {| Label_Name := Some "kind/feature" |} ] |}.
Definition provider1 : GitProvider :=
  {| GetPullRequest := fun _ _ n =>
       if (n =? 35)%Z then inl pr35 else inr (ErrExternal "404 Not Found") |}.
Definition repo1 : GitRepository := {| Organisation := "other"; Name := "api" |}.
Definition sys1 (branch : string) : Sys :=
  {| CreateGitProvider := fun _ => inl (repo0, Some provider1);
     Getenv := fun k => if String.eqb k "BRANCH_NAME" then branch else EmptyString;
     ParseGitURL := fun u =>
       if String.eqb u "https://github.com/other/api" then inl repo1
       else inr (ErrExternal "unsupported URL");
     unicodeToUpper := fun s => s |}.
Definition flagsURL (pr url : string) : StepPRLabelsOptions :=
  {| Dir := "."; Prefix := EmptyString; PullRequest := pr; GitURL := url |}.

End PRLabels.

(* ------------------------------------------------------------------ *)
(** ** pkg/cmd/step/create/pr/step_create_pr_regex.go *)

Module CreatePRRegex.

(** The embedded [StepCreatePrOptions], declared in another file of the
    package; these are the fields read here. *)
Record StepCreatePrOptions : Type := {
  SrcGitURL : string;
  Version : string;
}.

(** StepCreatePullRequestRegexOptions contains the command line flags *)
Record StepCreatePullRequestRegexOptions : Type := {
  CreatePr : StepCreatePrOptions;
  Regexp : string;
  Files : list string;
  Kind : string;
}.

Definition set_CreatePr (v : StepCreatePrOptions) (o : StepCreatePullRequestRegexOptions) :=
  {| CreatePr := v; Regexp := Regexp o; Files := Files o; Kind := Kind o |}.
Definition set_Regexp (v : string) (o : StepCreatePullRequestRegexOptions) :=
  {| CreatePr := CreatePr o; Regexp := v; Files := Files o; Kind := Kind o |}.
Definition set_Kind (v : string) (o : StepCreatePullRequestRegexOptions) :=
  {| CreatePr := CreatePr o; Regexp := Regexp o; Files := Files o; Kind := v |}.

Inductive Event : Type :=
| EvWarnf (msg : string).
    (* log.Logger().Warnf(msg) *)

Record St : Type := {
  opts : StepCreatePullRequestRegexOptions;
  trace : list Event;
}.

Definition emit {E} (e : Event) : M St E unit :=
  modify (fun st => {| opts := opts st; trace := trace st ++ [e] |}).
Definition update {E}
    (f : StepCreatePullRequestRegexOptions -> StepCreatePullRequestRegexOptions) : M St E unit :=
  modify (fun st => {| opts := f (opts st); trace := trace st |}).
Definition options {E} : M St E StepCreatePullRequestRegexOptions :=
  fun st => (st, Ok (opts st)).

Section Validate.
(** [(o *StepCreatePrOptions) ValidateOptions(allowEmptyVersion)], a method
    of the embedded options declared in another file: it sees and may
    change the embedded options only, and returns an error or nil. *)
Variable ValidateOptions : bool -> StepCreatePrOptions -> StepCreatePrOptions * option error.
Local Open Scope go_scope.

(** ValidateRegexOptions validates the common options for regex pr steps *)
Definition ValidateRegexOptions : M St error unit :=
  o <- options ;
  let '(createPr, err) := ValidateOptions false (CreatePr o) in
  _ <- update (set_CreatePr createPr) ;
  _ <- check ErrWithStack err ;
  o <- options ;
  if Go.isEmpty (Regexp o) then fail (ErrMissingOption "regex") else
  (* ensure the regexp is multi-line *)
  _ <- when (negb (Go.HasPrefix (Regexp o) "(?m"))
         (update (set_Regexp (Go.Sprintf "(?m)%s" [Regexp o]))) ;
  o <- options ;
  _ <- when (Go.isEmpty (SrcGitURL (CreatePr o)))
         (emit (EvWarnf "srcRepo is not provided so generated PR will not be correctly linked in release notesPR")) ;
  _ <- when (Go.isEmpty (Kind o)) (update (set_Kind "regex")) ;
  ret tt.

End Validate.

(** What [Run] asks of the packages that make the change and the pull
    request, in the order it asks. *)
Inductive Call : Type :=
| CallRegexFn (version regexp : string) (files : list string)
    (* operations.CreatePullRequestRegexFn(version, regexp, files...) *)
| CallCreatePullRequest (kind : string) (fn : nat).
    (* o.CreatePullRequest(kind, fn) *)

Record RunSt : Type := {
  validated : St;
  calls : list Call;
}.

(** A computation on the options, inside a run. *)
Definition onOptions {E A} (m : M St E A) : M RunSt E A :=
  fun rs =>
    let '(st', r) := m (validated rs) in
    ({| validated := st'; calls := calls rs |}, r).

Definition record {E} (c : Call) : M RunSt E unit :=
  modify (fun rs => {| validated := validated rs; calls := calls rs ++ [c] |}).

Section RunCmd.
Variable ValidateOptions : bool -> StepCreatePrOptions -> StepCreatePrOptions * option error.
(** [operations.CreatePullRequestRegexFn], of another package: the
    function that changes the files, known here by a number, or an
    error. *)
Variable CreatePullRequestRegexFn : string -> string -> list string -> nat + error.
(** [(o *StepCreatePrOptions) CreatePullRequest(kind, fn)], declared in
    another file. *)
Variable CreatePullRequest : StepCreatePrOptions -> string -> nat -> option error.
Local Open Scope go_scope.

(** Run implements this command *)
Definition Run : M RunSt error unit :=
  _ <- mapErr ErrWithStack (onOptions (ValidateRegexOptions ValidateOptions)) ;
  o <- onOptions options ;
  _ <- record (CallRegexFn (Version (CreatePr o)) (Regexp o) (Files o)) ;
  fn <- lift ErrWithStack
          (CreatePullRequestRegexFn (Version (CreatePr o)) (Regexp o) (Files o)) ;
  _ <- record (CallCreatePullRequest (Kind o) fn) ;
  check ErrWithStack (CreatePullRequest (CreatePr o) (Kind o) fn).

End RunCmd.

(** *** A concrete setting, for examples *)

(** What the embedded validation does in the jx sources: a version and a
    target repository are required; only the version is modelled. *)
Definition validate0 (allowEmptyVersion : bool) (o : StepCreatePrOptions)
  : StepCreatePrOptions * option error :=
  if negb allowEmptyVersion && Go.isEmpty (Version o)
  then (o, Some (ErrMissingOption "version")) else (o, None).
Definition flags (regex : string) : St :=
  {| opts := {| CreatePr := {| SrcGitURL := EmptyString; Version := "1.2.3" |};
                Regexp := regex; Files := ["values.yaml"]; Kind := EmptyString |};
     trace := [] |}.

End CreatePRRegex.

(* ------------------------------------------------------------------ *)
(** ** pkg/jx/cmd/add_app.go and the file of its helpers *)

Module jenkinsv1.

(** [jenkinsv1.Environment], as far as the command reads it:
    [Spec.Source.URL] and [Spec.TeamSettings.AppsRepository]. *)
Record EnvironmentRepository : Type := { URL : string }.
Record TeamSettings : Type := { AppsRepository : string }.
Record EnvironmentSpec : Type := {
  Source : EnvironmentRepository;
  TeamSettings_ : TeamSettings;
}.
Record Environment : Type := { Spec : EnvironmentSpec }.

(** [jenkinsv1.Environment{}]: every field has its zero value. *)
Definition emptyEnvironment : Environment :=
  {| Spec := {| Source := {| URL := EmptyString |};
                TeamSettings_ := {| AppsRepository := EmptyString |} |} |}.

End jenkinsv1.

Module surveyutils.

(** [surveyutils.GeneratedSecret]. *)
Record GeneratedSecret : Type := {
  Name : string;
  Key : string;
  Value : string;
}.

End surveyutils.

Module AddApp.
Import jenkinsv1 surveyutils.

(** Clients and other values the command only hands on. *)
Definition Handle : Type := nat.

(** An open [*os.File], known by its name. *)
Definition File : Type := string.

Definition optionHelmUpdate : string := "helm-update".
Definition optionValues : string := "values".
Definition optionSet : string := "set".
Definition optionAlias : string := "alias".
Definition appsGeneratedSecretKey : string := "appsGeneratedSecrets".

Definition secretTemplate : string := "
{{- range .Values.generatedSecrets }}
apiVersion: v1
data:
  {{ .key }}: {{ .value }}
kind: Secret
metadata:
  name: {{ .name }} 
type: Opaque
{{- end }}
".

(** AddAppOptions, with the fields of the embedded [CommonOptions] that are
    read.  [DevEnv] is a pointer, nil until [Run] sets it; [ValuesFiles] is
    a slice, nil ([None]) or not. *)
Record AddAppOptions : Type := {
  Verbose : bool;
  Args : list string;
  GitOps : bool;
  DevEnv : option Environment;
  Repo : string;
  Username : string;
  Password : string;
  Alias : string;
  Namespace : string;
  Version : string;
  ReleaseName : string;
  SetValues : list string;
  ValuesFiles : option (list string);
  HelmUpdate : bool;
}.

Definition set_GitOps (g : bool) (d : option Environment) (o : AddAppOptions) :=
  {| Verbose := Verbose o; Args := Args o; GitOps := g; DevEnv := d;
     Repo := Repo o; Username := Username o; Password := Password o;
     Alias := Alias o; Namespace := Namespace o; Version := Version o;
     ReleaseName := ReleaseName o; SetValues := SetValues o;
     ValuesFiles := ValuesFiles o; HelmUpdate := HelmUpdate o |}.
Definition set_Repo (v : string) (o : AddAppOptions) :=
  {| Verbose := Verbose o; Args := Args o; GitOps := GitOps o; DevEnv := DevEnv o;
     Repo := v; Username := Username o; Password := Password o;
     Alias := Alias o; Namespace := Namespace o; Version := Version o;
     ReleaseName := ReleaseName o; SetValues := SetValues o;
     ValuesFiles := ValuesFiles o; HelmUpdate := HelmUpdate o |}.
Definition set_ValuesFiles (v : option (list string)) (o : AddAppOptions) :=
  {| Verbose := Verbose o; Args := Args o; GitOps := GitOps o; DevEnv := DevEnv o;
     Repo := Repo o; Username := Username o; Password := Password o;
     Alias := Alias o; Namespace := Namespace o; Version := Version o;
     ReleaseName := ReleaseName o; SetValues := SetValues o;
     ValuesFiles := v; HelmUpdate := HelmUpdate o |}.

(** [len(s)] of a slice that can be nil. *)
Definition slice (s : option (list string)) : list string := default [] s.

(** [helm.InstallChartOptions], as [installApp] fills it. *)
Record InstallChartOptions : Type := {
  ico_ReleaseName : string;
  ico_Chart : string;
  ico_Version : string;
  ico_Ns : string;
  ico_HelmUpdate : bool;
  ico_SetValues : list string;
  ico_ValueFiles : list string;
  ico_Repository : string;
  ico_Username : string;
  ico_Password : string;
}.

Inductive Level : Type := Info | Warn | Error.
Inductive LogArg : Type :=
| LStr (s : string)
| LErr (e : error).

(** What the command asks of its surroundings, in the order it asks. *)
Inductive Event : Type :=
| EvLog (lvl : Level) (format : string) (args : list LogArg)
    (* log.Infof, log.Warnf, log.Errorf *)
| EvVaultWrite (client : Handle) (path : string) (data : gmap string string)
    (* vault.WriteMap(client, path, data) *)
| EvMkdirAll (path : string) (perm : N)
    (* os.MkdirAll(path, perm) *)
| EvWriteFile (filename data : string) (perm : N)
    (* ioutil.WriteFile(filename, data, perm) *)
| EvTempFile (dir pattern : string)
    (* ioutil.TempFile(dir, pattern) *)
| EvFileWrite (f : File) (data : string)
    (* f.Write(data) *)
| EvFileClose (f : File)
    (* f.Close() *)
| EvDeleteFile (name : string)
    (* util.DeleteFile(name) *)
| EvHelp
    (* o.Cmd.Help() *)
| EvInspectChart (chart version repo username password : string)
    (* helm.InspectChart(chart, version, repo, username, password, ...) *)
| EvCreatePR (app alias version repo : string) (valuesFiles : list string)
             (dir branchNameText title message : string)
    (* o.createEnvironmentPullRequest(o.DevEnv, o.CreateAddRequirementFn(...), ...) *)
| EvEnsureHelm
    (* o.ensureHelm() *)
| EvInstallChart (options : InstallChartOptions)
    (* o.installChartOptions(options) *)
| EvOnInstall (app : string) (ns timeout : string).
    (* extensions.OnInstallFromName(app, ..., ns, ..., timeout) *)

Definition Trace : Type := list Event.

(** The surroundings of the command: constants and functions of other
    packages and files.  A collaborator that reads or changes the cluster,
    the secret store or the file system answers according to what has
    happened so far, so it takes the trace. *)
Record Sys : Type := {
  (* constants declared in other files *)
  DEFAULT_CHARTMUSEUM_URL : string;
  DefaultNamespace : string;
  optionRelease : string;
  optionNamespace : string;
  defaultInstallTimeout : string;
  (* functions without effects *)
  ParseGitURL : gits.ParseGitURL_t;
  filepath_Join : list string -> string;
  JSONToYAML : string -> string + error;
  yaml_Marshal : gmap string (list (option GeneratedSecret)) -> string + error;
  ColorInfo : string -> string;
  (* o.UseVault(): whether the team keeps its secrets in the secret store *)
  UseVault : bool;
  (* the cluster *)
  JXClientAndDevNamespace : Trace -> (Handle * string) + error;
  KubeClientAndDevNamespace : Trace -> (Handle * string) + error;
  CreateCertManagerClient : Trace -> Handle + error;
  GetDevEnvironment : Trace -> Handle -> string -> Environment + error;
  TeamAndEnvironmentNames : Trace -> (string * string) + error;
  (* jxClient.JenkinsV1().Apps(ns).List(selector): each app is kept by the
     text [%v] prints for it *)
  ListApps : Trace -> Handle -> string -> string -> list string + error;
  OnInstallFromName : Trace -> string -> string -> string -> option error;
  (* the secret store *)
  CreateSystemVaultClient : Trace -> string -> Handle + error;
  WriteMap : Trace -> Handle -> string -> gmap string string -> option error;
  (* the file system *)
  MkdirAll : Trace -> string -> N -> option error;
  WriteFile : Trace -> string -> string -> N -> option error;
  TempFile : Trace -> string -> string -> File + error;
  FileWrite : Trace -> File -> string -> option error;
  FileClose : Trace -> File -> option error;
  DeleteFile : Trace -> string -> option error;
  (* os.IsNotExist(err) for the error of os.Stat(name) *)
  StatIsNotExist : Trace -> string -> bool;
  ReadFile : Trace -> string -> string + error;
  (* helm: fetching the chart into a directory; name and version of a chart *)
  FetchChart : Trace -> string -> string -> string -> string -> string -> string + error;
  LoadChartNameAndVersion : Trace -> string -> (string * string) + error;
  ensureHelm : Trace -> option error;
  installChartOptions : Trace -> InstallChartOptions -> option error;
  (* the user: answers to the questions of a schema, as values and as the
     calls of CreateSecret(name, key, value) *)
  GenerateValues : Trace -> string -> (string * list (string * string * string)) + error;
  CmdHelp : Trace -> option error;
  (* the pull request on the environment repository: its URL *)
  createEnvironmentPullRequest :
    Trace -> option Environment -> string -> string -> string -> string + error;
}.

Record St : Type := {
  opts : AddAppOptions;
  trace : Trace;
}.

Definition emit {E} (e : Event) : M St E unit :=
  modify (fun st => {| opts := opts st; trace := trace st ++ [e] |}).
Definition update {E} (f : AddAppOptions -> AddAppOptions) : M St E unit :=
  modify (fun st => {| opts := f (opts st); trace := trace st |}).
Definition options {E} : M St E AddAppOptions :=
  fun st => (st, Ok (opts st)).
(** The answer of a collaborator at this point of the run. *)
Definition ask {E A} (f : Trace -> A) : M St E A :=
  fun st => (st, Ok (f (trace st))).
(** A call that is recorded, then answered. *)
Definition call {E A} (e : Event) (f : Trace -> A) : M St E A :=
  fun st => ({| opts := opts st; trace := trace st ++ [e] |}, Ok (f (trace st))).
(** Dereferencing a pointer. *)
Definition deref {E A} (p : option A) : M St E A :=
  match p with
  | Some a => ret a
  | None => panic
  end.

(** The function value returned next to the error by [handleValues] and
    [handleSecrets]: [func() {}], or the closure [close] over the temporary
    file, which is nil when [ioutil.TempFile] failed. *)
Inductive closer : Type :=
| NoClose
| CloseFile (f : option File).

Section Cmd.
Variable sys : Sys.
Local Open Scope go_scope.

(** A collaborator that returns a value or an error, the error being
    returned as it is. *)
Definition askR {A} (f : Trace -> A + error) : M St error A :=
  r <- ask f ; lift id r.

(** GetDevEnv gets the Development Enviornment CRD as devEnv,
    and also tells the user whether the development environment is using
    gitOps.  It has no error among its results, hence any [E]. *)
Definition GetDevEnv {E} : M St E (bool * Environment) :=
  o <- options ;
  r <- ask (JXClientAndDevNamespace sys) ;
  match r with
  | inr err =>
      _ <- when (Verbose o)
             (emit (EvLog Error ("Error loading team settings. %v" +:+ Go.nl) [LErr err])) ;
      ret (false, emptyEnvironment)
  | inl (jxClient, ns) =>
      r <- ask (fun t => GetDevEnvironment sys t jxClient ns) ;
      match r with
      | inr err =>
          _ <- emit (EvLog Error ("Error loading team settings. %v" +:+ Go.nl) [LErr err]) ;
          ret (false, emptyEnvironment)
      | inl devEnv =>
          let gitOps := negb (Go.isEmpty (URL (Source (Spec devEnv)))) in
          ret (gitOps, devEnv)
      end
  end.

(** OnAppInstall calls extensions.OnAppInstall for the current cmd, passing
    app and version *)
Definition OnAppInstall (app version : string) : M St error unit :=
  ' (jxClient, ns) <- askR (JXClientAndDevNamespace sys) ;
  ' (kubeClient, _) <- askR (KubeClientAndDevNamespace sys) ;
  certClient <- askR (CreateCertManagerClient sys) ;
  let selector := Go.Sprintf "chart=%s-%s" [app; version] in
  items <- askR (fun t => ListApps sys t jxClient ns selector) ;
  if (1 <? length items)%nat then
    fail (ErrText (Go.Sprintf "more than one app (%v) was found for %s"
                     [Go.showStrings items; selector]))
  else if (length items =? 1)%nat then
    err <- call (EvOnInstall app ns (defaultInstallTimeout sys))
                (fun t => OnInstallFromName sys t app ns (defaultInstallTimeout sys)) ;
    check id err
  else ret tt.

(** [o.ValuesFiles = append(o.ValuesFiles, name)], after a nil slice has
    been replaced by an empty one. *)
Definition appendValuesFile (name : string) (o : AddAppOptions) : AddAppOptions :=
  set_ValuesFiles (Some (slice (ValuesFiles o) ++ [name])) o.

Definition handleValues (dir app values : string) : M St (closer * error) closer :=
  valuesYaml <- lift (fun e => (NoClose,
                        ErrWrap e (Go.Sprintf ("error converting values from json to yaml"
                                               +:+ Go.nl +:+ Go.nl +:+ "%v") [Go.showBytes values])))
                     (JSONToYAML sys values) ;
  o <- options ;
  _ <- when (Verbose o)
         (emit (EvLog Info ("Generated values.yaml:" +:+ Go.nl +:+ Go.nl +:+ "%v" +:+ Go.nl)
                           [LStr (ColorInfo sys valuesYaml)])) ;
  let pattern := Go.Sprintf "%s-values.yaml" [app] in
  r <- call (EvTempFile EmptyString pattern) (fun t => TempFile sys t EmptyString pattern) ;
  match r with
  | inr err => fail (CloseFile None, err)
  | inl valuesFile =>
      let close := CloseFile (Some valuesFile) in
      err <- call (EvFileWrite valuesFile valuesYaml)
                  (fun t => FileWrite sys t valuesFile valuesYaml) ;
      _ <- check (pair close) err ;
      _ <- update (appendValuesFile valuesFile) ;
      ret close
  end.

Definition initVault : M St error (Handle * string) :=
  o <- options ;
  vaultBasepath <-
    (if GitOps o then
       devEnv <- deref (DevEnv o) ;
       gitInfo <- lift id (ParseGitURL sys (URL (Source (Spec devEnv)))) ;
       ret (Go.Join ["gitOps"; gits.Organisation gitInfo; gits.Name gitInfo] "/")
     else
       ' (teamName, _) <- askR (TeamAndEnvironmentNames sys) ;
       ret (Go.Join ["teams"; teamName] "/")) ;
  vaultClient <- askR (fun t => CreateSystemVaultClient sys t EmptyString) ;
  ret (vaultClient, vaultBasepath).

(** The loop [for _, secret := range secrets] of [handleSecrets]; an
    element of the slice is a pointer and may be nil. *)
Fixpoint writeSecrets (vaultClient : Handle) (vaultBasepath : string)
    (secrets : list (option GeneratedSecret)) : M St (closer * error) unit :=
  match secrets with
  | [] => ret tt
  | p :: rest =>
      secret <- deref p ;
      let path := Go.Join [vaultBasepath; Name secret] "/" in
      let data : gmap string string := {[ Key secret := Value secret ]} in
      err <- call (EvVaultWrite vaultClient path data)
                  (fun t => WriteMap sys t vaultClient path data) ;
      _ <- check (pair NoClose) err ;
      writeSecrets vaultClient vaultBasepath rest
  end.

Definition handleSecrets (dir app : string) (secrets : list (option GeneratedSecret))
  : M St (closer * error) closer :=
  (* We write a secret template into the chart, append the values for the
     generated secrets to values.yaml *)
  _ <- when (0 <? length secrets)%nat
    (if UseVault sys then
       ' (vaultClient, vaultBasepath) <- mapErr (pair NoClose) initVault ;
       writeSecrets vaultClient vaultBasepath secrets
     else
       (* For each secret, we write a file into the chart *)
       let templatesDir := filepath_Join sys [dir; "templates"] in
       err <- call (EvMkdirAll templatesDir 448) (fun t => MkdirAll sys t templatesDir 448) ;
       _ <- check (pair NoClose) err ;
       let fileName := filepath_Join sys [templatesDir; "app-generated-secret-template.yaml"] in
       err <- call (EvWriteFile fileName secretTemplate 493)
                   (fun t => WriteFile sys t fileName secretTemplate 493) ;
       _ <- check (pair NoClose) err ;
       let allSecrets : gmap string (list (option GeneratedSecret)) :=
         {[ appsGeneratedSecretKey := secrets ]} in
       secretsYaml <- lift (pair NoClose) (yaml_Marshal sys allSecrets) ;
       let pattern := Go.Sprintf "%s-secrets.yaml" [app] in
       r <- call (EvTempFile EmptyString pattern) (fun t => TempFile sys t EmptyString pattern) ;
       match r with
       | inr err => fail (CloseFile None, err)
       | inl secretsFile =>
           let close := CloseFile (Some secretsFile) in
           err <- call (EvFileWrite secretsFile secretsYaml)
                       (fun t => FileWrite sys t secretsFile secretsYaml) ;
           _ <- check (pair close) err ;
           update (appendValuesFile secretsFile)
       end) ;
  ret NoClose.

Definition generateQuestions (schema : string)
  : M St error (string * list (option GeneratedSecret)) :=
  ' (values, created) <- askR (fun t => GenerateValues sys t schema) ;
  let secrets :=
    map (fun '(name, key, value) =>
           Some {| Name := name; Key := key; Value := value |}) created in
  ret (values, secrets).

(** Calling the function value returned by [handleValues] or
    [handleSecrets].  On a nil file [Close] returns an error and the
    warning about it calls [Name], which panics. *)
Definition runClose (c : closer) : M St error unit :=
  match c with
  | NoClose => ret tt
  | CloseFile None => panic
  | CloseFile (Some f) =>
      err <- call (EvFileClose f) (fun t => FileClose sys t f) ;
      _ <- match err with
           | Some e => emit (EvLog Warn ("Error closing %s because %v" +:+ Go.nl) [LStr f; LErr e])
           | None => ret tt
           end ;
      err <- call (EvDeleteFile f) (fun t => DeleteFile sys t f) ;
      match err with
      | Some e => emit (EvLog Warn ("Error deleting %s because %v" +:+ Go.nl) [LStr f; LErr e])
      | None => ret tt
      end
  end.

(** [close, err := m; defer close(); if err != nil { return err }; rest]
    where [rest] runs to the end of the function: the deferred call runs
    when [rest] has returned or panicked, and on the early return. *)
Definition deferring {A} (m : M St (closer * error) closer) (rest : M St error A)
  : M St error A :=
  fun st =>
    let finish (c : closer) (r : St * outcome error A) :=
      match runClose c (fst r) with
      | (st', Panic) => (st', Panic)
      | (st', _) => (st', snd r)
      end in
    match m st with
    | (st1, Ok c) => finish c (rest st1)
    | (st1, Err (c, e)) => finish c (st1, Err e)
    | (st1, Panic) => (st1, Panic)
    end.

Definition createPR (app dir version : string) : M St error unit :=
  let branchNameText := "add-app-" +:+ app +:+ "-" +:+ version in
  let title := Go.Sprintf "Add %s %s" [app; version] in
  let message := Go.Sprintf "Add app %s %s" [app; version] in
  o <- options ;
  r <- call (EvCreatePR app (Alias o) version (Repo o) (slice (ValuesFiles o))
                        dir branchNameText title message)
            (fun t => createEnvironmentPullRequest sys t (DevEnv o)
                        branchNameText title message) ;
  url <- lift (fun e => ErrWrap e (Go.Sprintf "creating pr for %s" [app])) r ;
  emit (EvLog Info ("Added app via Pull Request %s" +:+ Go.nl) [LStr url]).

Definition installApp (name chart version : string) : M St error unit :=
  err <- call EvEnsureHelm (ensureHelm sys) ;
  _ <- check (fun e => ErrWrap e "failed to ensure that helm is present") err ;
  o <- options ;
  let setValues := flat_map (fun vs => Go.Split vs ",") (SetValues o) in
  let ico :=
    {| ico_ReleaseName := name; ico_Chart := chart; ico_Version := version;
       ico_Ns := Namespace o; ico_HelmUpdate := HelmUpdate o;
       ico_SetValues := setValues; ico_ValueFiles := slice (ValuesFiles o);
       ico_Repository := Repo o; ico_Username := Username o;
       ico_Password := Password o |} in
  err <- call (EvInstallChart ico) (fun t => installChartOptions sys t ico) ;
  _ <- check (fun e => ErrFmt "failed to install name %s: %v" [name] e) err ;
  (* Attach the secrets to the name CRD *)
  OnAppInstall name version.

(** The function [inspectChartFunc] that [Run] hands to
    [helm.InspectChart]; [version] is the variable of [Run] it captures. *)
Definition inspectChartFunc (app version dir : string) : M St error unit :=
  version <-
    (if Go.isEmpty version then
       r <- ask (fun t => LoadChartNameAndVersion sys t (filepath_Join sys [dir; "Chart.yaml"])) ;
       ' (_, version) <- lift (fun e => ErrWrap e (Go.Sprintf "error loading chart from %s" [dir])) r ;
       o <- options ;
       _ <- when (Verbose o)
              (emit (EvLog Info ("No version specified so using latest version which is %s" +:+ Go.nl)
                                [LStr (ColorInfo sys version)])) ;
       ret version
     else ret version) ;
  let schemaFile := filepath_Join sys [dir; "values.schema.json"] in
  notExist <- ask (fun t => StatIsNotExist sys t schemaFile) ;
  schema <-
    (if negb notExist then
       r <- ask (fun t => ReadFile sys t schemaFile) ;
       schema <- lift (fun e => ErrWrap e (Go.Sprintf "error reading schema file %s" [schemaFile])) r ;
       ret (Some schema)
     else ret None) ;
  let deploy : M St error unit :=
    o <- options ;
    if GitOps o then createPR app dir version else installApp app dir version in
  match schema with
  | Some schema =>
      o <- options ;
      _ <- when (0 <? length (slice (ValuesFiles o)))%nat
             (emit (EvLog Warn "values.yaml specified by --valuesFiles will be used despite presence of schema in app" [])) ;
      ' (values, secrets) <-
        mapErr (fun e => ErrWrap e (Go.Sprintf "asking questions for schema %s" [schemaFile]))
               (generateQuestions schema) ;
      deferring (handleValues dir app values)
        (deferring (handleSecrets dir app secrets) deploy)
  | None => deploy
  end.

(** [helm.InspectChart], of another package: it fetches the chart into a
    directory and returns what the inspector returns on that directory. *)
Definition InspectChart (chart version repo username password : string)
    (inspector : string -> M St error unit) : M St error unit :=
  r <- call (EvInspectChart chart version repo username password)
            (fun t => FetchChart sys t chart version repo username password) ;
  dir <- lift id r ;
  inspector dir.

(** Run implements this command *)
Definition Run : M St error unit :=
  ' (gitOps, devEnv) <- GetDevEnv ;
  _ <- update (set_GitOps gitOps (Some devEnv)) ;
  o <- options ;
  _ <- when (Go.isEmpty (Repo o))
         (update (set_Repo (AppsRepository (TeamSettings_ (Spec devEnv))))) ;
  o <- options ;
  _ <- when (Go.isEmpty (Repo o)) (update (set_Repo (DEFAULT_CHARTMUSEUM_URL sys))) ;
  o <- options ;
  _ <- when (GitOps o)
         (let msg := "unable to specify --%s when using GitOps for your dev environment" in
          if negb (Go.isEmpty (ReleaseName o)) then
            fail (ErrInvalidOption (optionRelease sys) (ReleaseName o)
                    (Go.Sprintf msg [optionRelease sys]))
          else if negb (HelmUpdate o) then
            fail (ErrInvalidOption optionHelmUpdate (Go.showBool (HelmUpdate o))
                    (Go.Sprintf msg [optionHelmUpdate]))
          else if negb (Go.isEmpty (Namespace o))
                  && negb (String.eqb (Namespace o) (DefaultNamespace sys)) then
            fail (ErrInvalidOption (optionNamespace sys) (Namespace o)
                    (Go.Sprintf msg [optionNamespace sys]))
          else if (0 <? length (SetValues o))%nat then
            fail (ErrInvalidOption optionSet (Go.showStrings (SetValues o))
                    (Go.Sprintf msg [optionSet]))
          else if (1 <? length (slice (ValuesFiles o)))%nat then
            fail (ErrInvalidOption optionValues (Go.showStrings (SetValues o))
                    (Go.Sprintf "no more than one --%s can be specified when using GitOps for your dev environment"
                       [optionValues]))
          else if negb (UseVault sys) then
            fail (ErrText "cannot install apps without a vault when using GitOps for your dev environment")
          else ret tt) ;
  _ <- when (negb (GitOps o))
         (if negb (Go.isEmpty (Alias o)) then
            fail (ErrInvalidOption optionAlias (Alias o)
                    (Go.Sprintf "unable to specify --%s when NOT using GitOps for your dev environment"
                       [optionAlias]))
          else ret tt) ;
  match Args o with
  | [app] =>
      if Go.isEmpty (Repo o) then fail (ErrText "must specify a repository") else
      let version := Version o in
      InspectChart app version (Repo o) (Username o) (Password o)
        (inspectChartFunc app version)
  | _ =>
      err <- call EvHelp (CmdHelp sys) ;
      check id err
  end.

(** What [Run] does once [o.GitOps] and [o.DevEnv] are set: the same text
    as in [Run], from the first test of [o.Repo] on. *)
Definition afterDevEnv (devEnv : Environment) : M St error unit :=
  o <- options ;
  _ <- when (Go.isEmpty (Repo o))
         (update (set_Repo (AppsRepository (TeamSettings_ (Spec devEnv))))) ;
  o <- options ;
  _ <- when (Go.isEmpty (Repo o)) (update (set_Repo (DEFAULT_CHARTMUSEUM_URL sys))) ;
  o <- options ;
  _ <- when (GitOps o)
         (let msg := "unable to specify --%s when using GitOps for your dev environment" in
          if negb (Go.isEmpty (ReleaseName o)) then
            fail (ErrInvalidOption (optionRelease sys) (ReleaseName o)
                    (Go.Sprintf msg [optionRelease sys]))
          else if negb (HelmUpdate o) then
            fail (ErrInvalidOption optionHelmUpdate (Go.showBool (HelmUpdate o))
                    (Go.Sprintf msg [optionHelmUpdate]))
          else if negb (Go.isEmpty (Namespace o))
                  && negb (String.eqb (Namespace o) (DefaultNamespace sys)) then
            fail (ErrInvalidOption (optionNamespace sys) (Namespace o)
                    (Go.Sprintf msg [optionNamespace sys]))
          else if (0 <? length (SetValues o))%nat then
            fail (ErrInvalidOption optionSet (Go.showStrings (SetValues o))
                    (Go.Sprintf msg [optionSet]))
          else if (1 <? length (slice (ValuesFiles o)))%nat then
            fail (ErrInvalidOption optionValues (Go.showStrings (SetValues o))
                    (Go.Sprintf "no more than one --%s can be specified when using GitOps for your dev environment"
                       [optionValues]))
          else if negb (UseVault sys) then
            fail (ErrText "cannot install apps without a vault when using GitOps for your dev environment")
          else ret tt) ;
  _ <- when (negb (GitOps o))
         (if negb (Go.isEmpty (Alias o)) then
            fail (ErrInvalidOption optionAlias (Alias o)
                    (Go.Sprintf "unable to specify --%s when NOT using GitOps for your dev environment"
                       [optionAlias]))
          else ret tt) ;
  match Args o with
  | [app] =>
      if Go.isEmpty (Repo o) then fail (ErrText "must specify a repository") else
      let version := Version o in
      InspectChart app version (Repo o) (Username o) (Password o)
        (inspectChartFunc app version)
  | _ =>
      err <- call EvHelp (CmdHelp sys) ;
      check id err
  end.

(** The last statements of [inspectChartFunc]: a pull request under
    GitOps, an installation otherwise. *)
Definition deploy (app dir version : string) : M St error unit :=
  o <- options ;
  if GitOps o then createPR app dir version else installApp app dir version.

End Cmd.

(** *** Reading a trace *)

Definition vaultWrites (t : Trace) : list (string * gmap string string) :=
  omap (fun e => match e with EvVaultWrite _ p d => Some (p, d) | _ => None end) t.
(** Files and directories created in the chart: [os.MkdirAll] and
    [ioutil.WriteFile]. *)
Definition isChartWrite (e : Event) : bool :=
  match e with
  | EvMkdirAll _ _ | EvWriteFile _ _ _ => true
  | _ => false
  end.
Definition chartWrites (t : Trace) : list Event := List.filter isChartWrite t.
(** Temporary files, created or written. *)
Definition isTempWrite (e : Event) : bool :=
  match e with
  | EvTempFile _ _ | EvFileWrite _ _ => true
  | _ => false
  end.
Definition tempWrites (t : Trace) : list Event := List.filter isTempWrite t.

(** A computation that creates or writes nothing in the chart. *)
Definition quiet {E A} (m : M St E A) : Prop :=
  forall st, chartWrites (trace (fst (m st))) = chartWrites (trace st).

(** A computation keeps the property [I] of states. *)
Definition inv (I : St -> Prop) {E A} (m : M St E A) : Prop :=
  forall st, I st -> I (fst (m st)).

(** Since the trace was [t0]: the options satisfy [K], and every event
    added to the trace is one of [ok]. *)
Definition since (K : AddAppOptions -> Prop) (ok : Event -> bool) (t0 : Trace) (st : St) : Prop :=
  K (opts st) /\ exists new, trace st = t0 ++ new /\ forallb ok new = true.

Definition isVaultWrite (e : Event) : bool :=
  match e with
  | EvVaultWrite _ _ _ => true
  | _ => false
  end.
(** Installing with helm: [ensureHelm], [installChartOptions] and the hook
    run after an installation. *)
Definition isInstall (e : Event) : bool :=
  match e with
  | EvEnsureHelm | EvInstallChart _ | EvOnInstall _ _ _ => true
  | _ => false
  end.
Definition isInstallHook (e : Event) : bool :=
  match e with
  | EvOnInstall _ _ _ => true
  | _ => false
  end.
Definition isPullRequest (e : Event) : bool :=
  match e with
  | EvCreatePR _ _ _ _ _ _ _ _ _ => true
  | _ => false
  end.
Definition isLog (e : Event) : bool :=
  match e with
  | EvLog _ _ _ => true
  | _ => false
  end.
Definition isHelp (e : Event) : bool :=
  match e with
  | EvHelp => true
  | _ => false
  end.
(** Anything written: to the secret store, into the chart or to a
    temporary file. *)
Definition isWrite (e : Event) : bool :=
  isVaultWrite e || isChartWrite e || isTempWrite e.

(** The flags [Run] only reads are those of [o0], and the values files of
    [o0] are still the first values files. *)
Definition sameFlags (o0 o : AddAppOptions) : Prop :=
  Verbose o = Verbose o0 /\ Args o = Args o0 /\
  Username o = Username o0 /\ Password o = Password o0 /\
  Alias o = Alias o0 /\ Namespace o = Namespace o0 /\ Version o = Version o0 /\
  ReleaseName o = ReleaseName o0 /\ SetValues o = SetValues o0 /\
  HelmUpdate o = HelmUpdate o0 /\
  exists added, slice (ValuesFiles o) = slice (ValuesFiles o0) ++ added.

(** The options [NewCmdAddApp] and [addFlags] start from when no flag is
    given: [kube.DefaultNamespace] as namespace, helm update on, empty
    (not nil) lists of values files and of set values, everything else
    empty. *)
Definition cliDefaults (defaultNamespace : string) (args : list string) : AddAppOptions :=
  {| Verbose := false; Args := args; GitOps := false; DevEnv := None;
     Repo := EmptyString; Username := EmptyString; Password := EmptyString;
     Alias := EmptyString; Namespace := defaultNamespace; Version := EmptyString;
     ReleaseName := EmptyString; SetValues := []; ValuesFiles := Some [];
     HelmUpdate := true |}.

(** The event of writing one secret under [base] in the secret store. *)
Definition vaultEvent (client : Handle) (base : string) (s : GeneratedSecret) : Event :=
  EvVaultWrite client (Go.Join [base; Name s] "/") {[ Key s := Value s ]}.

(** The layout of the secret store as the specification words it:
    [gitOps/<org>/<repo>/<secretName>] for an environment under GitOps,
    [teams/<team>/<secretName>] otherwise. *)
Definition storePath (gitOps : bool) (org repo team secretName : string) : string :=
  if gitOps then "gitOps/" +:+ org +:+ "/" +:+ repo +:+ "/" +:+ secretName
  else "teams/" +:+ team +:+ "/" +:+ secretName.

(** *** A concrete setting, for examples *)

(** A team ["acme"] whose development environment is kept at [url] (the
    empty string when it is not under GitOps), whose secret store is in use
    or not, and reachable or not; an app whose chart has a schema asking
    for two secrets. *)
Definition sys0 (useVault storeUp : bool) (url : string) : Sys :=
  {| DEFAULT_CHARTMUSEUM_URL := "http://chartmuseum.jenkins-x.io";
     DefaultNamespace := "jx";
     optionRelease := "release";
     optionNamespace := "namespace";
     defaultInstallTimeout := "600";
     ParseGitURL := fun u =>
       if Go.isEmpty u then inr (ErrExternal "empty git URL")
       else inl {| gits.Organisation := "acme"; gits.Name := "environment-dev" |};
     filepath_Join := fun l => Go.Join l "/";
     JSONToYAML := fun v => inl v;
     yaml_Marshal := fun _ => inl "appsGeneratedSecrets: []";
     ColorInfo := fun x => x;
     UseVault := useVault;
     JXClientAndDevNamespace := fun _ => inl (1%nat, "jx");
     KubeClientAndDevNamespace := fun _ => inl (2%nat, "jx");
     CreateCertManagerClient := fun _ => inl 3%nat;
     GetDevEnvironment := fun _ _ _ =>
       inl {| Spec := {| Source := {| URL := url |};
                         TeamSettings_ := {| AppsRepository := EmptyString |} |} |};
     TeamAndEnvironmentNames := fun _ => inl ("acme", "dev");
     ListApps := fun _ _ _ _ => inl [];
     OnInstallFromName := fun _ _ _ _ => None;
     CreateSystemVaultClient := fun _ _ =>
       if storeUp then inl 4%nat else inr (ErrExternal "no vault found");
     WriteMap := fun _ _ _ _ => None;
     MkdirAll := fun _ _ _ => None;
     WriteFile := fun _ _ _ _ => None;
     TempFile := fun _ _ pattern => inl ("/tmp/" +:+ pattern);
     FileWrite := fun _ _ _ => None;
     FileClose := fun _ _ => None;
     DeleteFile := fun _ _ => None;
     StatIsNotExist := fun _ _ => false;
     ReadFile := fun _ _ => inl "{}";
     FetchChart := fun _ chart _ _ _ _ => inl ("/tmp/jx-helm-fetch-" +:+ chart);
     LoadChartNameAndVersion := fun _ _ => inl ("app", "1.0.0");
     ensureHelm := fun _ => None;
     installChartOptions := fun _ _ => None;
     GenerateValues := fun _ _ =>
       inl ("{}", [("db", "password", "s3cr3t"); ("api", "token", "t0k3n")]);
     CmdHelp := fun _ => None;
     createEnvironmentPullRequest := fun _ _ _ _ _ =>
       inl "https://github.com/acme/environment-dev/pull/1" |}.

Definition flags0 : AddAppOptions :=
  {| Verbose := false; Args := ["app"]; GitOps := false; DevEnv := None;
     Repo := EmptyString; Username := EmptyString; Password := EmptyString;
     Alias := EmptyString; Namespace := EmptyString; Version := EmptyString;
     ReleaseName := EmptyString; SetValues := []; ValuesFiles := None;
     HelmUpdate := true |}.
Definition start (o : AddAppOptions) : St := {| opts := o; trace := [] |}.

(** The flags of [flags0] with a release name and an alias. *)
Definition flagsWith (release alias : string) : AddAppOptions :=
  {| Verbose := false; Args := ["app"]; GitOps := false; DevEnv := None;
     Repo := EmptyString; Username := EmptyString; Password := EmptyString;
     Alias := alias; Namespace := EmptyString; Version := EmptyString;
     ReleaseName := release; SetValues := []; ValuesFiles := None;
     HelmUpdate := true |}.

Definition secrets0 : list (option GeneratedSecret) :=
  [ Some {| Name := "db"; Key := "password"; Value := "s3cr3t" |};
    Some {| Name := "api"; Key := "token"; Value := "t0k3n" |} ].

(** The options as [Run] leaves them for [handleSecrets] in that setting. *)
Definition ready (gitOps : bool) (url : string) : AddAppOptions :=
  set_GitOps gitOps
    (Some {| Spec := {| Source := {| URL := url |};
                        TeamSettings_ := {| AppsRepository := EmptyString |} |} |})
    flags0.

(** The setting [sys0] without a secret store and outside GitOps, where the
    chart has a schema or not, temporary files can be created or not, and
    [apps] are the apps the cluster lists for the chart. *)
Definition sys1 (hasSchema tempUp : bool) (apps : list string) : Sys :=
  {| DEFAULT_CHARTMUSEUM_URL := "http://chartmuseum.jenkins-x.io";
     DefaultNamespace := "jx";
     optionRelease := "release";
     optionNamespace := "namespace";
     defaultInstallTimeout := "600";
     ParseGitURL := fun u =>
       if Go.isEmpty u then inr (ErrExternal "empty git URL")
       else inl {| gits.Organisation := "acme"; gits.Name := "environment-dev" |};
     filepath_Join := fun l => Go.Join l "/";
     JSONToYAML := fun v => inl v;
     yaml_Marshal := fun _ => inl "appsGeneratedSecrets: []";
     ColorInfo := fun x => x;
     UseVault := false;
     JXClientAndDevNamespace := fun _ => inl (1%nat, "jx");
     KubeClientAndDevNamespace := fun _ => inl (2%nat, "jx");
     CreateCertManagerClient := fun _ => inl 3%nat;
     GetDevEnvironment := fun _ _ _ =>
       inl {| Spec := {| Source := {| URL := EmptyString |};
                         TeamSettings_ := {| AppsRepository := EmptyString |} |} |};
     TeamAndEnvironmentNames := fun _ => inl ("acme", "dev");
     ListApps := fun _ _ _ _ => inl apps;
     OnInstallFromName := fun _ _ _ _ => None;
     CreateSystemVaultClient := fun _ _ => inr (ErrExternal "no vault found");
     WriteMap := fun _ _ _ _ => None;
     MkdirAll := fun _ _ _ => None;
     WriteFile := fun _ _ _ _ => None;
     TempFile := fun _ _ pattern =>
       if tempUp then inl ("/tmp/" +:+ pattern)
       else inr (ErrExternal "no space left on device");
     FileWrite := fun _ _ _ => None;
     FileClose := fun _ _ => None;
     DeleteFile := fun _ _ => None;
     StatIsNotExist := fun _ _ => negb hasSchema;
     ReadFile := fun _ _ => inl "{}";
     FetchChart := fun _ chart _ _ _ _ => inl ("/tmp/jx-helm-fetch-" +:+ chart);
     LoadChartNameAndVersion := fun _ _ => inl ("app", "1.0.0");
     ensureHelm := fun _ => None;
     installChartOptions := fun _ _ => None;
     GenerateValues := fun _ _ =>
       inl ("{}", [("db", "password", "s3cr3t"); ("api", "token", "t0k3n")]);
     CmdHelp := fun _ => None;
     createEnvironmentPullRequest := fun _ _ _ _ _ =>
       inl "https://github.com/acme/environment-dev/pull/1" |}.

(** The flags of [flags0] with values given by [--set]. *)
Definition flagsSet (vals : list string) : AddAppOptions :=
  {| Verbose := false; Args := ["app"]; GitOps := false; DevEnv := None;
     Repo := EmptyString; Username := EmptyString; Password := EmptyString;
     Alias := EmptyString; Namespace := EmptyString; Version := EmptyString;
     ReleaseName := EmptyString; SetValues := vals; ValuesFiles := None;
     HelmUpdate := true |}.

End AddApp.

(* ================================================================== *)
(** * Properties *)

(** ** The library functions on small inputs *)

Example HasPrefix_marker : Go.HasPrefix "(?m)^a" "(?m" = true.
Proof. reflexivity. Qed.
Example TrimPrefix_PR : Go.TrimPrefix "PR-34" "PR-" = "34".
Proof. reflexivity. Qed.
Example TrimPrefix_absent : Go.TrimPrefix "34" "PR-" = "34".
Proof. reflexivity. Qed.
Example Join_three : Go.Join ["gitOps"; "acme"; "env"] "/" = "gitOps/acme/env".
Proof. reflexivity. Qed.
Example Atoi_34 : Go.Atoi "34" = (34, None).
Proof. reflexivity. Qed.
Example Atoi_PR_34 : Go.Atoi "PR-34" = (0, Some (ErrNum "Atoi" "PR-34" false)).
Proof. reflexivity. Qed.
Example Atoi_signs : Go.Atoi "-7" = (-7, None) /\ Go.Atoi "+5" = (5, None).
Proof. split; reflexivity. Qed.
Example Atoi_sign_only : Go.Atoi "-" = (0, Some (ErrNum "Atoi" "-" false)).
Proof. reflexivity. Qed.
Example Atoi_out_of_range :
  Go.Atoi "9223372036854775808"
  = (9223372036854775807, Some (ErrNum "Atoi" "9223372036854775808" true)).
Proof. reflexivity. Qed.
Example Atoi_range_before_syntax :
  Go.Atoi "99999999999999999999999x"
  = (9223372036854775807, Some (ErrNum "Atoi" "99999999999999999999999x" true)).
Proof. reflexivity. Qed.
Example Atoi_empty : Go.Atoi "" = (0, Some (ErrNum "Atoi" "" false)).
Proof. reflexivity. Qed.
Example Atoi_least : Go.Atoi "-9223372036854775808" = (-9223372036854775808, None).
Proof. reflexivity. Qed.
Example ReplaceAllString_runs : Go.ReplaceAllString "kind/feature  x" "_" = "kind_feature_x".
Proof. reflexivity. Qed.
Example Sprintf_label : Go.Sprintf "%v_%v='%v'" ["P"; "A"; "a"] = "P_A='a'".
Proof. reflexivity. Qed.
Example Split_commas : Go.Split "a=1,b=2" "," = ["a=1"; "b=2"].
Proof. reflexivity. Qed.
Example Itoa_small : Go.Itoa 0 = "0" /\ Go.Itoa (-12) = "-12".
Proof. split; reflexivity. Qed.

(** ** Strings *)

Lemma append_empty_r (s : string) : s +:+ "" = s.
Proof.
  induction s as [|c s IH]; [reflexivity|].
  change (String c (s +:+ "") = String c s). now rewrite IH.
Qed.

Lemma isEmpty_true (s : string) : Go.isEmpty s = true <-> s = "".
Proof. destruct s; simpl; split; intros H; congruence. Qed.

Lemma isEmpty_false (s : string) : Go.isEmpty s = false <-> s <> "".
Proof. destruct s; simpl; split; intros H; congruence. Qed.

(** A failed parse that is a syntax error yields the number 0. *)
Lemma Atoi_syntax_zero (s : string) :
  snd (Go.Atoi s) = Some (ErrNum "Atoi" s false) -> fst (Go.Atoi s) = 0.
Proof.
  unfold Go.Atoi.
  destruct (Go.ParseUint _) as [un| |]; [|reflexivity|].
  - destruct (negb _ && _); [simpl; congruence|].
    destruct (Go.HasPrefix s "-" && _); simpl; congruence.
  - destruct (Go.HasPrefix s "-"); simpl; congruence.
Qed.

(** ** The environment key of a label *)

Module EnvKey.
Import Go.

Ltac each_byte c := destruct c as [[] [] [] [] [] [] [] []]; vm_compute; try reflexivity.

Lemma isAlnum_ascii c : isAlnum c = true -> (byte_of c <? 128)%N = true.
Proof. each_byte c; discriminate. Qed.

Lemma isAlnum_upperByte c : isAlnum (upperByte c) = isAlnum c.
Proof. each_byte c. Qed.

Lemma upperByte_other c : isAlnum c = false -> upperByte c = c.
Proof. each_byte c; discriminate. Qed.

Lemma upperByte_twice c : upperByte (upperByte c) = upperByte c.
Proof. each_byte c. Qed.

Lemma replaceRuns_tidy s : forall b, tidy b (replaceRuns b s "_") = true.
Proof.
  induction s as [|c s IH]; intros b; simpl; [reflexivity|].
  destruct (isAlnum c) eqn:Hc.
  - simpl. rewrite Hc. apply IH.
  - destruct b; [apply IH|]. simpl. apply IH.
Qed.

Lemma replaceRuns_fixed s : forall b, tidy b s = true -> replaceRuns b s "_" = s.
Proof.
  induction s as [|c s IH]; intros b; simpl; [reflexivity|].
  destruct (isAlnum c) eqn:Hc.
  - intros H. now rewrite IH.
  - intros H. apply andb_prop in H as [H Hs]. apply andb_prop in H as [Hsep Hb].
    apply Ascii.eqb_eq in Hsep. subst c.
    destruct b; [discriminate|]. simpl. now rewrite IH.
Qed.

Lemma tidy_isASCII s : forall b, tidy b s = true -> isASCII s = true.
Proof.
  induction s as [|c s IH]; intros b; simpl; [reflexivity|].
  destruct (isAlnum c) eqn:Hc.
  - intros H. rewrite (isAlnum_ascii _ Hc). simpl. eauto.
  - intros H. apply andb_prop in H as [H Hs]. apply andb_prop in H as [Hsep _].
    apply Ascii.eqb_eq in Hsep. subst c. simpl. eauto.
Qed.

Lemma tidy_upper s : forall b, tidy b s = true -> tidy b (mapBytes upperByte s) = true.
Proof.
  induction s as [|c s IH]; intros b; simpl; [reflexivity|].
  rewrite isAlnum_upperByte.
  destruct (isAlnum c) eqn:Hc; [apply IH|].
  rewrite (upperByte_other _ Hc).
  intros H. apply andb_prop in H as [H Hs]. rewrite H. simpl. now apply IH.
Qed.

Lemma upper_twice s : mapBytes upperByte (mapBytes upperByte s) = mapBytes upperByte s.
Proof. induction s as [|c s IH]; simpl; [reflexivity|]. now rewrite upperByte_twice, IH. Qed.

(** On the result of the replacement [strings.ToUpper] takes its ASCII
    branch, whatever the Unicode mapping is. *)
Lemma ToUpper_replaced u x :
  ToUpper u (ReplaceAllString x "_") = mapBytes upperByte (ReplaceAllString x "_").
Proof.
  unfold ToUpper, ReplaceAllString.
  now rewrite (tidy_isASCII _ false (replaceRuns_tidy x false)).
Qed.

End EnvKey.

(** C5. The normalization of a label name into its environment key
    (every run of characters outside [a-zA-Z0-9] replaced by ["_"], then
    upper-cased) is a function defined on every string, its result depends
    on the name only (not on the Unicode tables upper-casing consults),
    and it is idempotent: normalizing a normalized name changes nothing. *)
Theorem C5_envKey_idempotent (sys sys' : PRLabels.Sys) (x : string) :
  PRLabels.envKey sys x = PRLabels.envKey sys' x /\
  PRLabels.envKey sys (PRLabels.envKey sys x) = PRLabels.envKey sys x.
Proof.
  unfold PRLabels.envKey. rewrite !EnvKey.ToUpper_replaced. split; [reflexivity|].
  pose proof (EnvKey.tidy_upper _ _ (EnvKey.replaceRuns_tidy x false)) as Ht.
  unfold Go.ReplaceAllString at 1 2.
  rewrite (EnvKey.replaceRuns_fixed _ _ Ht).
  apply EnvKey.upper_twice.
Qed.

Example envKey_feature :
  PRLabels.envKey (PRLabels.sys0 "") "kind/feature-request!" = "KIND_FEATURE_REQUEST_".
Proof. reflexivity. Qed.

(** ** Pull-request labels *)

Module PRLabelsFacts.
Import gits PRLabels.

Ltac step :=
  unfold Run, bind, options, lift, check, when, update, emit, modify, ret, fail, panic, id;
  simpl.

(** The loop leaves the options alone and only writes to standard output. *)
Lemma printLabels_frame sys labels : forall st,
  opts (fst (printLabels sys labels st)) = opts st /\
  requested (trace (fst (printLabels sys labels st))) = requested (trace st) /\
  warnings (trace (fst (printLabels sys labels st))) = warnings (trace st).
Proof.
  induction labels as [|v rest IH]; intros st; simpl; [auto|].
  destruct (Label_Name v) as [name|]; [|simpl; auto].
  step.
  match goal with |- context [printLabels sys rest ?s] => specialize (IH s) end.
  destruct IH as (Ho & Hr & Hw). rewrite Ho, Hr, Hw. simpl.
  unfold requested, warnings. rewrite !omap_app. simpl. rewrite !app_nil_r. auto.
Qed.

(** When every label has a name, the loop prints the text of each label,
    in order, and succeeds. *)
Lemma printLabels_named sys names : forall st,
  printLabels sys (map (fun n => {| Label_Name := Some n |}) names) st
  = ({| opts := opts st;
        trace := trace st ++ map (fun n => EvStdout (labelText sys (Prefix (opts st)) n)) names |},
     Ok tt).
Proof.
  induction names as [|n names IH]; intros st; simpl.
  - rewrite app_nil_r. now destruct st.
  - step. rewrite IH. simpl. now rewrite <- app_assoc.
Qed.

End PRLabelsFacts.

(** C3. Once a git provider has been found, the pull request is the value
    of [--pr] when that is not empty; otherwise it is [BRANCH_NAME] without
    a leading ["PR-"]; and when nothing is left (in particular when the
    flag and the variable are both absent or empty) [Run] fails with
    [MissingOption "pr"] before it asks the provider for anything. *)
Theorem C3_pull_request_resolution (sys : PRLabels.Sys) (st : PRLabels.St)
    (gitInfo : gits.GitRepository) (provider : gits.GitProvider) :
  PRLabels.CreateGitProvider sys (PRLabels.Dir (PRLabels.opts st))
    = inl (gitInfo, Some provider) ->
  let flag := PRLabels.PullRequest (PRLabels.opts st) in
  let branch := PRLabels.Getenv sys "BRANCH_NAME" in
  let st' := fst (PRLabels.Run sys st) in
  let resolved := PRLabels.PullRequest (PRLabels.opts st') in
  (flag <> "" -> resolved = flag) /\
  (flag = "" -> resolved = Go.TrimPrefix branch "PR-") /\
  (resolved = "" ->
     snd (PRLabels.Run sys st) = Err (ErrMissingOption "pr") /\
     PRLabels.trace st' = PRLabels.trace st) /\
  (flag = "" -> branch = "" -> resolved = "").
Proof.
  intros Hp flag branch st' resolved.
  assert (Hrun : exists o1,
    PRLabels.PullRequest o1
      = (if Go.isEmpty flag then Go.TrimPrefix branch "PR-" else flag) /\
    (PRLabels.PullRequest o1 = "" ->
       PRLabels.Run sys st = ({| PRLabels.opts := o1; PRLabels.trace := PRLabels.trace st |},
                              Err (ErrMissingOption "pr"))) /\
    (PRLabels.PullRequest o1 <> "" -> PRLabels.PullRequest (PRLabels.opts st') = PRLabels.PullRequest o1)).
  { subst st' flag branch. destruct st as [o t]. simpl in *.
    exists (if Go.isEmpty (PRLabels.PullRequest o)
            then PRLabels.set_PullRequest (Go.TrimPrefix (PRLabels.Getenv sys "BRANCH_NAME") "PR-") o
            else o).
    PRLabelsFacts.step. rewrite Hp. simpl.
    destruct (Go.isEmpty (PRLabels.PullRequest o)) eqn:He; simpl.
    - split; [reflexivity|]. split.
      + intros E. rewrite E. reflexivity.
      + intros E. apply isEmpty_false in E. rewrite E.
        destruct (Go.isEmpty (PRLabels.Prefix o)); simpl;
        destruct (Go.Atoi _) as [n e]; simpl;
        destruct (bool_decide _); simpl;
        destruct (Go.isEmpty (PRLabels.GitURL o)); simpl;
        try destruct (PRLabels.ParseGitURL sys _); simpl; try reflexivity;
        destruct (gits.GetPullRequest provider _ _ _); simpl; try reflexivity;
        match goal with |- context [PRLabels.printLabels sys ?l ?s] =>
          rewrite (proj1 (PRLabelsFacts.printLabels_frame sys l s)) end; reflexivity.
    - split; [reflexivity|]. split.
      + intros E. apply isEmpty_true in E. congruence.
      + intros _. rewrite He.
        destruct (Go.isEmpty (PRLabels.Prefix o)); simpl;
        destruct (Go.Atoi _) as [n e]; simpl;
        destruct (bool_decide _); simpl;
        destruct (Go.isEmpty (PRLabels.GitURL o)); simpl;
        try destruct (PRLabels.ParseGitURL sys _); simpl; try reflexivity;
        destruct (gits.GetPullRequest provider _ _ _); simpl; try reflexivity;
        match goal with |- context [PRLabels.printLabels sys ?l ?s] =>
          rewrite (proj1 (PRLabelsFacts.printLabels_frame sys l s)) end; reflexivity. }
  destruct Hrun as (o1 & Ho1 & Hmiss & Hkeep).
  assert (Hres : resolved = PRLabels.PullRequest o1).
  { destruct (Go.isEmpty (PRLabels.PullRequest o1)) eqn:E.
    - apply isEmpty_true in E. subst resolved st'. rewrite (Hmiss E). simpl. reflexivity.
    - apply isEmpty_false in E. now apply Hkeep. }
  repeat split.
  - intros Hf. apply isEmpty_false in Hf. rewrite Hres, Ho1, Hf. reflexivity.
  - intros Hf. apply isEmpty_true in Hf. rewrite Hres, Ho1, Hf. reflexivity.
  - subst st'. rewrite Hmiss by congruence. reflexivity.
  - subst st'. rewrite Hmiss by congruence. reflexivity.
  - intros Hf Hb. apply isEmpty_true in Hf. rewrite Hres, Ho1, Hf, Hb. reflexivity.
Qed.

(** The loop over the labels never returns an error. *)
Lemma printLabels_no_error sys labels : forall st e,
  snd (PRLabels.printLabels sys labels st) <> Err e.
Proof.
  induction labels as [|v rest IH]; intros st e; simpl; [discriminate|].
  destruct (gits.Label_Name v); [|discriminate].
  PRLabelsFacts.step. apply IH.
Qed.




Lemma C3_pull_request_resolution_witness :
  PRLabels.PullRequest
    (PRLabels.opts
       (fst (PRLabels.Run (PRLabels.sys0 "PR-34") (PRLabels.start (PRLabels.flags "" "")))))
  = "34" /\
  snd (PRLabels.Run (PRLabels.sys0 "") (PRLabels.start (PRLabels.flags "" "")))
  = Err (ErrMissingOption "pr").
Proof.
  split.
  - exact (proj1 (proj2 (C3_pull_request_resolution (PRLabels.sys0 "PR-34")
                           (PRLabels.start (PRLabels.flags "" ""))
                           PRLabels.repo0 PRLabels.provider0 eq_refl)) eq_refl).
  - exact (proj1 (proj1 (proj2 (proj2 (C3_pull_request_resolution (PRLabels.sys0 "")
                           (PRLabels.start (PRLabels.flags "" ""))
                           PRLabels.repo0 PRLabels.provider0 eq_refl))) eq_refl)).
Defined.

(** C4 on a pull request with the two labels ["bug"] and ["kind/feature"],
    no [--prefix] given: each label is printed once, in the form
    [JX_PR_LABELS_<KEY>='<label>'], but the format of [fmt.Printf] ends
    without a newline, so the two assignments stand on one line. *)
Theorem C4_labels_share_one_line :
  let out := PRLabels.stdout
               (PRLabels.trace
                  (fst (PRLabels.Run (PRLabels.sys0 "")
                          (PRLabels.start (PRLabels.flags "34" ""))))) in
  length (gits.Labels PRLabels.pr34) = 2%nat /\
  out = "JX_PR_LABELS_BUG='bug'JX_PR_LABELS_KIND_FEATURE='kind/feature'" /\
  PRLabels.lines out
  = ["JX_PR_LABELS_BUG='bug'JX_PR_LABELS_KIND_FEATURE='kind/feature'"] /\
  PRLabels.lines out <> ["JX_PR_LABELS_BUG='bug'"; "JX_PR_LABELS_KIND_FEATURE='kind/feature'"].
Proof. vm_compute. repeat split; discriminate. Qed.

(** What does hold of the output on every pull request whose labels have
    names: the texts of the labels, one after the other, each of the form
    [<prefix>_<KEY>='<label>'] with the default prefix when none is
    given. *)
Lemma labelText_shape sys prefix name :
  PRLabels.labelText sys prefix name
  = prefix +:+ "_" +:+ PRLabels.envKey sys name +:+ "='" +:+ name +:+ "'".
Proof.
  unfold PRLabels.labelText. cbn [Go.Sprintf Ascii.eqb Bool.eqb orb].
  change (prefix +:+ String "_" (PRLabels.envKey sys name +:+ String "=" (String "'" (name +:+ "'")))
          = prefix +:+ "_" +:+ PRLabels.envKey sys name +:+ "='" +:+ name +:+ "'").
  reflexivity.
Qed.

(** ** Regex pull requests *)

Lemma Sprintf_marker (r : string) : Go.Sprintf "(?m)%s" [r] = "(?m)" +:+ r.
Proof.
  cbn [Go.Sprintf Ascii.eqb Bool.eqb orb].
  change (String "(" (String "?" (String "m" (String ")" (r +:+ "")))) = "(?m)" +:+ r).
  now rewrite append_empty_r.
Qed.

(** C7. When the embedded options are valid and a pattern has been given,
    validation succeeds and leaves as pattern the given one when it
    starts with ["(?m"], and ["(?m)"] followed by the given one
    otherwise. *)
Theorem C7_multiline_marker
    (ValidateOptions : bool -> CreatePRRegex.StepCreatePrOptions
                       -> CreatePRRegex.StepCreatePrOptions * option error)
    (st : CreatePRRegex.St) (createPr : CreatePRRegex.StepCreatePrOptions) :
  ValidateOptions false (CreatePRRegex.CreatePr (CreatePRRegex.opts st)) = (createPr, None) ->
  CreatePRRegex.Regexp (CreatePRRegex.opts st) <> "" ->
  let pattern := CreatePRRegex.Regexp (CreatePRRegex.opts st) in
  let st' := fst (CreatePRRegex.ValidateRegexOptions ValidateOptions st) in
  snd (CreatePRRegex.ValidateRegexOptions ValidateOptions st) = Ok tt /\
  CreatePRRegex.Regexp (CreatePRRegex.opts st')
  = (if Go.HasPrefix pattern "(?m" then pattern else "(?m)" +:+ pattern).
Proof.
  intros Hv Hre pattern st'. subst pattern st'.
  destruct st as [o t]. simpl in *. apply isEmpty_false in Hre.
  unfold CreatePRRegex.ValidateRegexOptions, bind, CreatePRRegex.options, check, when,
    CreatePRRegex.update, CreatePRRegex.emit, modify, ret, fail.
  simpl. rewrite Hv. simpl. rewrite Hre.
  destruct (Go.HasPrefix (CreatePRRegex.Regexp o) "(?m") eqn:Hm; simpl;
    destruct (Go.isEmpty (CreatePRRegex.SrcGitURL createPr)); simpl;
    destruct (Go.isEmpty (CreatePRRegex.Kind o)); simpl;
    rewrite <- ?Sprintf_marker; auto.
Qed.

Lemma C7_multiline_marker_witness :
  CreatePRRegex.Regexp
    (CreatePRRegex.opts
       (fst (CreatePRRegex.ValidateRegexOptions CreatePRRegex.validate0
               (CreatePRRegex.flags "^version: (.*)$"))))
  = "(?m)^version: (.*)$" /\
  CreatePRRegex.Regexp
    (CreatePRRegex.opts
       (fst (CreatePRRegex.ValidateRegexOptions CreatePRRegex.validate0
               (CreatePRRegex.flags "(?ms)^version: (.*)$"))))
  = "(?ms)^version: (.*)$".
Proof.
  split.
  - refine (proj2 (C7_multiline_marker CreatePRRegex.validate0
                     (CreatePRRegex.flags "^version: (.*)$") _ eq_refl _)).
    discriminate.
  - refine (proj2 (C7_multiline_marker CreatePRRegex.validate0
                     (CreatePRRegex.flags "(?ms)^version: (.*)$") _ eq_refl _)).
    discriminate.
Defined.

(** ** Adding an app *)

(** C10. With no generated secret [handleSecrets] returns [func() {}] and
    no error, and nothing has happened: the options ([ValuesFiles] among
    them) and the trace (secret store and files) are as before. *)
Theorem C10_no_secrets_no_effect (sys : AddApp.Sys) (dir app : string) (st : AddApp.St) :
  AddApp.handleSecrets sys dir app [] st = (st, Ok AddApp.NoClose).
Proof. reflexivity. Qed.


Lemma append_cons (c : ascii) (s t : string) : String c s +:+ t = String c (s +:+ t).
Proof. reflexivity. Qed.

Lemma append_assoc (a b c : string) : (a +:+ b) +:+ c = a +:+ b +:+ c.
Proof.
  induction a as [|x a IH]; [reflexivity|].
  now rewrite !append_cons, IH.
Qed.

Module AddAppFacts.
Import jenkinsv1 surveyutils AddApp.

Ltac step :=
  repeat progress
    (unfold bind, options, ask, askR, call, lift, check, mapErr, when, deref,
       update, emit, modify, ret, fail, panic, id);
  simpl.

(** Takes the cases of every test the goal branches on, one after the
    other, using a case again where the same test comes back. *)
Ltac split_ifs :=
  repeat (simpl;
    match goal with
    | H : ?b = true |- context [if ?b then _ else _] => rewrite H
    | H : ?b = false |- context [if ?b then _ else _] => rewrite H
    | |- context [if ?b then _ else _] => destruct b eqn:?
    end).

(** [initVault] only reads. *)
Lemma initVault_frame sys st : fst (initVault sys st) = st.
Proof.
  destruct st as [o t]. unfold initVault. step.
  destruct (GitOps o); simpl.
  - destruct (DevEnv o) as [env|]; simpl; [|reflexivity].
    destruct (ParseGitURL sys _); simpl; [|reflexivity].
    destruct (CreateSystemVaultClient sys t ""); reflexivity.
  - destruct (TeamAndEnvironmentNames sys t) as [[team e]|]; simpl; [|reflexivity].
    destruct (CreateSystemVaultClient sys t ""); reflexivity.
Qed.

(** The base path [initVault] returns. *)
Lemma initVault_base sys st client base :
  snd (initVault sys st) = Ok (client, base) ->
  if GitOps (opts st)
  then exists env gitInfo,
         DevEnv (opts st) = Some env /\
         ParseGitURL sys (URL (Source (Spec env))) = inl gitInfo /\
         base = Go.Join ["gitOps"; gits.Organisation gitInfo; gits.Name gitInfo] "/"
  else exists team e,
         TeamAndEnvironmentNames sys (trace st) = inl (team, e) /\
         base = Go.Join ["teams"; team] "/".
Proof.
  destruct st as [o t]. unfold initVault. step.
  destruct (GitOps o); simpl.
  - destruct (DevEnv o) as [env|]; simpl; [|discriminate].
    destruct (ParseGitURL sys _) as [gitInfo|] eqn:Hg; simpl; [|discriminate].
    destruct (CreateSystemVaultClient sys t ""); simpl; [|discriminate].
    intros [= <- <-]. eauto.
  - destruct (TeamAndEnvironmentNames sys t) as [[team e]|]; simpl; [|discriminate].
    destruct (CreateSystemVaultClient sys t ""); simpl; [|discriminate].
    intros [= <- <-]. eauto.
Qed.

(** The loop over the secrets asks the store to write a first part of the
    list, one write for each secret and in order; it returns without an
    error only when that part is the whole list. *)
Lemma writeSecrets_spec sys client base secrets : forall st,
  exists written rest,
    secrets = map Some written ++ rest /\
    fst (writeSecrets sys client base secrets st)
      = {| opts := opts st; trace := trace st ++ map (vaultEvent client base) written |} /\
    (snd (writeSecrets sys client base secrets st) = Ok tt -> rest = []).
Proof.
  induction secrets as [|p secrets IH]; intros st.
  - exists [], []. simpl. rewrite app_nil_r. destruct st; auto.
  - destruct p as [s|].
    + simpl. step.
      destruct (WriteMap sys (trace st) client _ _) as [e|] eqn:Hw; simpl.
      * exists [s], secrets. simpl. repeat split; auto. discriminate.
      * match goal with |- context [writeSecrets sys client base secrets ?s1] =>
          destruct (IH s1) as (written & rest & Hs & Hst & Hok);
          destruct (writeSecrets sys client base secrets s1) as [s2 r2] end.
        exists (s :: written), rest. simpl in *. subst s2 secrets.
        rewrite <- app_assoc. simpl. repeat split; auto.
    + exists [], (None :: secrets). simpl. rewrite app_nil_r.
      destruct st; repeat split; auto. discriminate.
Qed.

Lemma vaultWrites_app t1 t2 : vaultWrites (t1 ++ t2) = vaultWrites t1 ++ vaultWrites t2.
Proof. unfold vaultWrites. apply omap_app. Qed.

Lemma chartWrites_app t1 t2 : chartWrites (t1 ++ t2) = chartWrites t1 ++ chartWrites t2.
Proof. unfold chartWrites. apply List.filter_app. Qed.

Lemma tempWrites_app t1 t2 : tempWrites (t1 ++ t2) = tempWrites t1 ++ tempWrites t2.
Proof. unfold tempWrites. apply List.filter_app. Qed.

Lemma vaultWrites_events client base written :
  vaultWrites (map (vaultEvent client base) written)
  = map (fun s => (Go.Join [base; Name s] "/", {[ Key s := Value s ]})) written.
Proof.
  induction written as [|s l IH]; [reflexivity|].
  unfold vaultWrites in *. simpl. now f_equal.
Qed.

Lemma chartWrites_events client base written :
  chartWrites (map (vaultEvent client base) written) = [].
Proof. induction written as [|s l IH]; simpl; auto. Qed.

Lemma tempWrites_events client base written :
  tempWrites (map (vaultEvent client base) written) = [].
Proof. induction written as [|s l IH]; simpl; auto. Qed.

(** With the secret store in use, [handleSecrets] does what the loop over
    the secrets does, when [initVault] has given a client and a base
    path, and nothing otherwise. *)
Lemma handleSecrets_vault sys dir app secrets st :
  UseVault sys = true ->
  exists client base written rest,
    secrets = map Some written ++ rest /\
    fst (handleSecrets sys dir app secrets st)
      = {| opts := opts st; trace := trace st ++ map (vaultEvent client base) written |} /\
    (forall c, snd (handleSecrets sys dir app secrets st) = Ok c -> rest = []) /\
    (written <> [] -> snd (initVault sys st) = Ok (client, base)).
Proof.
  intros Hv. unfold handleSecrets. rewrite Hv.
  destruct secrets as [|p secrets].
  { exists 0%nat, "", [], []. simpl. rewrite app_nil_r. destruct st.
    repeat split; auto. congruence. }
  set (l := p :: secrets). change (0 <? length l)%nat with true.
  pose proof (initVault_frame sys st) as Hf.
  destruct (initVault sys st) as [st0 [[client base]|e|]] eqn:Hi; simpl in Hf; subst st0;
    cbv beta iota delta [bind when mapErr ret]; rewrite Hi.
  - destruct (writeSecrets_spec sys client base l st) as (written & rest & Hl & Hst & Hok).
    exists client, base, written, rest.
    destruct (writeSecrets sys client base l st) as [s1 [[]|e|]]; simpl in *;
      subst s1; repeat split; auto; try discriminate.
  - exists 0%nat, "", [], l. simpl. rewrite app_nil_r. destruct st.
    repeat split; auto; try discriminate. congruence.
  - exists 0%nat, "", [], l. simpl. rewrite app_nil_r. destruct st.
    repeat split; auto; try discriminate. congruence.
Qed.

(** Without the secret store, [handleSecrets] on a list that is not empty
    goes through the chart and a temporary file and never asks the store
    for anything; when it returns without an error it has created the
    directory of templates, written the template, created the temporary
    file, written the marshalled secrets to it and added it to
    [ValuesFiles]. *)
Lemma handleSecrets_template sys dir app secrets st :
  UseVault sys = false ->
  secrets <> [] ->
  let templatesDir := filepath_Join sys [dir; "templates"] in
  let fileName := filepath_Join sys [templatesDir; "app-generated-secret-template.yaml"] in
  exists new,
    trace (fst (handleSecrets sys dir app secrets st)) = trace st ++ new /\
    vaultWrites new = [] /\
    (forall c, snd (handleSecrets sys dir app secrets st) = Ok c ->
       exists secretsFile secretsYaml,
         yaml_Marshal sys {[ appsGeneratedSecretKey := secrets ]} = inl secretsYaml /\
         new = [ EvMkdirAll templatesDir 448;
                 EvWriteFile fileName secretTemplate 493;
                 EvTempFile "" (Go.Sprintf "%s-secrets.yaml" [app]);
                 EvFileWrite secretsFile secretsYaml ] /\
         opts (fst (handleSecrets sys dir app secrets st))
           = appendValuesFile secretsFile (opts st)).
Proof.
  intros Hv Hne templatesDir fileName.
  unfold handleSecrets. rewrite Hv.
  destruct secrets as [|p secrets]; [congruence|].
  set (l := p :: secrets). change (0 <? length l)%nat with true.
  subst templatesDir fileName. destruct st as [o t]. step.
  destruct (MkdirAll sys t _ 448); simpl.
  { eexists. split; [reflexivity|]. split; [reflexivity|]. discriminate. }
  destruct (WriteFile sys _ _ _ 493); simpl.
  { eexists. split; [rewrite <- !app_assoc; reflexivity|]. split; [reflexivity|]. discriminate. }
  destruct (yaml_Marshal sys _) as [secretsYaml|]; simpl.
  2:{ eexists. split; [rewrite <- !app_assoc; reflexivity|]. split; [reflexivity|]. discriminate. }
  destruct (TempFile sys _ "" _) as [secretsFile|]; simpl.
  2:{ eexists. split; [rewrite <- !app_assoc; reflexivity|]. split; [reflexivity|]. discriminate. }
  destruct (FileWrite sys _ secretsFile secretsYaml); simpl.
  { eexists. split; [rewrite <- !app_assoc; reflexivity|]. split; [reflexivity|]. discriminate. }
  eexists. split; [rewrite <- !app_assoc; reflexivity|]. split; [reflexivity|].
  intros c _. exists secretsFile, secretsYaml. auto.
Qed.

End AddAppFacts.


(** C2, as the code has it.  On a list of secrets that is not empty the
    two routes exclude each other on every path: with the secret store in
    use nothing is created or written in the chart or in a temporary file,
    and without it the store is never asked to write.  When the call
    returns without an error, the store has been asked to write exactly
    once for each secret, in order (first route), or the directory of
    templates and the template file have been written in the chart and the
    marshalled secrets in a temporary file added to [ValuesFiles] (second
    route). *)
Theorem C2_secret_routes_exclusive (sys : AddApp.Sys) (dir app : string)
    (secrets : list (option surveyutils.GeneratedSecret)) (st : AddApp.St) :
  secrets <> [] ->
  let st' := fst (AddApp.handleSecrets sys dir app secrets st) in
  let result := snd (AddApp.handleSecrets sys dir app secrets st) in
  let templatesDir := AddApp.filepath_Join sys [dir; "templates"] in
  let fileName :=
    AddApp.filepath_Join sys [templatesDir; "app-generated-secret-template.yaml"] in
  exists new,
    AddApp.trace st' = AddApp.trace st ++ new /\
    (AddApp.vaultWrites new = []
     \/ (AddApp.chartWrites new = [] /\ AddApp.tempWrites new = [])) /\
    if AddApp.UseVault sys then
      AddApp.chartWrites new = [] /\ AddApp.tempWrites new = [] /\
      (forall c, result = Ok c ->
         exists client base written,
           secrets = map Some written /\
           new = map (AddApp.vaultEvent client base) written /\
           length (AddApp.vaultWrites new) = length secrets)
    else
      AddApp.vaultWrites new = [] /\
      (forall c, result = Ok c ->
         exists secretsFile secretsYaml,
           AddApp.yaml_Marshal sys {[ AddApp.appsGeneratedSecretKey := secrets ]}
             = inl secretsYaml /\
           new = [ AddApp.EvMkdirAll templatesDir 448;
                   AddApp.EvWriteFile fileName AddApp.secretTemplate 493;
                   AddApp.EvTempFile "" (Go.Sprintf "%s-secrets.yaml" [app]);
                   AddApp.EvFileWrite secretsFile secretsYaml ] /\
           AddApp.opts st' = AddApp.appendValuesFile secretsFile (AddApp.opts st)).
Proof.
  intros Hne st' result templatesDir fileName. subst st' result.
  destruct (AddApp.UseVault sys) eqn:Hv.
  - destruct (AddAppFacts.handleSecrets_vault sys dir app secrets st Hv)
      as (client & base & written & rest & Hs & Hst & Hok & _).
    exists (map (AddApp.vaultEvent client base) written).
    rewrite Hst. simpl.
    rewrite AddAppFacts.chartWrites_events, AddAppFacts.tempWrites_events.
    repeat split; auto.
    intros c Hc. specialize (Hok c Hc). subst rest. rewrite app_nil_r in Hs.
    exists client, base, written. repeat split; auto.
    rewrite AddAppFacts.vaultWrites_events, Hs, !length_map. reflexivity.
  - destruct (AddAppFacts.handleSecrets_template sys dir app secrets st Hv Hne)
      as (new & Ht & Hvw & Hok).
    exists new. repeat split; auto.
Qed.

Lemma C2_secret_routes_exclusive_witness :
  AddApp.vaultWrites
    (AddApp.trace
       (fst (AddApp.handleSecrets (AddApp.sys0 false true "") "/chart" "app" AddApp.secrets0
               (AddApp.start (AddApp.ready false "")))))
  = [].
Proof.
  destruct (C2_secret_routes_exclusive (AddApp.sys0 false true "") "/chart" "app"
              AddApp.secrets0 (AddApp.start (AddApp.ready false "")))
    as (new & Ht & _ & Hv & _); [discriminate|].
  cbv zeta in Ht. rewrite Ht. exact Hv.
Defined.

(** C2 as the spec states it fails: with the secret store in use but not
    reachable, [handleSecrets] on two secrets returns the error of
    [initVault] and the store has not been asked to write once. *)
Lemma C2_store_unreachable_writes_nothing :
  let run := AddApp.handleSecrets (AddApp.sys0 true false "") "/chart" "app" AddApp.secrets0
               (AddApp.start (AddApp.ready false "")) in
  AddApp.UseVault (AddApp.sys0 true false "") = true /\
  length AddApp.secrets0 = 2%nat /\
  snd run = Err (AddApp.NoClose, ErrExternal "no vault found") /\
  length (AddApp.vaultWrites (AddApp.trace (fst run))) <> length AddApp.secrets0.
Proof. vm_compute. repeat split; discriminate. Qed.

Lemma storePath_gitOps org repo team name :
  Go.Join [Go.Join ["gitOps"; org; repo] "/"; name] "/"
  = AddApp.storePath true org repo team name.
Proof.
  unfold AddApp.storePath. cbn [Go.Join].
  now rewrite !append_assoc.
Qed.

Lemma storePath_teams org repo team name :
  Go.Join [Go.Join ["teams"; team] "/"; name] "/"
  = AddApp.storePath false org repo team name.
Proof.
  unfold AddApp.storePath. cbn [Go.Join].
  now rewrite !append_assoc.
Qed.

(** C6. With the secret store in use, in an environment under GitOps whose
    URL parses to organisation [org] and repository [repo], or else in team
    [team]: the writes [handleSecrets] asks of the store are, for a first
    part of the secrets and in order, the map [{key: value}] of the secret
    under [gitOps/<org>/<repo>/<name>], respectively
    [teams/<team>/<name>]; that part is the whole list when the call
    returns without an error. *)
Theorem C6_secret_store_layout (sys : AddApp.Sys) (dir app : string)
    (secrets : list (option surveyutils.GeneratedSecret)) (st : AddApp.St)
    (org repo team : string) :
  AddApp.UseVault sys = true ->
  (if AddApp.GitOps (AddApp.opts st)
   then exists env,
          AddApp.DevEnv (AddApp.opts st) = Some env /\
          AddApp.ParseGitURL sys (jenkinsv1.URL (jenkinsv1.Source (jenkinsv1.Spec env)))
            = inl {| gits.Organisation := org; gits.Name := repo |}
   else exists e,
          AddApp.TeamAndEnvironmentNames sys (AddApp.trace st) = inl (team, e)) ->
  let st' := fst (AddApp.handleSecrets sys dir app secrets st) in
  let result := snd (AddApp.handleSecrets sys dir app secrets st) in
  exists written rest,
    secrets = map Some written ++ rest /\
    (forall c, result = Ok c -> rest = []) /\
    AddApp.vaultWrites (AddApp.trace st')
    = AddApp.vaultWrites (AddApp.trace st)
      ++ map (fun s =>
                (AddApp.storePath (AddApp.GitOps (AddApp.opts st)) org repo team
                   (surveyutils.Name s),
                 ({[ surveyutils.Key s := surveyutils.Value s ]} : gmap string string)))
             written.
Proof.
  intros Hv Hscope st' result. subst st' result.
  destruct (AddAppFacts.handleSecrets_vault sys dir app secrets st Hv)
    as (client & base & written & rest & Hs & Hst & Hok & Hinit).
  exists written, rest. repeat split; auto.
  rewrite Hst. simpl. rewrite AddAppFacts.vaultWrites_app, AddAppFacts.vaultWrites_events.
  f_equal.
  destruct written as [|s0 written]; [reflexivity|].
  assert (Hb := AddAppFacts.initVault_base sys st client base (Hinit ltac:(discriminate))).
  apply map_ext. intros s.
  destruct (AddApp.GitOps (AddApp.opts st)).
  - destruct Hb as (env & gitInfo & He & Hg & ->).
    destruct Hscope as (env' & He' & Hg').
    rewrite He in He'. injection He' as <-. rewrite Hg in Hg'. injection Hg' as ->.
    cbn beta iota delta [gits.Organisation gits.Name].
    now rewrite (storePath_gitOps org repo team).
  - destruct Hb as (team' & e & Ht & ->).
    destruct Hscope as (e' & Ht'). rewrite Ht in Ht'. injection Ht' as -> ->.
    cbn beta. now rewrite (storePath_teams org repo).
Qed.

Lemma C6_secret_store_layout_witness :
  AddApp.vaultWrites
    (AddApp.trace
       (fst (AddApp.handleSecrets
               (AddApp.sys0 true true "https://github.com/acme/environment-dev.git")
               "/chart" "app" AddApp.secrets0
               (AddApp.start (AddApp.ready true "https://github.com/acme/environment-dev.git")))))
  = [ ("gitOps/acme/environment-dev/db", {[ "password" := "s3cr3t" ]});
      ("gitOps/acme/environment-dev/api", {[ "token" := "t0k3n" ]}) ].
Proof.
  destruct (C6_secret_store_layout
              (AddApp.sys0 true true "https://github.com/acme/environment-dev.git")
              "/chart" "app" AddApp.secrets0
              (AddApp.start (AddApp.ready true "https://github.com/acme/environment-dev.git"))
              "acme" "environment-dev" "")
    as (written & rest & Hs & Hok & Hw).
  - reflexivity.
  - simpl. eexists. split; reflexivity.
  - cbv zeta in Hw, Hok. rewrite Hw.
    specialize (Hok AddApp.NoClose eq_refl). subst rest. rewrite app_nil_r in Hs.
    destruct written as [|a [|b [|c written]]]; try discriminate Hs.
    injection Hs as <- <-. reflexivity.
Defined.

Example teams_layout :
  AddApp.vaultWrites
    (AddApp.trace
       (fst (AddApp.handleSecrets (AddApp.sys0 true true "") "/chart" "app" AddApp.secrets0
               (AddApp.start (AddApp.ready false "")))))
  = [ ("teams/acme/db", {[ "password" := "s3cr3t" ]});
      ("teams/acme/api", {[ "token" := "t0k3n" ]}) ].
Proof. reflexivity. Qed.

(** ** Which parts of the command write into the chart *)

Module Quiet.
Import jenkinsv1 surveyutils AddApp.

Lemma q_ret {E A} (a : A) : quiet (E:=E) (ret a).
Proof. intros st. reflexivity. Qed.

Lemma q_fail {E A} (e : E) : quiet (A:=A) (fail e).
Proof. intros st. reflexivity. Qed.

Lemma q_panic {E A} : quiet (E:=E) (A:=A) panic.
Proof. intros st. reflexivity. Qed.

Lemma q_options {E} : quiet (E:=E) options.
Proof. intros st. reflexivity. Qed.

Lemma q_ask {E A} (f : Trace -> A) : quiet (E:=E) (ask f).
Proof. intros st. reflexivity. Qed.

Lemma q_update {E} f : quiet (E:=E) (update f).
Proof. intros st. reflexivity. Qed.

Lemma q_emit {E} e : isChartWrite e = false -> quiet (E:=E) (emit e).
Proof.
  intros He st. simpl. rewrite AddAppFacts.chartWrites_app. simpl.
  unfold chartWrites at 2. simpl. rewrite He. apply app_nil_r.
Qed.

Lemma q_call {E A} e (f : Trace -> A) : isChartWrite e = false -> quiet (E:=E) (call e f).
Proof.
  intros He st. simpl. rewrite AddAppFacts.chartWrites_app. simpl.
  unfold chartWrites at 2. simpl. rewrite He. apply app_nil_r.
Qed.

Lemma q_bind {E A B} (m : M St E A) (k : A -> M St E B) :
  quiet m -> (forall a, quiet (k a)) -> quiet (bind m k).
Proof.
  intros Hm Hk st. unfold bind. specialize (Hm st).
  destruct (m st) as [s1 [a|e|]]; simpl in *; [|assumption..].
  now rewrite Hk.
Qed.

Lemma q_mapErr {E E' A} (g : E -> E') (m : M St E A) : quiet m -> quiet (mapErr g m).
Proof.
  intros Hm st. unfold mapErr. specialize (Hm st).
  destruct (m st) as [s1 [a|e|]]; assumption.
Qed.

Lemma q_lift {E E' A} (g : E' -> E) (r : A + E') : quiet (lift g r).
Proof. destruct r; intros st; reflexivity. Qed.

Lemma q_check {E E'} (g : E' -> E) (r : option E') : quiet (check g r).
Proof. destruct r; intros st; reflexivity. Qed.

Lemma q_deref {E A} (p : option A) : quiet (E:=E) (deref p).
Proof. destruct p; intros st; reflexivity. Qed.

Lemma q_when {E} (b : bool) (m : M St E unit) : quiet m -> quiet (when b m).
Proof. destruct b; [auto|]. intros _ st. reflexivity. Qed.

Lemma q_askR {A} (f : Trace -> A + error) : quiet (askR f).
Proof. unfold askR. apply q_bind; [apply q_ask|]. intros r. apply q_lift. Qed.

Create HintDb quiet.
#[local] Hint Resolve q_ret q_fail q_panic q_options q_ask q_update q_lift q_check
  q_deref q_askR : quiet.

(** One step of a proof that a computation is quiet: split a sequence,
    take the cases of a branch, or close a primitive. *)
Ltac quiet_step :=
  match goal with
  | |- quiet (bind _ _) => apply q_bind; [|intros ?]
  | |- quiet (mapErr _ _) => apply q_mapErr
  | |- quiet (when _ _) => apply q_when
  | |- quiet (emit _) => apply q_emit; reflexivity
  | |- quiet (call _ _) => apply q_call; reflexivity
  | |- quiet (let '(_, _) := ?p in _) => destruct p
  | |- quiet (if ?b then _ else _) => destruct b
  | |- quiet (match ?x with _ => _ end) => destruct x
  | |- quiet _ => solve [auto with quiet]
  end.
Ltac quiet_auto := repeat quiet_step.

Lemma q_GetDevEnv {E} sys : quiet (E:=E) (GetDevEnv sys).
Proof. unfold GetDevEnv. quiet_auto. Qed.

Lemma q_OnAppInstall sys app version : quiet (OnAppInstall sys app version).
Proof. unfold OnAppInstall. quiet_auto. Qed.

Lemma q_handleValues sys dir app values : quiet (handleValues sys dir app values).
Proof. unfold handleValues. quiet_auto. Qed.

Lemma q_initVault sys : quiet (initVault sys).
Proof. unfold initVault. quiet_auto. Qed.

Lemma q_writeSecrets sys client base secrets : quiet (writeSecrets sys client base secrets).
Proof.
  induction secrets as [|p secrets IH]; simpl; [apply q_ret|].
  quiet_auto.
Qed.

(** With the secret store in use [handleSecrets] leaves the chart alone. *)
Lemma q_handleSecrets sys dir app secrets :
  UseVault sys = true -> quiet (handleSecrets sys dir app secrets).
Proof.
  intros Hv. unfold handleSecrets. rewrite Hv.
  apply q_bind; [|intros; apply q_ret].
  apply q_when. apply q_bind; [apply q_mapErr, q_initVault|].
  intros [client base]. apply q_writeSecrets.
Qed.

Lemma q_generateQuestions sys schema : quiet (generateQuestions sys schema).
Proof. unfold generateQuestions. quiet_auto. Qed.

Lemma q_runClose sys c : quiet (runClose sys c).
Proof. unfold runClose. quiet_auto. Qed.

Lemma q_deferring {A} sys (m : M St (closer * error) closer) (rest : M St error A) :
  quiet m -> quiet rest -> quiet (deferring sys m rest).
Proof.
  intros Hm Hr st. unfold deferring. specialize (Hm st).
  destruct (m st) as [s1 [c|[c e]|]]; simpl in *; [| |assumption].
  - specialize (Hr s1). destruct (rest s1) as [s2 r]. simpl in *.
    pose proof (q_runClose sys c s2) as Hc.
    destruct (runClose sys c s2) as [s3 [[]|e|]]; simpl in *; congruence.
  - pose proof (q_runClose sys c s1) as Hc.
    destruct (runClose sys c s1) as [s3 [[]|e'|]]; simpl in *; congruence.
Qed.

Lemma q_createPR sys app dir version : quiet (createPR sys app dir version).
Proof. unfold createPR. quiet_auto. Qed.

Lemma q_installApp sys name chart version : quiet (installApp sys name chart version).
Proof. unfold installApp. quiet_auto. apply q_OnAppInstall. Qed.

Lemma q_inspectChartFunc sys app version dir :
  UseVault sys = true -> quiet (inspectChartFunc sys app version dir).
Proof.
  intros Hv. unfold inspectChartFunc.
  repeat first
    [ apply q_deferring
    | apply q_handleValues
    | apply q_handleSecrets; assumption
    | apply q_createPR
    | apply q_installApp
    | apply q_generateQuestions
    | quiet_step ].
Qed.

Lemma q_Run sys : UseVault sys = true -> quiet (Run sys).
Proof.
  intros Hv. unfold Run, InspectChart.
  repeat first
    [ apply q_GetDevEnv
    | apply q_inspectChartFunc; assumption
    | quiet_step ].
Qed.

End Quiet.

(** When [GetDevEnv] finds an environment under GitOps it has logged
    nothing. *)
Lemma GetDevEnv_gitOps sys st env :
  snd (AddApp.GetDevEnv sys (E:=error) st) = Ok (true, env) ->
  AddApp.GetDevEnv sys (E:=error) st = (st, Ok (true, env)).
Proof.
  destruct st as [o t]. unfold AddApp.GetDevEnv. AddAppFacts.step.
  destruct (AddApp.JXClientAndDevNamespace sys t) as [[jxClient ns]|err]; simpl.
  - destruct (AddApp.GetDevEnvironment sys t jxClient ns) as [e|err]; simpl.
    + intros [= -> ->]. reflexivity.
    + discriminate.
  - destruct (AddApp.Verbose o); simpl; discriminate.
Qed.

(** C9. When the development environment is under GitOps ([GetDevEnv]
    answers [true]) and the secret store is not in use, [Run] returns an
    error and has asked nothing of its surroundings: the trace is as
    before.  Hence, under GitOps, [Run] never reaches the branch of
    [handleSecrets] that writes the template: no directory is created and
    no file is written in the chart. *)
Theorem C9_gitops_needs_secret_store (sys : AddApp.Sys) (st : AddApp.St)
    (devEnv : jenkinsv1.Environment) :
  snd (AddApp.GetDevEnv sys (E:=error) st) = Ok (true, devEnv) ->
  let st' := fst (AddApp.Run sys st) in
  let result := snd (AddApp.Run sys st) in
  (AddApp.UseVault sys = false ->
     (exists e, result = Err e) /\ AddApp.trace st' = AddApp.trace st) /\
  AddApp.chartWrites (AddApp.trace st') = AddApp.chartWrites (AddApp.trace st).
Proof.
  intros Hdev st' result.
  assert (Hguard : AddApp.UseVault sys = false ->
            exists o' e,
              AddApp.Run sys st
              = ({| AddApp.opts := o'; AddApp.trace := AddApp.trace st |}, Err e)).
  { intros Hv. apply GetDevEnv_gitOps in Hdev.
    unfold AddApp.Run. unfold bind at 1. rewrite Hdev.
    destruct st as [o t]. AddAppFacts.step. rewrite Hv.
    AddAppFacts.split_ifs; eexists _, _; reflexivity. }
  subst st' result.
  destruct (AddApp.UseVault sys) eqn:Hv.
  - split; [discriminate|]. apply Quiet.q_Run. exact Hv.
  - destruct (Hguard eq_refl) as (o' & e & Hrun). rewrite Hrun. simpl.
    split; [eauto|reflexivity].
Qed.

Lemma C9_gitops_needs_secret_store_witness :
  (exists e,
     snd (AddApp.Run (AddApp.sys0 false true "https://github.com/acme/environment-dev.git")
            (AddApp.start AddApp.flags0))
     = Err e) /\
  AddApp.trace
    (fst (AddApp.Run (AddApp.sys0 false true "https://github.com/acme/environment-dev.git")
            (AddApp.start AddApp.flags0)))
  = [].
Proof.
  refine (proj1 (C9_gitops_needs_secret_store
                   (AddApp.sys0 false true "https://github.com/acme/environment-dev.git")
                   (AddApp.start AddApp.flags0) _ eq_refl) eq_refl).
Defined.

Example gitops_with_store_opens_a_pull_request :
  let run := AddApp.Run (AddApp.sys0 true true "https://github.com/acme/environment-dev.git")
               (AddApp.start AddApp.flags0) in
  snd run = Ok tt /\
  length (AddApp.vaultWrites (AddApp.trace (fst run))) = 2%nat /\
  AddApp.chartWrites (AddApp.trace (fst run)) = [].
Proof. vm_compute. repeat split. Qed.

Example without_gitops_the_template_is_written :
  let run := AddApp.Run (AddApp.sys0 false true "") (AddApp.start AddApp.flags0) in
  snd run = Ok tt /\
  AddApp.vaultWrites (AddApp.trace (fst run)) = [] /\
  length (AddApp.chartWrites (AddApp.trace (fst run))) = 2%nat.
Proof. vm_compute. repeat split. Qed.

(* ================================================================== *)
(** * Further properties of the same code *)

(** ** Numbers and their decimal text *)

Module Decimals.
Import Go.

Lemma uintValue_ge d : forall acc, 0 <= acc -> acc <= uintValue acc d.
Proof.
  induction d; intros acc Hacc; simpl; try lia;
    match goal with |- _ <= uintValue ?a _ =>
      specialize (IHd a ltac:(lia)); lia end.
Qed.

(** Reading the text of a numeral gives its value, as long as that value
    fits 64 bits. *)
Lemma parseUintFrom_numeral d : forall acc,
  0 <= acc -> uintValue acc d <= maxUint64 ->
  parseUintFrom acc (NilEmpty.string_of_uint d) = Value (uintValue acc d).
Proof.
  induction d; intros acc Hacc Hfit; [reflexivity|..];
    cbn [NilEmpty.string_of_uint parseUintFrom uintValue] in *;
    match goal with H : uintValue ?a _ <= _ |- _ =>
      pose proof (uintValue_ge d a ltac:(lia)) as Hge;
      specialize (IHd a ltac:(lia) H) end;
    change (isDigit _) with true; cbn [negb];
    change (Z.of_N (byte_of _) - 48) with 0 + 0 || idtac;
    unfold maxUint64 in *;
    (destruct (Z.leb_spec (((2 ^ 64 - 1) / 10) + 1) acc) as [Hc|Hc];
       [exfalso; change ((2 ^ 64 - 1) / 10 + 1) with 1844674407370955162 in Hc; lia|]);
    match goal with |- context [?x <? ?y] =>
      destruct (Z.ltb_spec x y) as [Ho|Ho] end;
    try (exfalso; cbn in Ho; lia); cbn in IHd |- *; exact IHd.
Qed.

Lemma uintValue_acc d : forall acc,
  uintValue (Z.pos acc) d = Z.pos (Pos.of_uint_acc d acc).
Proof.
  induction d; intros acc; [reflexivity|..];
    cbn [uintValue Pos.of_uint_acc];
    match goal with |- uintValue ?a _ = Z.pos (Pos.of_uint_acc _ ?b) =>
      replace a with (Z.pos b) by lia end; apply IHd.
Qed.

Lemma uintValue_of_uint d : uintValue 0 d = Z.of_N (Pos.of_uint d).
Proof.
  induction d; [reflexivity|exact IHd|..];
    cbn [uintValue Pos.of_uint Z.of_N]; cbn [Z.mul Z.add];
    rewrite <- uintValue_acc; reflexivity.
Qed.

Lemma uintValue_to_uint p : uintValue 0 (Pos.to_uint p) = Z.pos p.
Proof. now rewrite uintValue_of_uint, DecimalPos.Unsigned.of_to. Qed.

(** The text of a numeral that is not empty starts with a digit, which is
    not a sign. *)
Lemma numeral_starts_with_digit d :
  d <> Decimal.Nil ->
  exists c rest, NilEmpty.string_of_uint d = String c rest /\ isDigit c = true.
Proof. destruct d; intros H; [congruence|..]; simpl; eauto. Qed.

Lemma digit_is_no_sign c :
  isDigit c = true -> Ascii.eqb c "-" = false /\ Ascii.eqb c "+" = false.
Proof. EnvKey.each_byte c; intros; try discriminate; split; reflexivity. Qed.

End Decimals.

Lemma Atoi_of_Itoa (n : Z) :
  Go.minInt <= n <= Go.maxInt -> Go.Atoi (Go.Itoa n) = (n, None).
Proof.
  intros Hn. unfold Go.Itoa. destruct n as [|p|p]; [reflexivity|..]; simpl Z.to_int.
  - cbn [NilEmpty.string_of_int].
    destruct (Decimals.numeral_starts_with_digit (Pos.to_uint p)
                (DecimalPos.Unsigned.to_uint_nonnil p)) as (c & rest & Hs & Hc).
    destruct (Decimals.digit_is_no_sign c Hc) as [Hm Hp].
    pose proof (Decimals.parseUintFrom_numeral (Pos.to_uint p) 0 ltac:(lia)) as Hparse.
    rewrite Decimals.uintValue_to_uint in Hparse.
    specialize (Hparse ltac:(unfold Go.maxUint64, Go.maxInt in *; lia)).
    unfold Go.Atoi, Go.ParseUint. rewrite Hs in *.
    cbn [Go.HasPrefix]. rewrite Hm, Hp. cbn [orb negb andb]. rewrite Hparse.
    destruct (Z.ltb_spec Go.maxInt (Z.pos p)); [lia|reflexivity].
  - cbn [NilEmpty.string_of_int].
    destruct (Decimals.numeral_starts_with_digit (Pos.to_uint p)
                (DecimalPos.Unsigned.to_uint_nonnil p)) as (c & rest & Hs & Hc).
    pose proof (Decimals.parseUintFrom_numeral (Pos.to_uint p) 0 ltac:(lia)) as Hparse.
    rewrite Decimals.uintValue_to_uint in Hparse.
    specialize (Hparse ltac:(unfold Go.maxUint64, Go.minInt in *; lia)).
    unfold Go.Atoi, Go.ParseUint.
    rewrite Hs in *.
    change (Go.HasPrefix (String "-" (String c rest)) "-") with true.
    cbn [orb negb andb Go.sliceFrom]. rewrite Hparse.
    destruct (Z.ltb_spec (- Go.minInt) (Z.pos p)); [unfold Go.minInt in *; lia|reflexivity].
Qed.

Lemma parseUintFrom_bounds s : forall acc v,
  0 <= acc <= Go.maxUint64 -> Go.parseUintFrom acc s = Go.Value v -> 0 <= v <= Go.maxUint64.
Proof.
  induction s as [|c s IH]; intros acc v Hacc; simpl.
  - intros [= <-]. exact Hacc.
  - destruct (Go.isDigit c) eqn:Hc; simpl; [|discriminate].
    destruct (_ <=? acc); [discriminate|].
    match goal with |- context [?x <? ?y] => destruct (Z.ltb_spec x y) as [Ho|Ho] end;
      [discriminate|].
    apply IH. split; [|exact Ho].
    unfold Go.isDigit in Hc. apply andb_prop in Hc as [H1 H2].
    apply N.leb_le in H1. lia.
Qed.

(** Whatever the text, the number [strconv.Atoi] returns fits an
    [int]: it is 0 after a syntax error and the least or the greatest [int]
    after a range error. *)
Lemma Atoi_in_range (s : string) :
  Go.minInt <= fst (Go.Atoi s) <= Go.maxInt /\
  (snd (Go.Atoi s) = Some (ErrNum "Atoi" s false) -> fst (Go.Atoi s) = 0) /\
  (snd (Go.Atoi s) = Some (ErrNum "Atoi" s true) ->
     fst (Go.Atoi s) = Go.minInt \/ fst (Go.Atoi s) = Go.maxInt).
Proof.
  split; [|split; [apply Atoi_syntax_zero|]].
  - unfold Go.Atoi.
    destruct (Go.ParseUint _) as [un| |] eqn:Hp.
    + assert (0 <= un <= Go.maxUint64) as Hun.
      { unfold Go.ParseUint in Hp.
        destruct (if Go.HasPrefix s "-" || Go.HasPrefix s "+" then Go.sliceFrom 1 s else s)
          as [|c rest]; [discriminate|].
        eapply parseUintFrom_bounds; [|exact Hp]. unfold Go.maxUint64. lia. }
      destruct (Go.HasPrefix s "-"); cbn [negb andb].
      * destruct (Z.ltb_spec (- Go.minInt) un); unfold Go.minInt, Go.maxInt in *; simpl; lia.
      * destruct (Z.ltb_spec Go.maxInt un); unfold Go.minInt, Go.maxInt in *; simpl; lia.
    + unfold Go.minInt, Go.maxInt. simpl. lia.
    + destruct (Go.HasPrefix s "-"); unfold Go.minInt, Go.maxInt; simpl; lia.
  - unfold Go.Atoi.
    destruct (Go.ParseUint _) as [un| |].
    + destruct (negb _ && _); [auto|].
      destruct (Go.HasPrefix s "-" && _); [auto|]. simpl. discriminate.
    + simpl. discriminate.
    + destruct (Go.HasPrefix s "-"); auto.
Qed.

(** ** More on the labels of a pull request *)

Module PRLabelsMore.
Import gits PRLabels.

(** [Run] once a provider has been found, branch by branch. *)
Lemma Run_equation sys o t gitInfo provider :
  CreateGitProvider sys (Dir o) = inl (gitInfo, Some provider) ->
  let pr := if Go.isEmpty (PullRequest o)
            then Go.TrimPrefix (Getenv sys "BRANCH_NAME") "PR-" else PullRequest o in
  let o1 := if Go.isEmpty (PullRequest o) then set_PullRequest pr o else o in
  let o2 := if Go.isEmpty (Prefix o) then set_Prefix DefaultPrefix o1 else o1 in
  let n := fst (Go.Atoi pr) in
  let t1 := if bool_decide (snd (Go.Atoi pr) <> None)
            then t ++ [EvWarn ("Unable to convert PR " +:+ pr +:+ " to a number")] else t in
  Run sys {| opts := o; trace := t |}
  = if Go.isEmpty pr then ({| opts := o1; trace := t |}, Err (ErrMissingOption "pr"))
    else
      match (if Go.isEmpty (GitURL o) then inl gitInfo else ParseGitURL sys (GitURL o)) with
      | inr e => ({| opts := o2; trace := t1 |},
                  Err (ErrWrap e (Go.Sprintf "parsing %s" [GitURL o])))
      | inl repo =>
          let t2 := t1 ++ [EvGetPullRequest (Organisation repo) repo n] in
          match GetPullRequest provider (Organisation repo) repo n with
          | inr e => ({| opts := o2; trace := t2 |},
                      Err (ErrWrap e (Go.Sprintf "failed to find PullRequest %d" [Go.Itoa n])))
          | inl found => printLabels sys (Labels found) {| opts := o2; trace := t2 |}
          end
      end.
Proof.
  intros Hp pr o1 o2 n t1. subst n t1.
  assert (Hpr : PullRequest o1 = pr) by (subst o1 pr; destruct (Go.isEmpty (PullRequest o)); reflexivity).
  assert (Hpr2 : PullRequest o2 = pr) by (subst o2; destruct (Go.isEmpty (Prefix o)); exact Hpr).
  assert (Hurl : GitURL o2 = GitURL o)
    by (subst o2 o1; destruct (Go.isEmpty (Prefix o)), (Go.isEmpty (PullRequest o)); reflexivity).
  assert (Hprefix : Prefix o1 = Prefix o)
    by (subst o1; destruct (Go.isEmpty (PullRequest o)); reflexivity).
  assert (Hdir : Dir o1 = Dir o)
    by (subst o1; destruct (Go.isEmpty (PullRequest o)); reflexivity).
  unfold Run. unfold bind at 1, options at 1. unfold bind at 1. simpl lift. rewrite Hp.
  cbn [lift ret id]. cbv beta iota.
  unfold bind at 1.
  replace (when (Go.isEmpty (PullRequest o)) _ {| opts := o; trace := t |})
    with ({| opts := o1; trace := t |}, Ok (E:=error) tt)
    by (subst o1 pr; destruct (Go.isEmpty (PullRequest o)); reflexivity).
  cbv beta iota. unfold bind at 1, options at 1. cbn [opts]. rewrite Hpr.
  destruct (Go.isEmpty pr) eqn:Hempty; [reflexivity|].
  unfold bind at 1.
  replace (when (Go.isEmpty (Prefix o1)) _ {| opts := o1; trace := t |})
    with ({| opts := o2; trace := t |}, Ok (E:=error) tt)
    by (subst o2; rewrite Hprefix; destruct (Go.isEmpty (Prefix o)); reflexivity).
  cbv beta iota. unfold bind at 1, options at 1. cbn [opts]. rewrite Hpr2, Hurl.
  destruct (Go.Atoi pr) as [n e] eqn:HA. cbn [fst snd].
  PRLabelsFacts.step.
  destruct (bool_decide (e <> None)); simpl;
    destruct (Go.isEmpty (GitURL o)); simpl;
    try destruct (ParseGitURL sys (GitURL o)) as [repo|err]; simpl; try reflexivity;
    destruct (GetPullRequest provider _ _ n); simpl; reflexivity.
Qed.

Lemma stdout_app t1 t2 : stdout (t1 ++ t2) = stdout t1 +:+ stdout t2.
Proof.
  induction t1 as [|e t1 IH]; [reflexivity|].
  destruct e; try exact IH.
  change (text +:+ stdout (t1 ++ t2) = (text +:+ stdout t1) +:+ stdout t2).
  now rewrite IH, append_assoc.
Qed.

Lemma stdout_printed sys prefix names :
  stdout (map (fun n => EvStdout (labelText sys prefix n)) names)
  = Go.concat (map (labelText sys prefix) names).
Proof.
  induction names as [|n names IH]; [reflexivity|].
  change (labelText sys prefix n +:+ stdout (map (fun n => EvStdout (labelText sys prefix n)) names)
          = labelText sys prefix n +:+ Go.concat (map (labelText sys prefix) names)).
  now rewrite IH.
Qed.

(** The loop stops at the first label without a name. *)
Lemma printLabels_nil_name sys names rest : forall st,
  printLabels sys (map (fun n => {| Label_Name := Some n |}) names
                   ++ {| Label_Name := None |} :: rest) st
  = ({| opts := opts st;
        trace := trace st ++ map (fun n => EvStdout (labelText sys (Prefix (opts st)) n)) names |},
     Panic).
Proof.
  induction names as [|n names IH]; intros st; simpl.
  - rewrite app_nil_r. now destruct st.
  - PRLabelsFacts.step. rewrite IH. simpl. now rewrite <- app_assoc.
Qed.

End PRLabelsMore.

Lemma printLabels_trace sys labels : forall st,
  exists printed,
    PRLabels.trace (fst (PRLabels.printLabels sys labels st))
    = PRLabels.trace st ++ map PRLabels.EvStdout printed.
Proof.
  induction labels as [|v rest IH]; intros st; simpl.
  - exists []. now rewrite app_nil_r.
  - destruct (gits.Label_Name v) as [name|]; [|exists []; simpl; now rewrite app_nil_r].
    PRLabelsFacts.step.
    match goal with |- context [PRLabels.printLabels sys rest ?s] =>
      destruct (IH s) as (printed & Hp) end.
    eexists (_ :: printed). rewrite Hp. simpl. now rewrite <- app_assoc.
Qed.

Lemma requested_stdout printed :
  PRLabels.requested (map PRLabels.EvStdout printed) = [].
Proof. induction printed; simpl; auto. Qed.

(** X1. When the pull request is found and each of its labels has a name,
    [Run] succeeds and adds to standard output, for the labels in their
    order, [<prefix>_<KEY>='<label>'] with nothing in between, where the
    prefix is [--prefix] or, when that is empty, [JX_PR_LABELS]. *)
Theorem X1_labels_printed_in_order (sys : PRLabels.Sys) (st : PRLabels.St)
    (gitInfo repo : gits.GitRepository) (provider : gits.GitProvider)
    (found : gits.GitPullRequest) (names : list string) :
  let o := PRLabels.opts st in
  let pr := if Go.isEmpty (PRLabels.PullRequest o)
            then Go.TrimPrefix (PRLabels.Getenv sys "BRANCH_NAME") "PR-"
            else PRLabels.PullRequest o in
  let prefix := if Go.isEmpty (PRLabels.Prefix o) then PRLabels.DefaultPrefix
                else PRLabels.Prefix o in
  PRLabels.CreateGitProvider sys (PRLabels.Dir o) = inl (gitInfo, Some provider) ->
  pr <> "" ->
  (if Go.isEmpty (PRLabels.GitURL o) then inl gitInfo
   else PRLabels.ParseGitURL sys (PRLabels.GitURL o)) = inl repo ->
  gits.GetPullRequest provider (gits.Organisation repo) repo (fst (Go.Atoi pr)) = inl found ->
  gits.Labels found = map (fun n => {| gits.Label_Name := Some n |}) names ->
  snd (PRLabels.Run sys st) = Ok tt /\
  PRLabels.stdout (PRLabels.trace (fst (PRLabels.Run sys st)))
  = PRLabels.stdout (PRLabels.trace st)
    +:+ Go.concat (map (fun n => prefix +:+ "_" +:+ PRLabels.envKey sys n
                                 +:+ "='" +:+ n +:+ "'") names).
Proof.
  destruct st as [o t]. cbv zeta. cbn [PRLabels.opts PRLabels.trace].
  set (pr := if Go.isEmpty (PRLabels.PullRequest o) then _ else _).
  set (prefix := if Go.isEmpty (PRLabels.Prefix o) then _ else _).
  intros Hp Hpr Hrepo Hget Hl.
  rewrite (PRLabelsMore.Run_equation sys o t gitInfo provider Hp). cbv zeta.
  fold pr. apply isEmpty_false in Hpr. rewrite Hpr, Hrepo, Hget, Hl.
  rewrite PRLabelsFacts.printLabels_named. simpl.
  split; [reflexivity|].
  rewrite !PRLabelsMore.stdout_app, PRLabelsMore.stdout_printed.
  change (PRLabels.stdout [PRLabels.EvGetPullRequest _ _ _]) with "".
  rewrite append_empty_r.
  assert (Hw : PRLabels.stdout
            (if bool_decide (snd (Go.Atoi pr) <> None)
             then t ++ [PRLabels.EvWarn ("Unable to convert PR " +:+ pr +:+ " to a number")]
             else t) = PRLabels.stdout t).
  { destruct (bool_decide _); [|reflexivity].
    rewrite PRLabelsMore.stdout_app. apply append_empty_r. }
  rewrite Hw. f_equal. f_equal. apply map_ext. intros n.
  rewrite labelText_shape. f_equal.
  subst prefix. destruct (Go.isEmpty (PRLabels.Prefix o)), (Go.isEmpty (PRLabels.PullRequest o));
    reflexivity.
Qed.

Lemma X1_labels_printed_in_order_witness :
  PRLabels.stdout
    (PRLabels.trace
       (fst (PRLabels.Run (PRLabels.sys0 "PR-34") (PRLabels.start (PRLabels.flags "" "PRL")))))
  = "PRL_BUG='bug'PRL_KIND_FEATURE='kind/feature'".
Proof.
  refine (proj2 (X1_labels_printed_in_order (PRLabels.sys0 "PR-34")
                   (PRLabels.start (PRLabels.flags "" "PRL"))
                   PRLabels.repo0 PRLabels.repo0 PRLabels.provider0 PRLabels.pr34
                   ["bug"; "kind/feature"] eq_refl _ eq_refl eq_refl eq_refl)).
  discriminate.
Defined.

(** X2. A label whose name is nil makes [Run] panic when it is reached:
    the labels before it have been printed, it and the labels after it have
    not. *)
Theorem X2_label_without_name_panics (sys : PRLabels.Sys) (st : PRLabels.St)
    (gitInfo repo : gits.GitRepository) (provider : gits.GitProvider)
    (found : gits.GitPullRequest) (names : list string) (rest : list gits.GitLabel) :
  let o := PRLabels.opts st in
  let pr := if Go.isEmpty (PRLabels.PullRequest o)
            then Go.TrimPrefix (PRLabels.Getenv sys "BRANCH_NAME") "PR-"
            else PRLabels.PullRequest o in
  let prefix := if Go.isEmpty (PRLabels.Prefix o) then PRLabels.DefaultPrefix
                else PRLabels.Prefix o in
  PRLabels.CreateGitProvider sys (PRLabels.Dir o) = inl (gitInfo, Some provider) ->
  pr <> "" ->
  (if Go.isEmpty (PRLabels.GitURL o) then inl gitInfo
   else PRLabels.ParseGitURL sys (PRLabels.GitURL o)) = inl repo ->
  gits.GetPullRequest provider (gits.Organisation repo) repo (fst (Go.Atoi pr)) = inl found ->
  gits.Labels found
    = map (fun n => {| gits.Label_Name := Some n |}) names
      ++ {| gits.Label_Name := None |} :: rest ->
  snd (PRLabels.Run sys st) = Panic /\
  PRLabels.stdout (PRLabels.trace (fst (PRLabels.Run sys st)))
  = PRLabels.stdout (PRLabels.trace st)
    +:+ Go.concat (map (PRLabels.labelText sys prefix) names).
Proof.
  destruct st as [o t]. cbv zeta. cbn [PRLabels.opts PRLabels.trace].
  set (pr := if Go.isEmpty (PRLabels.PullRequest o) then _ else _).
  set (prefix := if Go.isEmpty (PRLabels.Prefix o) then _ else _).
  intros Hp Hpr Hrepo Hget Hl.
  rewrite (PRLabelsMore.Run_equation sys o t gitInfo provider Hp). cbv zeta.
  fold pr. apply isEmpty_false in Hpr. rewrite Hpr, Hrepo, Hget, Hl.
  rewrite PRLabelsMore.printLabels_nil_name. simpl.
  split; [reflexivity|].
  rewrite !PRLabelsMore.stdout_app, PRLabelsMore.stdout_printed.
  change (PRLabels.stdout [PRLabels.EvGetPullRequest _ _ _]) with "".
  rewrite append_empty_r.
  assert (Hw : PRLabels.stdout
            (if bool_decide (snd (Go.Atoi pr) <> None)
             then t ++ [PRLabels.EvWarn ("Unable to convert PR " +:+ pr +:+ " to a number")]
             else t) = PRLabels.stdout t).
  { destruct (bool_decide _); [|reflexivity].
    rewrite PRLabelsMore.stdout_app. apply append_empty_r. }
  rewrite Hw. f_equal. f_equal.
  subst prefix. destruct (Go.isEmpty (PRLabels.Prefix o)), (Go.isEmpty (PRLabels.PullRequest o));
    reflexivity.
Qed.

Lemma X2_label_without_name_panics_witness :
  snd (PRLabels.Run (PRLabels.sys1 "") (PRLabels.start (PRLabels.flags "35" ""))) = Panic /\
  PRLabels.stdout
    (PRLabels.trace
       (fst (PRLabels.Run (PRLabels.sys1 "") (PRLabels.start (PRLabels.flags "35" "")))))
  = "JX_PR_LABELS_BUG='bug'".
Proof.
  refine (X2_label_without_name_panics (PRLabels.sys1 "")
            (PRLabels.start (PRLabels.flags "35" ""))
            PRLabels.repo0 PRLabels.repo0 PRLabels.provider1 PRLabels.pr35
            ["bug"] [ {| gits.Label_Name := Some "kind/feature" |} ]
            eq_refl _ eq_refl eq_refl eq_refl).
  discriminate.
Defined.

(** X3. On every path [Run] asks the provider for at most one pull
    request, and it writes nothing to standard output unless it has asked;
    [--url] and the directory are left as they were. *)
Theorem X3_one_lookup_before_any_output (sys : PRLabels.Sys) (st : PRLabels.St) :
  exists new,
    PRLabels.trace (fst (PRLabels.Run sys st)) = PRLabels.trace st ++ new /\
    (length (PRLabels.requested new) <= 1)%nat /\
    (PRLabels.requested new = [] -> PRLabels.stdout new = "") /\
    PRLabels.Dir (PRLabels.opts (fst (PRLabels.Run sys st))) = PRLabels.Dir (PRLabels.opts st) /\
    PRLabels.GitURL (PRLabels.opts (fst (PRLabels.Run sys st)))
      = PRLabels.GitURL (PRLabels.opts st).
Proof.
  destruct st as [o t].
  destruct (PRLabels.CreateGitProvider sys (PRLabels.Dir o)) as [[gitInfo [provider|]]|e] eqn:Hp.
  2,3: exists []; unfold PRLabels.Run; PRLabelsFacts.step; rewrite Hp; simpl;
       rewrite app_nil_r; repeat split; auto.
  rewrite (PRLabelsMore.Run_equation sys o t gitInfo provider Hp). cbv zeta.
  set (pr := if Go.isEmpty (PRLabels.PullRequest o) then _ else _).
  assert (Hfields : forall o',
    o' = (if Go.isEmpty (PRLabels.Prefix o)
          then PRLabels.set_Prefix PRLabels.DefaultPrefix
                 (if Go.isEmpty (PRLabels.PullRequest o)
                  then PRLabels.set_PullRequest pr o else o)
          else if Go.isEmpty (PRLabels.PullRequest o)
               then PRLabels.set_PullRequest pr o else o) ->
    PRLabels.Dir o' = PRLabels.Dir o /\ PRLabels.GitURL o' = PRLabels.GitURL o).
  { intros o' ->. destruct (Go.isEmpty (PRLabels.Prefix o)), (Go.isEmpty (PRLabels.PullRequest o));
      auto. }
  set (warn := PRLabels.EvWarn _).
  assert (Ht1 : exists w, (if bool_decide (snd (Go.Atoi pr) <> None) then t ++ [warn] else t)
                          = t ++ w /\ PRLabels.requested w = [] /\ PRLabels.stdout w = "").
  { destruct (bool_decide _); [exists [warn]|exists []]; rewrite ?app_nil_r; auto. }
  destruct Ht1 as (w & -> & Hwr & Hws).
  destruct (Go.isEmpty pr).
  { exists []. simpl. rewrite app_nil_r.
    destruct (Go.isEmpty (PRLabels.PullRequest o)); repeat split; auto. }
  destruct (if Go.isEmpty (PRLabels.GitURL o) then _ else _) as [repo|e].
  2:{ exists w. simpl. rewrite Hwr. destruct (Hfields _ eq_refl). repeat split; auto. }
  destruct (gits.GetPullRequest provider _ _ _) as [found|e].
  2:{ eexists. simpl. rewrite <- app_assoc. split; [reflexivity|].
      unfold PRLabels.requested in *. rewrite omap_app, Hwr. simpl.
      destruct (Hfields _ eq_refl). repeat split; auto. discriminate. }
  match goal with |- context [PRLabels.printLabels sys ?l ?s] =>
    destruct (printLabels_trace sys l s) as (printed & Hpt);
    destruct (PRLabelsFacts.printLabels_frame sys l s) as (Ho & _ & _) end.
  rewrite Hpt, Ho. simpl. eexists. rewrite <- !app_assoc. split; [reflexivity|].
  unfold PRLabels.requested in *. rewrite !omap_app, Hwr. simpl.
  fold (PRLabels.requested (map PRLabels.EvStdout printed)). rewrite requested_stdout. simpl.
  destruct (Hfields _ eq_refl). repeat split; auto. discriminate.
Qed.

(** X4. With [--url] the repository is the one the URL parses to: when
    the URL does not parse, [Run] fails with that error, wrapped as
    ["parsing <url>"], and the provider is not asked; when it parses, the
    provider is asked for the pull request of that repository, under its
    organisation, and not of the repository of the directory. *)
Theorem X4_url_overrides_directory (sys : PRLabels.Sys) (st : PRLabels.St)
    (gitInfo : gits.GitRepository) (provider : gits.GitProvider) :
  let o := PRLabels.opts st in
  let pr := if Go.isEmpty (PRLabels.PullRequest o)
            then Go.TrimPrefix (PRLabels.Getenv sys "BRANCH_NAME") "PR-"
            else PRLabels.PullRequest o in
  PRLabels.CreateGitProvider sys (PRLabels.Dir o) = inl (gitInfo, Some provider) ->
  pr <> "" ->
  PRLabels.GitURL o <> "" ->
  match PRLabels.ParseGitURL sys (PRLabels.GitURL o) with
  | inr e =>
      snd (PRLabels.Run sys st)
        = Err (ErrWrap e (Go.Sprintf "parsing %s" [PRLabels.GitURL o])) /\
      PRLabels.requested (PRLabels.trace (fst (PRLabels.Run sys st)))
        = PRLabels.requested (PRLabels.trace st)
  | inl repo =>
      In (PRLabels.EvGetPullRequest (gits.Organisation repo) repo (fst (Go.Atoi pr)))
         (PRLabels.trace (fst (PRLabels.Run sys st)))
  end.
Proof.
  destruct st as [o t]. cbv zeta. cbn [PRLabels.opts PRLabels.trace].
  set (pr := if Go.isEmpty (PRLabels.PullRequest o) then _ else _).
  intros Hp Hpr Hurl.
  rewrite (PRLabelsMore.Run_equation sys o t gitInfo provider Hp). cbv zeta.
  fold pr. apply isEmpty_false in Hpr, Hurl. rewrite Hpr, Hurl.
  destruct (PRLabels.ParseGitURL sys (PRLabels.GitURL o)) as [repo|e].
  - destruct (gits.GetPullRequest provider _ _ _) as [found|e].
    + match goal with |- context [PRLabels.printLabels sys ?l ?s] =>
        destruct (printLabels_trace sys l s) as (printed & Hpt) end.
      rewrite Hpt. simpl. rewrite !in_app_iff. left. right. left. reflexivity.
    + simpl. rewrite in_app_iff. right. left. reflexivity.
  - simpl. split; [reflexivity|].
    destruct (bool_decide _); [|reflexivity].
    unfold PRLabels.requested. rewrite omap_app. simpl. apply app_nil_r.
Qed.

Lemma X4_url_overrides_directory_witness :
  In (PRLabels.EvGetPullRequest "other" PRLabels.repo1 35)
     (PRLabels.trace
        (fst (PRLabels.Run (PRLabels.sys1 "")
                (PRLabels.start (PRLabels.flagsURL "35" "https://github.com/other/api"))))).
Proof.
  refine (X4_url_overrides_directory (PRLabels.sys1 "")
            (PRLabels.start (PRLabels.flagsURL "35" "https://github.com/other/api"))
            PRLabels.repo0 PRLabels.provider1 eq_refl _ _); discriminate.
Defined.

(** X5. When [--pr] is given, [BRANCH_NAME] is not looked at: two
    settings that differ only in the environment give the same run. *)
Theorem X5_flag_hides_environment (sys : PRLabels.Sys) (st : PRLabels.St)
    (getenv : string -> string) :
  PRLabels.PullRequest (PRLabels.opts st) <> "" ->
  PRLabels.Run sys st
  = PRLabels.Run {| PRLabels.CreateGitProvider := PRLabels.CreateGitProvider sys;
                    PRLabels.Getenv := getenv;
                    PRLabels.ParseGitURL := PRLabels.ParseGitURL sys;
                    PRLabels.unicodeToUpper := PRLabels.unicodeToUpper sys |} st.
Proof.
  intros Hpr. destruct st as [o t]. apply isEmpty_false in Hpr. simpl in Hpr.
  unfold PRLabels.Run. PRLabelsFacts.step.
  destruct (PRLabels.CreateGitProvider sys (PRLabels.Dir o)) as [[gitInfo [provider|]]|e];
    simpl; try reflexivity.
  rewrite Hpr. reflexivity.
Qed.

Lemma X5_flag_hides_environment_witness :
  PRLabels.Run (PRLabels.sys0 "PR-7") (PRLabels.start (PRLabels.flags "34" ""))
  = PRLabels.Run (PRLabels.sys0 "PR-34") (PRLabels.start (PRLabels.flags "34" "")).
Proof.
  refine (X5_flag_hides_environment (PRLabels.sys0 "PR-7")
            (PRLabels.start (PRLabels.flags "34" ""))
            (PRLabels.Getenv (PRLabels.sys0 "PR-34")) _).
  discriminate.
Defined.

Lemma HasPrefix_append p s : Go.HasPrefix (p +:+ s) p = true.
Proof.
  induction p as [|c p IH]; [destruct s; reflexivity|].
  rewrite append_cons. cbn [Go.HasPrefix]. now rewrite Ascii.eqb_refl.
Qed.

Lemma sliceFrom_append p s : Go.sliceFrom (Go.len p) (p +:+ s) = s.
Proof.
  induction p as [|c p IH]; [destruct s; reflexivity|].
  rewrite append_cons. exact IH.
Qed.

Lemma TrimPrefix_append p s : Go.TrimPrefix (p +:+ s) p = s.
Proof. unfold Go.TrimPrefix. now rewrite HasPrefix_append, sliceFrom_append. Qed.

(** X6. The branch name of a pull request pipeline, ["PR-"] followed by
    the decimal text of its number, leads [Run] to that number: without
    [--pr] the provider is asked for exactly that pull request, and nothing
    is warned about. *)
Theorem X6_branch_name_gives_number (sys : PRLabels.Sys) (st : PRLabels.St)
    (gitInfo repo : gits.GitRepository) (provider : gits.GitProvider) (n : Z) :
  0 <= n <= Go.maxInt ->
  PRLabels.CreateGitProvider sys (PRLabels.Dir (PRLabels.opts st))
    = inl (gitInfo, Some provider) ->
  PRLabels.PullRequest (PRLabels.opts st) = "" ->
  PRLabels.Getenv sys "BRANCH_NAME" = "PR-" +:+ Go.Itoa n ->
  (if Go.isEmpty (PRLabels.GitURL (PRLabels.opts st)) then inl gitInfo
   else PRLabels.ParseGitURL sys (PRLabels.GitURL (PRLabels.opts st))) = inl repo ->
  PRLabels.requested (PRLabels.trace (fst (PRLabels.Run sys st)))
    = PRLabels.requested (PRLabels.trace st) ++ [n] /\
  PRLabels.warnings (PRLabels.trace (fst (PRLabels.Run sys st)))
    = PRLabels.warnings (PRLabels.trace st).
Proof.
  intros Hn Hp Hflag Henv Hrepo. destruct st as [o t]. simpl in *.
  assert (HA : Go.Atoi (Go.Itoa n) = (n, None))
    by (apply Atoi_of_Itoa; unfold Go.minInt, Go.maxInt in *; lia).
  assert (Hne : Go.isEmpty (Go.Itoa n) = false).
  { destruct (Go.Itoa n); [discriminate HA|reflexivity]. }
  rewrite (PRLabelsMore.Run_equation sys o t gitInfo provider Hp). cbv zeta.
  rewrite Hflag, Henv. cbn [Go.isEmpty]. rewrite TrimPrefix_append, Hne, HA, Hrepo.
  cbn [fst snd]. rewrite bool_decide_eq_false_2 by congruence.
  unfold PRLabels.requested, PRLabels.warnings.
  destruct (gits.GetPullRequest provider _ _ n) as [found|e].
  - match goal with |- context [PRLabels.printLabels sys ?l ?s] =>
      destruct (PRLabelsFacts.printLabels_frame sys l s) as (_ & Hr & Hw) end.
    unfold PRLabels.requested, PRLabels.warnings in *. rewrite Hr, Hw. simpl.
    rewrite !omap_app. simpl. rewrite app_nil_r. auto.
  - simpl. rewrite !omap_app. simpl. rewrite app_nil_r. auto.
Qed.

Lemma X6_branch_name_gives_number_witness :
  PRLabels.requested
    (PRLabels.trace
       (fst (PRLabels.Run (PRLabels.sys0 "PR-4554") (PRLabels.start (PRLabels.flags "" "")))))
  = [4554].
Proof.
  refine (proj1 (X6_branch_name_gives_number (PRLabels.sys0 "PR-4554")
                   (PRLabels.start (PRLabels.flags "" ""))
                   PRLabels.repo0 PRLabels.repo0 PRLabels.provider0 4554
                   _ eq_refl eq_refl eq_refl eq_refl)).
  unfold Go.maxInt. lia.
Defined.

(** ** More on environment keys *)

Module EnvKeyMore.
Import Go.

Lemma upper_alnum c : isAlnum c = true -> (isUpper (upperByte c) || isDigit (upperByte c)) = true.
Proof. EnvKey.each_byte c; discriminate. Qed.

Lemma underscore_not_upper : (isUpper "_" || isDigit "_") = false.
Proof. reflexivity. Qed.

Lemma keyShape_upper s : forall b,
  tidy b s = true -> keyShape b (mapBytes upperByte s) = true.
Proof.
  induction s as [|c s IH]; intros b; simpl; [reflexivity|].
  destruct (isAlnum c) eqn:Hc.
  - rewrite (upper_alnum _ Hc). apply IH.
  - intros H. apply andb_prop in H as [H Hs]. apply andb_prop in H as [Hsep Hb].
    apply Ascii.eqb_eq in Hsep. subst c.
    change (upperByte "_") with "_"%char. rewrite underscore_not_upper.
    rewrite Hb. simpl. now apply IH.
Qed.

Lemma replaceRuns_length s : forall b,
  (String.length (replaceRuns b s "_") <= String.length s)%nat.
Proof.
  induction s as [|c s IH]; intros b; simpl; [lia|].
  destruct (isAlnum c); [simpl; specialize (IH false); lia|].
  destruct b; [specialize (IH true); lia|].
  change (String.length (String "_" (replaceRuns true s "_")) <= S (String.length s))%nat.
  simpl. specialize (IH true). lia.
Qed.

Lemma mapBytes_length f s : String.length (mapBytes f s) = String.length s.
Proof. induction s; simpl; auto. Qed.

Lemma replaceRuns_upper s : forall b,
  replaceRuns b (mapBytes upperByte s) "_" = mapBytes upperByte (replaceRuns b s "_").
Proof.
  induction s as [|c s IH]; intros b; simpl; [reflexivity|].
  rewrite EnvKey.isAlnum_upperByte.
  destruct (isAlnum c); [simpl; now rewrite IH|].
  destruct b; [apply IH|].
  change (String "_" (replaceRuns true (mapBytes upperByte s) "_")
          = mapBytes upperByte (String "_" (replaceRuns true s "_"))).
  simpl. now rewrite IH.
Qed.

Lemma replaceRuns_separator a c1 c2 r : forall b,
  isAlnum c1 = false -> isAlnum c2 = false ->
  replaceRuns b (a +:+ String c1 r) "_" = replaceRuns b (a +:+ String c2 r) "_".
Proof.
  intros b H1 H2. revert b.
  induction a as [|c a IH]; intros b.
  - change (replaceRuns b (String c1 r) "_" = replaceRuns b (String c2 r) "_").
    simpl. now rewrite H1, H2.
  - rewrite !append_cons. simpl. destruct (isAlnum c); [now rewrite IH|].
    destruct b; now rewrite IH.
Qed.

End EnvKeyMore.

(** X7. The environment key of a label is made of capital letters, digits
    and single ["_"] only (never two ["_"] in a row), and is not longer than
    the name of the label. *)
Theorem X7_envKey_shape (sys : PRLabels.Sys) (name : string) :
  Go.keyShape false (PRLabels.envKey sys name) = true /\
  (String.length (PRLabels.envKey sys name) <= String.length name)%nat.
Proof.
  unfold PRLabels.envKey. rewrite EnvKey.ToUpper_replaced. unfold Go.ReplaceAllString. split.
  - apply EnvKeyMore.keyShape_upper, EnvKey.replaceRuns_tidy.
  - rewrite EnvKeyMore.mapBytes_length. apply EnvKeyMore.replaceRuns_length.
Qed.

(** X8. Labels collide: the key does not tell the case of the ASCII
    letters of a name, nor which character outside [a-zA-Z0-9] stands at a
    place of the name. *)
Theorem X8_envKey_collisions (sys : PRLabels.Sys) (name before after : string) (c1 c2 : ascii) :
  PRLabels.envKey sys (Go.mapBytes Go.upperByte name) = PRLabels.envKey sys name /\
  (Go.isAlnum c1 = false -> Go.isAlnum c2 = false ->
   PRLabels.envKey sys (before +:+ String c1 after)
   = PRLabels.envKey sys (before +:+ String c2 after)).
Proof.
  unfold PRLabels.envKey. rewrite !EnvKey.ToUpper_replaced. unfold Go.ReplaceAllString. split.
  - rewrite EnvKeyMore.replaceRuns_upper. apply EnvKey.upper_twice.
  - intros H1 H2. now rewrite (EnvKeyMore.replaceRuns_separator before c1 c2 after false H1 H2).
Qed.

Lemma X8_envKey_collisions_witness :
  PRLabels.envKey (PRLabels.sys0 "") "kind/feature" = PRLabels.envKey (PRLabels.sys0 "") "kind-feature".
Proof.
  exact (proj2 (X8_envKey_collisions (PRLabels.sys0 "") "" "kind" "feature" "/" "-")
           eq_refl eq_refl).
Defined.

(** ** More on regex pull requests *)

Module RegexMore.
Import CreatePRRegex.

(** [ValidateRegexOptions], branch by branch. *)
Lemma ValidateRegexOptions_equation V o t :
  let createPr := fst (V false (CreatePr o)) in
  let pattern := if Go.HasPrefix (Regexp o) "(?m" then Regexp o else "(?m)" +:+ Regexp o in
  ValidateRegexOptions V {| opts := o; trace := t |}
  = match snd (V false (CreatePr o)) with
    | Some e => ({| opts := set_CreatePr createPr o; trace := t |}, Err (ErrWithStack e))
    | None =>
        if Go.isEmpty (Regexp o)
        then ({| opts := set_CreatePr createPr o; trace := t |}, Err (ErrMissingOption "regex"))
        else
          ({| opts := {| CreatePr := createPr; Regexp := pattern; Files := Files o;
                         Kind := if Go.isEmpty (Kind o) then "regex" else Kind o |};
              trace := if Go.isEmpty (SrcGitURL createPr)
                       then t ++ [EvWarnf "srcRepo is not provided so generated PR will not be correctly linked in release notesPR"]
                       else t |},
           Ok tt)
    end.
Proof.
  cbv zeta.
  unfold ValidateRegexOptions, bind, options, check, when, update, emit, modify, ret, fail.
  simpl. destruct (V false (CreatePr o)) as [createPr [e|]]; simpl; [reflexivity|].
  destruct (Go.isEmpty (Regexp o)); [reflexivity|].
  destruct (Go.HasPrefix (Regexp o) "(?m"); simpl;
    destruct (Go.isEmpty (SrcGitURL createPr)); simpl;
    destruct (Go.isEmpty (Kind o)); simpl; rewrite ?append_empty_r; reflexivity.
Qed.

Lemma HasPrefix_marker_added r : Go.HasPrefix ("(?m)" +:+ r) "(?m" = true.
Proof. destruct r; reflexivity. Qed.

End RegexMore.

Lemma validated_options_shape
    (ValidateOptions : bool -> CreatePRRegex.StepCreatePrOptions
                       -> CreatePRRegex.StepCreatePrOptions * option error)
    (st : CreatePRRegex.St) :
  snd (CreatePRRegex.ValidateRegexOptions ValidateOptions st) = Ok tt ->
  let o := CreatePRRegex.opts st in
  let st' := fst (CreatePRRegex.ValidateRegexOptions ValidateOptions st) in
  let o' := CreatePRRegex.opts st' in
  Go.HasPrefix (CreatePRRegex.Regexp o') "(?m" = true /\
  CreatePRRegex.Kind o' <> "" /\
  (CreatePRRegex.Kind o <> "" -> CreatePRRegex.Kind o' = CreatePRRegex.Kind o) /\
  (CreatePRRegex.Kind o = "" -> CreatePRRegex.Kind o' = "regex") /\
  CreatePRRegex.Files o' = CreatePRRegex.Files o /\
  CreatePRRegex.trace st'
  = CreatePRRegex.trace st
    ++ (if Go.isEmpty (CreatePRRegex.SrcGitURL (CreatePRRegex.CreatePr o'))
        then [CreatePRRegex.EvWarnf "srcRepo is not provided so generated PR will not be correctly linked in release notesPR"]
        else []).
Proof.
  destruct st as [o t]. rewrite RegexMore.ValidateRegexOptions_equation. cbv zeta.
  destruct (ValidateOptions false (CreatePRRegex.CreatePr o)) as [createPr [e|]];
    cbn [fst snd]; [discriminate|].
  destruct (Go.isEmpty (CreatePRRegex.Regexp o)); [discriminate|].
  intros _. cbn [fst snd CreatePRRegex.opts CreatePRRegex.trace CreatePRRegex.Regexp
                  CreatePRRegex.Kind CreatePRRegex.Files CreatePRRegex.CreatePr].
  repeat split.
  - destruct (Go.HasPrefix (CreatePRRegex.Regexp o) "(?m") eqn:Hm; [exact Hm|].
    apply RegexMore.HasPrefix_marker_added.
  - destruct (Go.isEmpty (CreatePRRegex.Kind o)) eqn:Hk; [discriminate|].
    now apply isEmpty_false.
  - intros Hk. apply isEmpty_false in Hk. now rewrite Hk.
  - intros Hk. apply isEmpty_true in Hk. now rewrite Hk.
  - destruct (Go.isEmpty (CreatePRRegex.SrcGitURL createPr)); [reflexivity|].
    now rewrite app_nil_r.
Qed.

(** X9. Whenever validation succeeds, the pattern starts with ["(?m"], the
    kind is not empty (a given kind is kept, ["regex"] is the default), the
    files are as given, and the missing link to a source repository has
    been warned about exactly when [SrcGitURL] is empty. *)
Theorem X9_validated_options
    (ValidateOptions : bool -> CreatePRRegex.StepCreatePrOptions
                       -> CreatePRRegex.StepCreatePrOptions * option error)
    (st : CreatePRRegex.St) :
  snd (CreatePRRegex.ValidateRegexOptions ValidateOptions st) = Ok tt ->
  let o := CreatePRRegex.opts st in
  let st' := fst (CreatePRRegex.ValidateRegexOptions ValidateOptions st) in
  let o' := CreatePRRegex.opts st' in
  Go.HasPrefix (CreatePRRegex.Regexp o') "(?m" = true /\
  CreatePRRegex.Kind o' <> "" /\
  (CreatePRRegex.Kind o <> "" -> CreatePRRegex.Kind o' = CreatePRRegex.Kind o) /\
  (CreatePRRegex.Kind o = "" -> CreatePRRegex.Kind o' = "regex") /\
  CreatePRRegex.Files o' = CreatePRRegex.Files o /\
  CreatePRRegex.trace st'
  = CreatePRRegex.trace st
    ++ (if Go.isEmpty (CreatePRRegex.SrcGitURL (CreatePRRegex.CreatePr o'))
        then [CreatePRRegex.EvWarnf "srcRepo is not provided so generated PR will not be correctly linked in release notesPR"]
        else []).
Proof. apply validated_options_shape. Qed.

Lemma X9_validated_options_witness :
  Go.HasPrefix
    (CreatePRRegex.Regexp
       (CreatePRRegex.opts
          (fst (CreatePRRegex.ValidateRegexOptions CreatePRRegex.validate0
                  (CreatePRRegex.flags "(?i)^version: (.*)$")))))
    "(?m" = true.
Proof.
  exact (proj1 (X9_validated_options CreatePRRegex.validate0
                  (CreatePRRegex.flags "(?i)^version: (.*)$") eq_refl)).
Defined.

(** X10. When validation fails nothing of the command's own options has
    changed and nothing has been logged: the pattern, the kind and the
    files are as given.  The error is the error of the embedded validation
    with a stack, or [MissingOption "regex"] for an empty pattern. *)
Theorem X10_failed_validation_changes_nothing
    (ValidateOptions : bool -> CreatePRRegex.StepCreatePrOptions
                       -> CreatePRRegex.StepCreatePrOptions * option error)
    (st : CreatePRRegex.St) (err : error) :
  snd (CreatePRRegex.ValidateRegexOptions ValidateOptions st) = Err err ->
  let o := CreatePRRegex.opts st in
  let st' := fst (CreatePRRegex.ValidateRegexOptions ValidateOptions st) in
  let o' := CreatePRRegex.opts st' in
  CreatePRRegex.Regexp o' = CreatePRRegex.Regexp o /\
  CreatePRRegex.Kind o' = CreatePRRegex.Kind o /\
  CreatePRRegex.Files o' = CreatePRRegex.Files o /\
  CreatePRRegex.trace st' = CreatePRRegex.trace st /\
  ((exists e, snd (ValidateOptions false (CreatePRRegex.CreatePr o)) = Some e /\
              err = ErrWithStack e)
   \/ (snd (ValidateOptions false (CreatePRRegex.CreatePr o)) = None /\
       CreatePRRegex.Regexp o = "" /\ err = ErrMissingOption "regex")).
Proof.
  destruct st as [o t]. rewrite RegexMore.ValidateRegexOptions_equation. cbv zeta.
  cbn [CreatePRRegex.opts CreatePRRegex.trace].
  destruct (ValidateOptions false (CreatePRRegex.CreatePr o)) as [createPr [e|]];
    cbn [fst snd].
  - intros [= <-]. simpl. repeat split; auto. left. eauto.
  - destruct (Go.isEmpty (CreatePRRegex.Regexp o)) eqn:Hr; [|discriminate].
    intros [= <-]. simpl. apply isEmpty_true in Hr. repeat split; auto.
Qed.

Lemma X10_failed_validation_changes_nothing_witness :
  CreatePRRegex.Kind
    (CreatePRRegex.opts
       (fst (CreatePRRegex.ValidateRegexOptions CreatePRRegex.validate0 (CreatePRRegex.flags ""))))
  = "".
Proof.
  exact (proj1 (proj2 (X10_failed_validation_changes_nothing CreatePRRegex.validate0
                         (CreatePRRegex.flags "") (ErrMissingOption "regex") eq_refl))).
Defined.

(** X11. Validating twice is validating once: when the embedded validation
    accepts again the options it has accepted, a second
    [ValidateRegexOptions] succeeds and leaves the options as the first
    left them (the marker is not added a second time). *)
Theorem X11_validation_idempotent
    (ValidateOptions : bool -> CreatePRRegex.StepCreatePrOptions
                       -> CreatePRRegex.StepCreatePrOptions * option error)
    (st : CreatePRRegex.St) :
  let st1 := fst (CreatePRRegex.ValidateRegexOptions ValidateOptions st) in
  snd (CreatePRRegex.ValidateRegexOptions ValidateOptions st) = Ok tt ->
  ValidateOptions false (CreatePRRegex.CreatePr (CreatePRRegex.opts st1))
    = (CreatePRRegex.CreatePr (CreatePRRegex.opts st1), None) ->
  snd (CreatePRRegex.ValidateRegexOptions ValidateOptions st1) = Ok tt /\
  CreatePRRegex.opts (fst (CreatePRRegex.ValidateRegexOptions ValidateOptions st1))
    = CreatePRRegex.opts st1.
Proof.
  cbv zeta. intros Hok.
  destruct (validated_options_shape ValidateOptions st Hok) as (Hm & Hk & _).
  cbv zeta in Hm, Hk.
  destruct (CreatePRRegex.ValidateRegexOptions ValidateOptions st) as [[o1 t1] r1].
  cbn [fst snd CreatePRRegex.opts] in *. intros Hv.
  rewrite RegexMore.ValidateRegexOptions_equation. cbv zeta. rewrite Hv. cbn [fst snd].
  assert (Hre : Go.isEmpty (CreatePRRegex.Regexp o1) = false).
  { destruct (CreatePRRegex.Regexp o1); [discriminate Hm|reflexivity]. }
  apply isEmpty_false in Hk. rewrite Hre, Hm, Hk. simpl. split; [reflexivity|].
  now destruct o1.
Qed.

Lemma X11_validation_idempotent_witness :
  let st1 := fst (CreatePRRegex.ValidateRegexOptions CreatePRRegex.validate0
                    (CreatePRRegex.flags "^version: (.*)$")) in
  CreatePRRegex.Regexp
    (CreatePRRegex.opts (fst (CreatePRRegex.ValidateRegexOptions CreatePRRegex.validate0 st1)))
  = "(?m)^version: (.*)$".
Proof.
  cbv zeta.
  rewrite (proj2 (X11_validation_idempotent CreatePRRegex.validate0
                    (CreatePRRegex.flags "^version: (.*)$") eq_refl eq_refl)).
  reflexivity.
Defined.

(** X12. [Run] builds the change and then the pull request, each at most
    once and in that order, and only from validated options: the pattern
    it hands over starts with ["(?m"] and the kind is not empty.  It
    returns nil exactly when both have been asked for and the pull request
    has raised no error. *)
Theorem X12_regex_run_uses_validated_options
    (ValidateOptions : bool -> CreatePRRegex.StepCreatePrOptions
                       -> CreatePRRegex.StepCreatePrOptions * option error)
    (CreatePullRequestRegexFn : string -> string -> list string -> nat + error)
    (CreatePullRequest : CreatePRRegex.StepCreatePrOptions -> string -> nat -> option error)
    (rs : CreatePRRegex.RunSt) :
  let run := CreatePRRegex.Run ValidateOptions CreatePullRequestRegexFn CreatePullRequest rs in
  let o' := CreatePRRegex.opts (CreatePRRegex.validated (fst run)) in
  exists new,
    CreatePRRegex.calls (fst run) = CreatePRRegex.calls rs ++ new /\
    (new = []
     \/ (Go.HasPrefix (CreatePRRegex.Regexp o') "(?m" = true /\
         CreatePRRegex.Kind o' <> "" /\
         exists rest,
           new = CreatePRRegex.CallRegexFn
                   (CreatePRRegex.Version (CreatePRRegex.CreatePr o'))
                   (CreatePRRegex.Regexp o') (CreatePRRegex.Files o') :: rest /\
           (rest = [] \/ exists fn, rest = [CreatePRRegex.CallCreatePullRequest
                                              (CreatePRRegex.Kind o') fn]))) /\
    (snd run = Ok tt ->
     exists fn,
       new = [ CreatePRRegex.CallRegexFn
                 (CreatePRRegex.Version (CreatePRRegex.CreatePr o'))
                 (CreatePRRegex.Regexp o') (CreatePRRegex.Files o');
               CreatePRRegex.CallCreatePullRequest (CreatePRRegex.Kind o') fn ] /\
       CreatePullRequest (CreatePRRegex.CreatePr o') (CreatePRRegex.Kind o') fn = None).
Proof.
  cbv zeta. destruct rs as [st cs].
  unfold CreatePRRegex.Run, bind, mapErr, CreatePRRegex.onOptions, CreatePRRegex.record,
    CreatePRRegex.options, lift, check, modify, ret, fail.
  cbn [CreatePRRegex.validated CreatePRRegex.calls].
  pose proof (validated_options_shape ValidateOptions st) as Hshape.
  destruct (CreatePRRegex.ValidateRegexOptions ValidateOptions st) as [st1 [[]|e|]];
    cbn [fst snd CreatePRRegex.validated CreatePRRegex.calls] in *.
  2,3: exists []; rewrite app_nil_r; repeat split; auto; discriminate.
  destruct (Hshape eq_refl) as (Hm & Hk & _). cbv zeta in Hm, Hk.
  destruct (CreatePullRequestRegexFn _ _ _) as [fn|e];
    cbn [fst snd CreatePRRegex.validated CreatePRRegex.calls].
  - destruct (CreatePullRequest _ _ fn) as [e|] eqn:Hc;
      cbn [fst snd CreatePRRegex.validated CreatePRRegex.calls];
      rewrite <- app_assoc; eexists; (split; [reflexivity|]); split;
      try (right; repeat split; auto; eexists; split; [reflexivity|]; right; eauto);
      try discriminate.
    intros _. exists fn. auto.
  - eexists. split; [reflexivity|]. split; [|discriminate].
    right. repeat split; auto. eexists. split; [reflexivity|]. auto.
Qed.

(** ** Invariants of adding an app *)

Module Inv.
Import jenkinsv1 surveyutils AddApp.

Lemma Run_afterDevEnv sys :
  Run sys
  = bind (GetDevEnv sys)
      (fun '(gitOps, devEnv) =>
         bind (update (set_GitOps gitOps (Some devEnv))) (fun _ => afterDevEnv sys devEnv)).
Proof. reflexivity. Qed.

Section Generic.
Variable I : St -> Prop.

Lemma i_ret {E A} (a : A) : inv I (E:=E) (ret a).
Proof. intros st H. exact H. Qed.

Lemma i_fail {E A} (e : E) : inv I (A:=A) (fail e).
Proof. intros st H. exact H. Qed.

Lemma i_panic {E A} : inv I (E:=E) (A:=A) panic.
Proof. intros st H. exact H. Qed.

Lemma i_options {E} : inv I (E:=E) options.
Proof. intros st H. exact H. Qed.

Lemma i_ask {E A} (f : Trace -> A) : inv I (E:=E) (ask f).
Proof. intros st H. exact H. Qed.

Lemma i_lift {E E' A} (g : E' -> E) (r : A + E') : inv I (lift g r).
Proof. destruct r; intros st H; exact H. Qed.

Lemma i_check {E E'} (g : E' -> E) (r : option E') : inv I (check g r).
Proof. destruct r; intros st H; exact H. Qed.

Lemma i_deref {E A} (p : option A) : inv I (E:=E) (deref p).
Proof. destruct p; intros st H; exact H. Qed.

Lemma i_bind {E A B} (m : M St E A) (k : A -> M St E B) :
  inv I m -> (forall a, inv I (k a)) -> inv I (bind m k).
Proof.
  intros Hm Hk st H. unfold bind. specialize (Hm st H).
  destruct (m st) as [s1 [a|e|]]; simpl in *; [|assumption..].
  now apply Hk.
Qed.

(** A question to the surroundings, with its answer at hand. *)
Lemma i_bind_ask {E A B} (f : Trace -> A) (k : A -> M St E B) :
  (forall t, inv I (k (f t))) -> inv I (bind (ask f) k).
Proof. intros Hk st H. unfold bind, ask. now apply Hk. Qed.

(** Reading the options, with the state they are read from at hand. *)
Lemma i_bind_options {E B} (k : AddAppOptions -> M St E B) :
  (forall st, I st -> I (fst (k (opts st) st))) -> inv I (bind options k).
Proof. intros Hk st H. unfold bind, options. now apply Hk. Qed.

Lemma i_bind_ret {E A B} (a : A) (k : A -> M St E B) :
  inv I (k a) -> inv I (bind (ret a) k).
Proof. intros Hk st H. unfold bind, ret. now apply Hk. Qed.

Lemma i_mapErr {E E' A} (g : E -> E') (m : M St E A) : inv I m -> inv I (mapErr g m).
Proof.
  intros Hm st H. unfold mapErr. specialize (Hm st H).
  destruct (m st) as [s1 [a|e|]]; assumption.
Qed.

Lemma i_when {E} (b : bool) (m : M St E unit) : inv I m -> inv I (when b m).
Proof. destruct b; [auto|]. intros _ st H. exact H. Qed.

Lemma i_askR {A} (f : Trace -> A + error) : inv I (askR f).
Proof. unfold askR. apply i_bind; [apply i_ask|]. intros r. apply i_lift. Qed.

Lemma i_deferring {A} sys (m : M St (closer * error) closer) (rest : M St error A) :
  inv I m -> inv I rest -> (forall c, inv I (runClose sys c)) ->
  inv I (deferring sys m rest).
Proof.
  intros Hm Hr Hc st H. unfold deferring. specialize (Hm st H).
  destruct (m st) as [s1 [c|[c e]|]]; simpl in *; [| |assumption].
  - specialize (Hr s1 Hm). destruct (rest s1) as [s2 r]. simpl in *.
    specialize (Hc c s2 Hr).
    destruct (runClose sys c s2) as [s3 [[]|e|]]; simpl in *; assumption.
  - specialize (Hc c s1 Hm).
    destruct (runClose sys c s1) as [s3 [[]|e'|]]; simpl in *; assumption.
Qed.

End Generic.

Section Since.
Variable K : AddAppOptions -> Prop.
Variable ok : Event -> bool.
Variable t0 : Trace.

Lemma since_event st e :
  ok e = true -> since K ok t0 st ->
  since K ok t0 {| opts := opts st; trace := trace st ++ [e] |}.
Proof.
  intros He (HK & new & Ht & Hok). split; [exact HK|].
  exists (new ++ [e]). simpl. rewrite Ht, <- app_assoc. split; [reflexivity|].
  rewrite forallb_app, Hok. simpl. now rewrite He.
Qed.

Lemma i_emit {E} e : ok e = true -> inv (since K ok t0) (E:=E) (emit e).
Proof. intros He st H. now apply since_event. Qed.

Lemma i_call {E A} e (f : Trace -> A) : ok e = true -> inv (since K ok t0) (E:=E) (call e f).
Proof. intros He st H. now apply since_event. Qed.

Lemma i_update {E} f : (forall o, K o -> K (f o)) -> inv (since K ok t0) (E:=E) (update f).
Proof. intros Hf st (HK & Hev). split; [now apply Hf|exact Hev]. Qed.

Lemma i_writeSecrets sys client base secrets :
  (forall c p d, ok (EvVaultWrite c p d) = true) ->
  inv (since K ok t0) (writeSecrets sys client base secrets).
Proof.
  intros Hok. induction secrets as [|p secrets IH]; simpl; [apply i_ret|].
  apply i_bind; [apply i_deref|]. intros secret.
  apply i_bind; [apply i_call, Hok|]. intros err.
  apply i_bind; [apply i_check|]. intros _. exact IH.
Qed.

Lemma i_bind_options_K {E B} (k : AddAppOptions -> M St E B) :
  (forall o, K o -> inv (since K ok t0) (k o)) -> inv (since K ok t0) (bind options k).
Proof.
  intros Hk st H. unfold bind, options. apply (Hk (opts st)); [exact (proj1 H)|exact H].
Qed.

Lemma since_start st : K (opts st) -> since K ok (trace st) st.
Proof. intros HK. split; [exact HK|]. exists []. now rewrite app_nil_r. Qed.

End Since.

(** One step of a proof that a computation keeps an invariant [since]:
    [side] proves that an update keeps the property of the options, and
    closes a case that cannot be. *)
Ltac inv_step side :=
  lazymatch goal with
  | |- inv _ (let _ := _ in _) => cbv zeta
  | |- inv _ (bind (ask _) _) => apply i_bind_ask; intros ?; cbv beta
  | |- inv _ (bind options _) => apply i_bind_options_K; intros ? ?; cbv beta
  | |- inv _ (bind (ret _) _) => apply i_bind_ret; cbv beta
  | |- inv _ (bind (if ?b then _ else _) _) => destruct b eqn:?; try solve [exfalso; side]
  | |- inv _ (bind _ _) => apply i_bind; [|intros ?; cbv beta]
  | |- inv _ (mapErr _ _) => apply i_mapErr
  | |- inv _ (when _ _) => unfold when
  | |- inv _ (deferring _ _ _) => apply i_deferring; [| |intros ?]
  | |- inv _ (emit _) => apply i_emit; reflexivity
  | |- inv _ (call _ _) => apply i_call; reflexivity
  | |- inv _ (update _) => apply i_update; side
  | |- inv _ (ret _) => apply i_ret
  | |- inv _ (fail _) => apply i_fail
  | |- inv _ panic => apply i_panic
  | |- inv _ options => apply i_options
  | |- inv _ (ask _) => apply i_ask
  | |- inv _ (askR _) => apply i_askR
  | |- inv _ (lift _ _) => apply i_lift
  | |- inv _ (check _ _) => apply i_check
  | |- inv _ (deref _) => apply i_deref
  | |- inv _ (writeSecrets _ _ _ _) => apply i_writeSecrets; intros; reflexivity
  | |- inv _ (Run _) => unfold Run
  | |- inv _ (afterDevEnv _ _) => unfold afterDevEnv
  | |- inv _ (GetDevEnv _) => unfold GetDevEnv
  | |- inv _ (InspectChart _ _ _ _ _ _ _) => unfold InspectChart
  | |- inv _ (inspectChartFunc _ _ _ _) => unfold inspectChartFunc
  | |- inv _ (handleValues _ _ _ _) => unfold handleValues
  | |- inv _ (handleSecrets _ _ _ _) => unfold handleSecrets
  | |- inv _ (generateQuestions _ _) => unfold generateQuestions
  | |- inv _ (initVault _) => unfold initVault
  | |- inv _ (createPR _ _ _ _) => unfold createPR
  | |- inv _ (installApp _ _ _ _) => unfold installApp
  | |- inv _ (OnAppInstall _ _ _) => unfold OnAppInstall
  | |- inv _ (runClose _ _) => unfold runClose
  | |- inv _ (let '(_, _) := ?p in _) => destruct p
  | |- inv _ (if ?b then _ else _) => destruct b eqn:?; try solve [exfalso; side]
  | |- inv _ (match ?x with _ => _ end) => destruct x eqn:?; try solve [exfalso; side]
  end.

End Inv.

Module RunFacts.
Import jenkinsv1 surveyutils AddApp Inv.

Lemma no_vault_writes new :
  forallb (fun e => negb (isVaultWrite e)) new = true -> vaultWrites new = [].
Proof.
  induction new as [|e new IH]; [reflexivity|]. simpl.
  intros H. apply andb_prop in H as [He Hn]. unfold vaultWrites in *. simpl.
  destruct e; simpl in *; try discriminate; auto.
Qed.

Lemma Run_without_store sys t0 :
  UseVault sys = false ->
  inv (since (fun _ => True) (fun e => negb (isVaultWrite e)) t0) (Run sys).
Proof.
  intros Hv.
  repeat inv_step ltac:(first [congruence | intros; exact Logic.I]).
Qed.

Lemma filter_none (p : Event -> bool) new :
  forallb (fun e => negb (p e)) new = true -> List.filter p new = [].
Proof.
  induction new as [|e new IH]; [reflexivity|]. simpl.
  intros H. apply andb_prop in H as [He Hn]. apply negb_true_iff in He. rewrite He. auto.
Qed.

(** [GetDevEnv] leaves the options alone and only logs. *)
Lemma GetDevEnv_frame sys st :
  exists logs g d,
    GetDevEnv sys (E:=error) st
      = ({| opts := opts st; trace := trace st ++ logs |}, Ok (g, d)) /\
    forallb isLog logs = true.
Proof.
  destruct st as [o t]. unfold GetDevEnv. AddAppFacts.step.
  destruct (JXClientAndDevNamespace sys t) as [[jxClient ns]|err]; simpl.
  - destruct (GetDevEnvironment sys t jxClient ns) as [e|err]; simpl.
    + eexists [], _, _. rewrite app_nil_r. auto.
    + eexists [_], _, _. auto.
  - destruct (Verbose o); simpl.
    + eexists [_], _, _. auto.
    + eexists [], _, _. rewrite app_nil_r. auto.
Qed.

(** An invariant of what follows [GetDevEnv] is an invariant of [Run], when
    logging is allowed and the options with [GitOps] and [DevEnv] set
    satisfy it. *)
Lemma Run_since (K : AddAppOptions -> Prop) (ok : Event -> bool) sys st g d :
  snd (GetDevEnv sys (E:=error) st) = Ok (g, d) ->
  (forall e, isLog e = true -> ok e = true) ->
  K (set_GitOps g (Some d) (opts st)) ->
  (forall t0, inv (since K ok t0) (afterDevEnv sys d)) ->
  K (opts (fst (Run sys st))) /\
  exists new, trace (fst (Run sys st)) = trace st ++ new /\ forallb ok new = true.
Proof.
  intros Hdev Hlog HK Hinv.
  destruct (GetDevEnv_frame sys st) as (logs & g' & d' & Heq & Hlogs).
  rewrite Heq in Hdev. injection Hdev as -> ->.
  assert (Hrun : Run sys st
                 = afterDevEnv sys d {| opts := set_GitOps g (Some d) (opts st);
                                        trace := trace st ++ logs |}).
  { rewrite Run_afterDevEnv. unfold bind at 1. rewrite Heq. reflexivity. }
  rewrite Hrun.
  match goal with |- context [afterDevEnv sys d ?s] =>
    destruct (Hinv (trace st ++ logs) s (since_start K ok s HK)) as (HK' & new & Ht & Hok) end.
  split; [exact HK'|].
  exists (logs ++ new). rewrite Ht. cbn [trace]. rewrite <- app_assoc. split; [reflexivity|].
  rewrite forallb_app, Hok, andb_true_r.
  clear -Hlog Hlogs. induction logs as [|e l IH]; [reflexivity|]. simpl in *.
  apply andb_prop in Hlogs as [He Hl]. now rewrite (Hlog e He), IH.
Qed.

Lemma afterDevEnv_gitOps sys d t0 :
  inv (since (fun o => GitOps o = true) (fun e => negb (isInstall e)) t0) (afterDevEnv sys d).
Proof. repeat inv_step ltac:(first [congruence | intros; assumption]). Qed.

Lemma afterDevEnv_not_gitOps sys d t0 :
  inv (since (fun o => GitOps o = false) (fun e => negb (isPullRequest e)) t0)
      (afterDevEnv sys d).
Proof. repeat inv_step ltac:(first [congruence | intros; assumption]). Qed.

Lemma sameFlags_refl o : sameFlags o o.
Proof. repeat split. exists []. now rewrite app_nil_r. Qed.

Lemma sameFlags_set_GitOps o0 g d o : sameFlags o0 o -> sameFlags o0 (set_GitOps g d o).
Proof. intros H. exact H. Qed.

Lemma sameFlags_set_Repo o0 v o : sameFlags o0 o -> sameFlags o0 (set_Repo v o).
Proof. intros H. exact H. Qed.

Lemma sameFlags_append o0 name o : sameFlags o0 o -> sameFlags o0 (appendValuesFile name o).
Proof.
  intros (H1 & H2 & H3 & H4 & H5 & H6 & H7 & H8 & H9 & H10 & added & Ha).
  repeat split; auto. exists (added ++ [name]). simpl. rewrite Ha. now rewrite <- app_assoc.
Qed.

(** [Run] keeps the flags it only reads, appends to the values files, and
    keeps a repository that was given. *)
Lemma Run_keeps_flags sys o0 t0 :
  inv (since (fun o => sameFlags o0 o /\ (Go.isEmpty (Repo o0) = false -> Repo o = Repo o0))
             (fun _ => true) t0)
      (Run sys).
Proof.
  repeat inv_step ltac:(first
    [ congruence
    | intros ? [? ?]; split;
      [ first [ apply sameFlags_append | apply sameFlags_set_Repo | apply sameFlags_set_GitOps ];
        assumption
      | simpl;
        first
          [ assumption
          | let Hf := fresh in
            intros Hf; exfalso;
            match goal with
            | HK : _ /\ (_ -> Repo ?o = Repo o0), E : Go.isEmpty (Repo ?o) = true |- _ =>
                rewrite (proj2 HK Hf) in E; congruence
            end ] ] ]).
Qed.

(** Without exactly one argument [Run] only logs and shows the help. *)
Lemma Run_wrong_arguments sys args t0 :
  (forall app, args <> [app]) ->
  inv (since (fun o => Args o = args) (fun e => isLog e || isHelp e) t0) (Run sys).
Proof.
  intros Hargs.
  repeat inv_step ltac:(first
    [ congruence
    | match goal with
      | HK : Args ?o = args, E : Args ?o = [?app] |- False =>
          rewrite HK in E; exact (Hargs app E)
      end
    | intros; assumption ]).
Qed.

Lemma Run_grows sys t0 : inv (since (fun _ => True) (fun _ => true) t0) (Run sys).
Proof. repeat inv_step ltac:(first [congruence | intros; exact Logic.I]). Qed.

Lemma inspectChartFunc_grows sys app version dir t0 :
  inv (since (fun _ => True) (fun _ => true) t0) (inspectChartFunc sys app version dir).
Proof. repeat inv_step ltac:(first [congruence | intros; exact Logic.I]). Qed.

(** Fetching the chart is the first thing [InspectChart] asks for. *)
Lemma InspectChart_first sys chart version repo username password app v st :
  exists rest,
    trace (fst (InspectChart sys chart version repo username password
                  (inspectChartFunc sys app v) st))
    = trace st ++ EvInspectChart chart version repo username password :: rest.
Proof.
  unfold InspectChart. unfold bind at 1, call. cbv beta iota. unfold bind at 1.
  destruct (FetchChart sys (trace st) chart version repo username password) as [dir|e];
    cbn [lift ret fail id]; cbv beta iota.
  - match goal with |- context [inspectChartFunc sys app v dir ?s] =>
      destruct (inspectChartFunc_grows sys app v dir (trace s) s
                  (since_start _ _ s Logic.I)) as (_ & new & Ht & _) end.
    exists new. rewrite Ht. cbn [trace]. now rewrite <- app_assoc.
  - exists []. reflexivity.
Qed.

Lemma OnAppInstall_grows sys app version t0 :
  inv (since (fun _ => True) (fun _ => true) t0) (OnAppInstall sys app version).
Proof. repeat inv_step ltac:(first [congruence | intros; exact Logic.I]). Qed.

(** Without a schema in the chart nothing is written and the options stay
    as they are. *)
Lemma inspectChartFunc_no_schema sys app version dir o0 t0 :
  (forall t, StatIsNotExist sys t (filepath_Join sys [dir; "values.schema.json"]) = true) ->
  inv (since (fun o => o = o0) (fun e => negb (isWrite e)) t0)
      (inspectChartFunc sys app version dir).
Proof.
  intros Hstat.
  repeat inv_step ltac:(first
    [ congruence
    | match goal with
      | E : negb (StatIsNotExist sys ?t _) = true |- False =>
          rewrite Hstat in E; discriminate E
      end
    | intros; assumption ]).
Qed.

End RunFacts.

(** X13. When the secret store is not in use, [Run] never asks it to write
    anything, on any path. *)
Theorem X13_no_store_no_store_write (sys : AddApp.Sys) (st : AddApp.St) :
  AddApp.UseVault sys = false ->
  exists new,
    AddApp.trace (fst (AddApp.Run sys st)) = AddApp.trace st ++ new /\
    AddApp.vaultWrites new = [].
Proof.
  intros Hv.
  destruct (RunFacts.Run_without_store sys (AddApp.trace st) Hv st
              (Inv.since_start _ _ st Logic.I)) as (_ & new & Ht & Hok).
  exists new. split; [exact Ht|]. now apply RunFacts.no_vault_writes.
Qed.

Lemma X13_no_store_no_store_write_witness :
  exists new,
    AddApp.trace (fst (AddApp.Run (AddApp.sys0 false true "") (AddApp.start AddApp.flags0)))
    = [] ++ new /\
    AddApp.vaultWrites new = [].
Proof.
  exact (X13_no_store_no_store_write (AddApp.sys0 false true "")
           (AddApp.start AddApp.flags0) eq_refl).
Defined.

(** X14. The two ways of adding an app never mix.  When the development
    environment is under GitOps, [Run] never installs anything with helm
    (no [ensureHelm], no chart installation, no install hook); when it is
    not, [Run] never opens a pull request. *)
Theorem X14_gitops_decides_the_way (sys : AddApp.Sys) (st : AddApp.St)
    (gitOps : bool) (devEnv : jenkinsv1.Environment) :
  snd (AddApp.GetDevEnv sys (E:=error) st) = Ok (gitOps, devEnv) ->
  AddApp.GitOps (AddApp.opts (fst (AddApp.Run sys st))) = gitOps /\
  exists new,
    AddApp.trace (fst (AddApp.Run sys st)) = AddApp.trace st ++ new /\
    if gitOps then List.filter AddApp.isInstall new = []
    else List.filter AddApp.isPullRequest new = [].
Proof.
  intros Hdev. destruct gitOps.
  - destruct (RunFacts.Run_since (fun o => AddApp.GitOps o = true)
                (fun e => negb (AddApp.isInstall e)) sys st true devEnv Hdev)
      as (HK & new & Ht & Hok);
      [intros [] He; try discriminate He; reflexivity | reflexivity
      | intros t0; apply RunFacts.afterDevEnv_gitOps |].
    split; [exact HK|]. exists new. split; [exact Ht|]. now apply RunFacts.filter_none.
  - destruct (RunFacts.Run_since (fun o => AddApp.GitOps o = false)
                (fun e => negb (AddApp.isPullRequest e)) sys st false devEnv Hdev)
      as (HK & new & Ht & Hok);
      [intros [] He; try discriminate He; reflexivity | reflexivity
      | intros t0; apply RunFacts.afterDevEnv_not_gitOps |].
    split; [exact HK|]. exists new. split; [exact Ht|]. now apply RunFacts.filter_none.
Qed.

Lemma X14_gitops_decides_the_way_witness :
  exists new,
    AddApp.trace
      (fst (AddApp.Run (AddApp.sys0 true true "https://github.com/acme/environment-dev.git")
              (AddApp.start AddApp.flags0)))
    = [] ++ new /\
    List.filter AddApp.isInstall new = [].
Proof.
  exact (proj2 (X14_gitops_decides_the_way
                  (AddApp.sys0 true true "https://github.com/acme/environment-dev.git")
                  (AddApp.start AddApp.flags0) true _ eq_refl)).
Defined.

(** X15. [Run] leaves the flags it only reads as they were given (verbose,
    arguments, user name, password, alias, namespace, version, release
    name, set values, helm update); the values files given stay the first
    values files, generated ones being appended; and a repository given
    with [--repository] is never replaced. *)
Theorem X15_flags_are_kept (sys : AddApp.Sys) (st : AddApp.St) :
  let o := AddApp.opts st in
  let o' := AddApp.opts (fst (AddApp.Run sys st)) in
  AddApp.sameFlags o o' /\
  (AddApp.Repo o <> "" -> AddApp.Repo o' = AddApp.Repo o).
Proof.
  cbv zeta.
  destruct (RunFacts.Run_keeps_flags sys (AddApp.opts st) (AddApp.trace st) st) as ((Hf & Hr) & _).
  - apply Inv.since_start. split; [apply RunFacts.sameFlags_refl|reflexivity].
  - split; [exact Hf|]. intros Hne. apply Hr. now apply isEmpty_false.
Qed.

Lemma X15_flags_are_kept_witness :
  AddApp.Repo
    (AddApp.opts
       (fst (AddApp.Run (AddApp.sys0 true true "")
               (AddApp.start (AddApp.set_Repo "https://charts.example.com" AddApp.flags0)))))
  = "https://charts.example.com".
Proof.
  refine (proj2 (X15_flags_are_kept (AddApp.sys0 true true "")
                   (AddApp.start (AddApp.set_Repo "https://charts.example.com" AddApp.flags0)))
            _).
  discriminate.
Defined.

(** X16. Called with no argument, or with more than one, [Run] adds no app:
    apart from logging it can only show the help of the command; no chart
    is fetched, nothing is written, installed or proposed. *)
Theorem X16_wrong_arguments_show_help (sys : AddApp.Sys) (st : AddApp.St) :
  (forall app, AddApp.Args (AddApp.opts st) <> [app]) ->
  exists new,
    AddApp.trace (fst (AddApp.Run sys st)) = AddApp.trace st ++ new /\
    forallb (fun e => AddApp.isLog e || AddApp.isHelp e) new = true.
Proof.
  intros Hargs.
  destruct (RunFacts.Run_wrong_arguments sys (AddApp.Args (AddApp.opts st)) (AddApp.trace st)
              Hargs st (Inv.since_start _ _ st eq_refl)) as (_ & new & Ht & Hok).
  eauto.
Qed.

Lemma X16_wrong_arguments_show_help_witness :
  exists new,
    AddApp.trace
      (fst (AddApp.Run (AddApp.sys0 false true "")
              (AddApp.start (AddApp.cliDefaults "jx" ["app"; "other"]))))
    = [] ++ new /\
    forallb (fun e => AddApp.isLog e || AddApp.isHelp e) new = true.
Proof.
  refine (X16_wrong_arguments_show_help (AddApp.sys0 false true "")
            (AddApp.start (AddApp.cliDefaults "jx" ["app"; "other"])) _).
  intros app. discriminate.
Defined.

(** X17. Under GitOps the flags of a direct installation are refused before
    anything is done: with a release name, with helm update turned off,
    with a namespace other than the default one, with a value set by
    [--set] or with more than one values file, [Run] returns an
    [InvalidOption] error and the trace is as before. *)
Theorem X17_gitops_refuses_install_flags (sys : AddApp.Sys) (st : AddApp.St)
    (devEnv : jenkinsv1.Environment) :
  let o := AddApp.opts st in
  snd (AddApp.GetDevEnv sys (E:=error) st) = Ok (true, devEnv) ->
  AddApp.ReleaseName o <> ""
  \/ AddApp.HelmUpdate o = false
  \/ (AddApp.Namespace o <> "" /\ AddApp.Namespace o <> AddApp.DefaultNamespace sys)
  \/ AddApp.SetValues o <> []
  \/ (1 < length (AddApp.slice (AddApp.ValuesFiles o)))%nat ->
  (exists name value message,
     snd (AddApp.Run sys st) = Err (ErrInvalidOption name value message)) /\
  AddApp.trace (fst (AddApp.Run sys st)) = AddApp.trace st.
Proof.
  cbv zeta. intros Hdev Hflags. apply GetDevEnv_gitOps in Hdev.
  destruct st as [o t]. cbn [AddApp.opts AddApp.trace] in *.
  assert (Hb : negb (Go.isEmpty (AddApp.ReleaseName o))
               || negb (AddApp.HelmUpdate o)
               || (negb (Go.isEmpty (AddApp.Namespace o))
                   && negb (String.eqb (AddApp.Namespace o) (AddApp.DefaultNamespace sys)))
               || (0 <? length (AddApp.SetValues o))%nat
               || (1 <? length (AddApp.slice (AddApp.ValuesFiles o)))%nat = true).
  { destruct Hflags as [H|[H|[[H1 H2]|[H|H]]]].
    - apply isEmpty_false in H. now rewrite H.
    - rewrite H. simpl. now rewrite orb_true_r.
    - apply isEmpty_false in H1. apply String.eqb_neq in H2. rewrite H1, H2. simpl.
      now rewrite !orb_true_r.
    - destruct (AddApp.SetValues o); [congruence|]. simpl. now rewrite !orb_true_r.
    - apply Nat.ltb_lt in H. rewrite H. now rewrite !orb_true_r. }
  assert (Hrun : exists o' name value message,
            AddApp.Run sys {| AddApp.opts := o; AddApp.trace := t |}
            = ({| AddApp.opts := o'; AddApp.trace := t |},
               Err (ErrInvalidOption name value message))).
  { unfold AddApp.Run. unfold bind at 1. rewrite Hdev. AddAppFacts.step.
    repeat (simpl;
      match goal with
      | |- exists _ _ _ _, (_, Err (ErrInvalidOption _ _ _)) = _ => fail 1
      | _ => idtac
      end;
      first
        [ simpl in Hb; discriminate Hb
        | match goal with
          | H : ?b = true |- context [if ?b then _ else _] => rewrite H
          | H : ?b = false |- context [if ?b then _ else _] => rewrite H
          | |- context [if ?b then _ else _] => destruct b eqn:?
          end ]);
    eexists _, _, _, _; reflexivity. }
  destruct Hrun as (o' & name & value & message & Hrun). rewrite Hrun. simpl. eauto.
Qed.

Lemma X17_gitops_refuses_install_flags_witness :
  AddApp.trace
    (fst (AddApp.Run (AddApp.sys0 true true "https://github.com/acme/environment-dev.git")
            (AddApp.start (AddApp.flagsWith "my-release" ""))))
  = [].
Proof.
  refine (proj2 (X17_gitops_refuses_install_flags
                   (AddApp.sys0 true true "https://github.com/acme/environment-dev.git")
                   (AddApp.start (AddApp.flagsWith "my-release" "")) _ eq_refl _)).
  left. discriminate.
Defined.

(** X18. Under GitOps, with the secret store in use, exactly one argument
    and none of the refused flags, [Run] goes on to fetch the chart: the
    first thing it asks for is the chart named by the argument, in the
    version given, from the repository given or else the repository of the
    team or else the default one.  The options of the command line when no
    flag is given are such options. *)
Theorem X18_accepted_flags_fetch_the_chart (sys : AddApp.Sys) (st : AddApp.St)
    (devEnv : jenkinsv1.Environment) (app : string) :
  let o := AddApp.opts st in
  let team := jenkinsv1.AppsRepository (jenkinsv1.TeamSettings_ (jenkinsv1.Spec devEnv)) in
  let repo := if Go.isEmpty (AddApp.Repo o)
              then (if Go.isEmpty team then AddApp.DEFAULT_CHARTMUSEUM_URL sys else team)
              else AddApp.Repo o in
  snd (AddApp.GetDevEnv sys (E:=error) st) = Ok (true, devEnv) ->
  AddApp.UseVault sys = true ->
  AddApp.Args o = [app] ->
  AddApp.ReleaseName o = "" ->
  AddApp.HelmUpdate o = true ->
  AddApp.Namespace o = "" \/ AddApp.Namespace o = AddApp.DefaultNamespace sys ->
  AddApp.SetValues o = [] ->
  (length (AddApp.slice (AddApp.ValuesFiles o)) <= 1)%nat ->
  repo <> "" ->
  exists rest,
    AddApp.trace (fst (AddApp.Run sys st))
    = AddApp.trace st
      ++ AddApp.EvInspectChart app (AddApp.Version o) repo (AddApp.Username o)
           (AddApp.Password o) :: rest.
Proof.
  cbv zeta. intros Hdev Hv Hargs Hrel Hhelm Hns Hset Hvf Hrepo.
  apply GetDevEnv_gitOps in Hdev.
  destruct st as [o t]. cbn [AddApp.opts AddApp.trace] in *.
  assert (Hns' : negb (Go.isEmpty (AddApp.Namespace o))
                 && negb (String.eqb (AddApp.Namespace o) (AddApp.DefaultNamespace sys)) = false).
  { destruct Hns as [H|H]; rewrite H; [reflexivity|].
    rewrite String.eqb_refl. apply andb_false_r. }
  assert (Hvf' : (1 <? length (AddApp.slice (AddApp.ValuesFiles o)))%nat = false)
    by (apply Nat.ltb_ge; exact Hvf).
  apply isEmpty_false in Hrepo.
  rewrite Inv.Run_afterDevEnv. unfold bind at 1. rewrite Hdev. cbv beta iota.
  unfold AddApp.afterDevEnv. remember (AddApp.InspectChart sys) as IC eqn:HIC.
  destruct (Go.isEmpty (AddApp.Repo o)) eqn:ER;
    [destruct (Go.isEmpty (jenkinsv1.AppsRepository
                 (jenkinsv1.TeamSettings_ (jenkinsv1.Spec devEnv)))) eqn:ET|];
    AddAppFacts.step;
    repeat (progress (rewrite ?ER, ?ET, ?Hrel, ?Hhelm, ?Hns', ?Hset, ?Hvf', ?Hv, ?Hargs,
                        ?Hrepo; simpl)).
  all: subst IC;
    match goal with
    | |- context [AddApp.InspectChart ?y ?c ?v ?r ?u ?p (AddApp.inspectChartFunc _ ?a ?w) ?s] =>
        destruct (RunFacts.InspectChart_first y c v r u p a w s) as (rest & Hrest)
    end;
    exists rest; rewrite Hrest; reflexivity.
Qed.

Lemma X18_accepted_flags_fetch_the_chart_witness :
  exists rest,
    AddApp.trace
      (fst (AddApp.Run (AddApp.sys0 true true "https://github.com/acme/environment-dev.git")
              (AddApp.start (AddApp.cliDefaults "jx" ["app"]))))
    = [] ++ AddApp.EvInspectChart "app" "" "http://chartmuseum.jenkins-x.io" "" "" :: rest.
Proof.
  refine (X18_accepted_flags_fetch_the_chart
            (AddApp.sys0 true true "https://github.com/acme/environment-dev.git")
            (AddApp.start (AddApp.cliDefaults "jx" ["app"])) _ "app"
            eq_refl eq_refl eq_refl eq_refl eq_refl _ eq_refl _ _).
  - right. reflexivity.
  - simpl. lia.
  - discriminate.
Defined.

(** X19. Without GitOps an alias is refused: [Run] returns an
    [InvalidOption] error for [alias] and has only logged. *)
Theorem X19_alias_needs_gitops (sys : AddApp.Sys) (st : AddApp.St)
    (devEnv : jenkinsv1.Environment) :
  snd (AddApp.GetDevEnv sys (E:=error) st) = Ok (false, devEnv) ->
  AddApp.Alias (AddApp.opts st) <> "" ->
  snd (AddApp.Run sys st)
  = Err (ErrInvalidOption "alias" (AddApp.Alias (AddApp.opts st))
           "unable to specify --alias when NOT using GitOps for your dev environment") /\
  exists logs,
    AddApp.trace (fst (AddApp.Run sys st)) = AddApp.trace st ++ logs /\
    forallb AddApp.isLog logs = true.
Proof.
  intros Hdev Halias. apply isEmpty_false in Halias.
  destruct (RunFacts.GetDevEnv_frame sys st) as (logs & g & d & Heq & Hlogs).
  rewrite Heq in Hdev. injection Hdev as -> ->.
  assert (Hrun : exists o',
            AddApp.Run sys st
            = ({| AddApp.opts := o'; AddApp.trace := AddApp.trace st ++ logs |},
               Err (ErrInvalidOption "alias" (AddApp.Alias (AddApp.opts st))
                      "unable to specify --alias when NOT using GitOps for your dev environment"))).
  { rewrite Inv.Run_afterDevEnv. unfold bind at 1. rewrite Heq. cbv beta iota.
    unfold AddApp.afterDevEnv. destruct st as [o t]. cbn [AddApp.opts AddApp.trace] in *.
    AddAppFacts.step.
    repeat (simpl; rewrite ?Halias;
            try match goal with
                | |- context [Go.isEmpty ?x] =>
                    lazymatch x with
                    | AddApp.Alias _ => fail
                    | _ => destruct (Go.isEmpty x) eqn:?
                    end
                end).
    all: eexists; reflexivity. }
  destruct Hrun as (o' & Hrun). rewrite Hrun. simpl. eauto.
Qed.

Lemma X19_alias_needs_gitops_witness :
  snd (AddApp.Run (AddApp.sys0 false true "") (AddApp.start (AddApp.flagsWith "" "my-alias")))
  = Err (ErrInvalidOption "alias" "my-alias"
           "unable to specify --alias when NOT using GitOps for your dev environment").
Proof.
  refine (proj1 (X19_alias_needs_gitops (AddApp.sys0 false true "")
                   (AddApp.start (AddApp.flagsWith "" "my-alias")) _ eq_refl _)).
  discriminate.
Defined.



(** ** The temporary files and their deferred closing *)

Module Files.
Import jenkinsv1 surveyutils AddApp.

(** Closing a file that exists never fails: errors are only logged. *)
Lemma runClose_file sys f st :
  exists logs1 logs2,
    runClose sys (CloseFile (Some f)) st
    = ({| opts := opts st;
          trace := trace st ++ EvFileClose f :: logs1 ++ EvDeleteFile f :: logs2 |}, Ok tt) /\
    forallb isLog logs1 = true /\ forallb isLog logs2 = true.
Proof.
  unfold runClose. AddAppFacts.step.
  destruct (FileClose sys (trace st) f); simpl;
    match goal with |- context [DeleteFile sys ?t f] => destruct (DeleteFile sys t f) end;
    simpl.
  - eexists [_], [_]. split; [rewrite <- !app_assoc; reflexivity|split; reflexivity].
  - eexists [_], []. split; [rewrite <- !app_assoc; reflexivity|split; reflexivity].
  - eexists [], [_]. split; [rewrite <- !app_assoc; reflexivity|split; reflexivity].
  - eexists [], []. split; [rewrite <- !app_assoc; reflexivity|split; reflexivity].
Qed.

(** What [handleValues] has done when it returns without an error. *)
Lemma handleValues_ok sys dir app values st c :
  snd (handleValues sys dir app values st) = Ok c ->
  exists f,
    c = CloseFile (Some f) /\
    ValuesFiles (opts (fst (handleValues sys dir app values st)))
    = Some (slice (ValuesFiles (opts st)) ++ [f]).
Proof.
  destruct st as [o t]. unfold handleValues. AddAppFacts.step.
  destruct (JSONToYAML sys values); simpl; [|discriminate].
  destruct (Verbose o); simpl;
    match goal with |- context [TempFile sys ?t' ?d ?p] => destruct (TempFile sys t' d p) end;
    simpl; try discriminate;
    match goal with |- context [FileWrite sys ?t' ?f ?y] => destruct (FileWrite sys t' f y) end;
    simpl; try discriminate;
    intros [= <-]; eexists; split; reflexivity.
Qed.

(** No temporary file: the function handed back panics when called. *)
Lemma handleValues_no_file sys dir app values yaml e st :
  JSONToYAML sys values = inl yaml ->
  (forall t, TempFile sys t "" (Go.Sprintf "%s-values.yaml" [app]) = inr e) ->
  snd (handleValues sys dir app values st) = Err (CloseFile None, e).
Proof.
  intros Hy Ht. destruct st as [o t]. unfold handleValues. AddAppFacts.step.
  rewrite Hy. simpl. destruct (Verbose o); simpl; rewrite Ht; reflexivity.
Qed.

(** Whatever [handleSecrets] did, on success it hands back [func() {}]. *)
Lemma handleSecrets_ok sys dir app secrets st c :
  snd (handleSecrets sys dir app secrets st) = Ok c -> c = NoClose.
Proof.
  unfold handleSecrets. unfold bind at 1.
  destruct (when _ _ st) as [s [[]|[cl e]|]]; simpl; try discriminate.
  now intros [= <-].
Qed.

End Files.

(** X21. The temporary values file lives as long as the rest of the
    function: when [handleValues] succeeds its file is the last values
    file, and after the rest has run (however it ends) the file is closed
    and deleted; a failure of either is only logged and the result of the
    rest is returned as it is. *)
Theorem X21_values_file_closed_and_deleted (sys : AddApp.Sys) (dir app values : string)
    (A : Type) (rest : M AddApp.St error A) (st : AddApp.St) (c : AddApp.closer) :
  snd (AddApp.handleValues sys dir app values st) = Ok c ->
  let st1 := fst (AddApp.handleValues sys dir app values st) in
  let final := AddApp.deferring sys (AddApp.handleValues sys dir app values) rest st in
  exists f logs1 logs2,
    c = AddApp.CloseFile (Some f) /\
    AddApp.ValuesFiles (AddApp.opts st1)
    = Some (AddApp.slice (AddApp.ValuesFiles (AddApp.opts st)) ++ [f]) /\
    snd final = snd (rest st1) /\
    AddApp.opts (fst final) = AddApp.opts (fst (rest st1)) /\
    AddApp.trace (fst final)
    = AddApp.trace (fst (rest st1))
        ++ AddApp.EvFileClose f :: logs1 ++ AddApp.EvDeleteFile f :: logs2 /\
    forallb AddApp.isLog logs1 = true /\ forallb AddApp.isLog logs2 = true.
Proof.
  intros Hok st1 final.
  destruct (Files.handleValues_ok _ _ _ _ _ _ Hok) as (f & -> & Hfiles).
  destruct (Files.runClose_file sys f (fst (rest st1))) as (logs1 & logs2 & Hclose & H1 & H2).
  exists f, logs1, logs2. split; [reflexivity|]. split; [exact Hfiles|].
  subst final. unfold AddApp.deferring.
  destruct (AddApp.handleValues sys dir app values st) as [s1 r] eqn:Hm.
  simpl in Hok. subst r. subst st1. cbn [fst] in *.
  rewrite Hclose. simpl. auto.
Qed.

Lemma X21_values_file_closed_and_deleted_witness :
  exists f logs1 logs2,
    AddApp.CloseFile (Some "/tmp/app-values.yaml") = AddApp.CloseFile (Some f) /\
    AddApp.ValuesFiles
      (AddApp.opts (fst (AddApp.handleValues (AddApp.sys0 false true "") "/tmp/chart" "app" "{}"
                           (AddApp.start AddApp.flags0))))
    = Some (AddApp.slice (AddApp.ValuesFiles (AddApp.opts (AddApp.start AddApp.flags0))) ++ [f]) /\
    snd (AddApp.deferring (AddApp.sys0 false true "")
           (AddApp.handleValues (AddApp.sys0 false true "") "/tmp/chart" "app" "{}")
           (ret tt) (AddApp.start AddApp.flags0))
    = snd (ret (E:=error) tt
             (fst (AddApp.handleValues (AddApp.sys0 false true "") "/tmp/chart" "app" "{}"
                     (AddApp.start AddApp.flags0)))) /\
    AddApp.opts (fst (AddApp.deferring (AddApp.sys0 false true "")
           (AddApp.handleValues (AddApp.sys0 false true "") "/tmp/chart" "app" "{}")
           (ret tt) (AddApp.start AddApp.flags0)))
    = AddApp.opts (fst (ret (E:=error) tt
             (fst (AddApp.handleValues (AddApp.sys0 false true "") "/tmp/chart" "app" "{}"
                     (AddApp.start AddApp.flags0))))) /\
    AddApp.trace (fst (AddApp.deferring (AddApp.sys0 false true "")
           (AddApp.handleValues (AddApp.sys0 false true "") "/tmp/chart" "app" "{}")
           (ret tt) (AddApp.start AddApp.flags0)))
    = AddApp.trace (fst (ret (E:=error) tt
             (fst (AddApp.handleValues (AddApp.sys0 false true "") "/tmp/chart" "app" "{}"
                     (AddApp.start AddApp.flags0)))))
        ++ AddApp.EvFileClose f :: logs1 ++ AddApp.EvDeleteFile f :: logs2 /\
    forallb AddApp.isLog logs1 = true /\ forallb AddApp.isLog logs2 = true.
Proof.
  exact (X21_values_file_closed_and_deleted (AddApp.sys0 false true "") "/tmp/chart" "app" "{}"
           unit (ret tt) (AddApp.start AddApp.flags0)
           (AddApp.CloseFile (Some "/tmp/app-values.yaml")) eq_refl).
Defined.



(** X23. When [handleSecrets] succeeds, its deferred call does nothing:
    what follows runs as if nothing had been deferred, so the temporary
    secrets file it may have written is neither closed nor deleted. *)
Theorem X23_secrets_file_is_left (sys : AddApp.Sys) (dir app : string)
    (secrets : list (option surveyutils.GeneratedSecret))
    (A : Type) (rest : M AddApp.St error A) (st : AddApp.St) (c : AddApp.closer) :
  snd (AddApp.handleSecrets sys dir app secrets st) = Ok c ->
  AddApp.deferring sys (AddApp.handleSecrets sys dir app secrets) rest st
  = rest (fst (AddApp.handleSecrets sys dir app secrets st)).
Proof.
  intros Hok. pose proof (Files.handleSecrets_ok _ _ _ _ _ _ Hok) as ->.
  unfold AddApp.deferring.
  destruct (AddApp.handleSecrets sys dir app secrets st) as [s1 r].
  simpl in Hok. subst r. cbn [fst].
  destruct (rest s1) as [s2 r2]. simpl. destruct r2; reflexivity.
Qed.

Lemma X23_secrets_file_is_left_witness :
  AddApp.deferring (AddApp.sys0 false true "")
    (AddApp.handleSecrets (AddApp.sys0 false true "") "/tmp/chart" "app" AddApp.secrets0)
    (ret tt) (AddApp.start AddApp.flags0)
  = ret tt (fst (AddApp.handleSecrets (AddApp.sys0 false true "") "/tmp/chart" "app"
                   AddApp.secrets0 (AddApp.start AddApp.flags0))).
Proof.
  exact (X23_secrets_file_is_left (AddApp.sys0 false true "") "/tmp/chart" "app"
           AddApp.secrets0 unit (ret tt) (AddApp.start AddApp.flags0) AddApp.NoClose eq_refl).
Defined.

(** X24. [OnAppInstall] calls the install hook at most once, and only when
    the cluster lists exactly one app for the chart and version; the
    outcome of the hook is then the result.  It never changes the
    options. *)
Theorem X24_install_hook_for_one_app (sys : AddApp.Sys) (app version : string)
    (st : AddApp.St) :
  let final := AddApp.OnAppInstall sys app version st in
  AddApp.opts (fst final) = AddApp.opts st /\
  (AddApp.trace (fst final) = AddApp.trace st \/
   exists jxClient ns item,
     AddApp.JXClientAndDevNamespace sys (AddApp.trace st) = inl (jxClient, ns) /\
     AddApp.ListApps sys (AddApp.trace st) jxClient ns
       (Go.Sprintf "chart=%s-%s" [app; version]) = inl [item] /\
     AddApp.trace (fst final)
     = AddApp.trace st ++ [AddApp.EvOnInstall app ns (AddApp.defaultInstallTimeout sys)] /\
     snd final
     = match AddApp.OnInstallFromName sys (AddApp.trace st) app ns
               (AddApp.defaultInstallTimeout sys) with
       | Some e => Err e
       | None => Ok tt
       end).
Proof.
  destruct st as [o t]. unfold AddApp.OnAppInstall. AddAppFacts.step.
  destruct (AddApp.JXClientAndDevNamespace sys t) as [[jx ns]|e] eqn:Hjx; simpl; [|auto].
  destruct (AddApp.KubeClientAndDevNamespace sys t) as [[k ns']|e]; simpl; [|auto].
  destruct (AddApp.CreateCertManagerClient sys t) as [cert|e]; simpl; [|auto].
  destruct (AddApp.ListApps sys t jx ns _) as [items|e] eqn:Hlist; simpl; [|auto].
  destruct items as [|item [|item' items]]; simpl; [auto| |auto].
  destruct (AddApp.OnInstallFromName sys t app ns _) eqn:Hhook; simpl.
  all: split; [reflexivity|]; right; exists jx, ns, item.
  all: repeat split; first [reflexivity | exact Hlist | cbn [AddApp.trace]; now rewrite Hhook].
Qed.

(** ** The values given by [--set] *)

Module SplitFacts.

Lemma Split_nonempty s sep : Go.Split s sep <> [].
Proof.
  destruct s as [|c s]; simpl; [discriminate|].
  destruct (Ascii.eqb c sep); [discriminate|].
  destruct (Go.Split s sep); discriminate.
Qed.

Lemma Join_cons e l sep :
  l <> [] -> Go.Join (e :: l) sep = e +:+ sep +:+ Go.Join l sep.
Proof. destruct l; [contradiction|reflexivity]. Qed.

Lemma Join_String c p ps sep :
  Go.Join (String c p :: ps) sep = String c (Go.Join (p :: ps) sep).
Proof. destruct ps; reflexivity. Qed.

(** Joining the pieces with the separator gives the string back. *)
Lemma Join_Split s sep : Go.Join (Go.Split s sep) (String sep "") = s.
Proof.
  induction s as [|c s IH]; [reflexivity|].
  cbn [Go.Split]. destruct (Ascii.eqb c sep) eqn:Hc.
  - apply Ascii.eqb_eq in Hc. subst c.
    rewrite Join_cons by apply Split_nonempty. now rewrite IH.
  - destruct (Go.Split s sep) as [|p ps] eqn:Hs; [now apply Split_nonempty in Hs|].
    now rewrite Join_String, IH.
Qed.

(** No piece holds the separator. *)
Lemma Split_pieces s sep :
  forallb (fun piece => negb (Go.containsByte sep piece)) (Go.Split s sep) = true.
Proof.
  induction s as [|c s IH]; [reflexivity|].
  cbn [Go.Split]. destruct (Ascii.eqb c sep) eqn:Hc; [exact IH|].
  destruct (Go.Split s sep) as [|p ps]; simpl in *; now rewrite Hc.
Qed.

Lemma Join_app l1 l2 sep :
  l1 <> [] -> l2 <> [] ->
  Go.Join (l1 ++ l2) sep = Go.Join l1 sep +:+ sep +:+ Go.Join l2 sep.
Proof.
  intros H1 H2. induction l1 as [|a l1 IH]; [contradiction|].
  destruct l1 as [|b l1].
  - simpl app. now apply Join_cons.
  - change ((a :: b :: l1) ++ l2) with (a :: (b :: l1) ++ l2).
    rewrite Join_cons by discriminate. rewrite IH by discriminate.
    rewrite (Join_cons a (b :: l1)) by discriminate.
    now rewrite !append_assoc.
Qed.

Lemma flat_Split_nonempty s l sep :
  flat_map (fun vs => Go.Split vs sep) (s :: l) <> [].
Proof.
  simpl. intros H. apply app_eq_nil in H as [H _]. now apply Split_nonempty in H.
Qed.

Lemma Join_flat_Split l sep :
  Go.Join (flat_map (fun vs => Go.Split vs sep) l) (String sep "")
  = Go.Join l (String sep "").
Proof.
  induction l as [|s l IH]; [reflexivity|].
  destruct l as [|s' l].
  - simpl. rewrite app_nil_r. apply Join_Split.
  - change (flat_map (fun vs => Go.Split vs sep) (s :: s' :: l))
      with (Go.Split s sep ++ flat_map (fun vs => Go.Split vs sep) (s' :: l)).
    rewrite Join_app by first [apply Split_nonempty | apply flat_Split_nonempty].
    rewrite IH, Join_Split. symmetry. now apply Join_cons.
Qed.

Lemma flat_Split_pieces l sep :
  forallb (fun piece => negb (Go.containsByte sep piece))
    (flat_map (fun vs => Go.Split vs sep) l) = true.
Proof.
  induction l as [|s l IH]; [reflexivity|].
  simpl. rewrite forallb_app, IH, Split_pieces. reflexivity.
Qed.

End SplitFacts.

Lemma OnAppInstall_hook_only sys app version t0 :
  AddApp.inv (AddApp.since (fun _ => True) AddApp.isInstallHook t0)
    (AddApp.OnAppInstall sys app version).
Proof.
  repeat Inv.inv_step ltac:(first [congruence | intros; exact Logic.I]).
Qed.

(** X25. With helm present, [installApp] installs the chart once, under
    the name, chart and version it was given and with the namespace and
    values files of the options, and calls nothing but the install hook
    afterwards; the values of [--set] are cut at every
    comma, so none of those it hands over holds a comma, and joined with
    commas they are the values of the flags joined with commas. *)
Theorem X25_install_options (sys : AddApp.Sys) (name chart version : string)
    (st : AddApp.St) :
  AddApp.ensureHelm sys (AddApp.trace st) = None ->
  exists ico rest,
    AddApp.trace (fst (AddApp.installApp sys name chart version st))
    = AddApp.trace st ++ AddApp.EvEnsureHelm :: AddApp.EvInstallChart ico :: rest /\
    forallb AddApp.isInstallHook rest = true /\
    AddApp.ico_ReleaseName ico = name /\
    AddApp.ico_Chart ico = chart /\
    AddApp.ico_Version ico = version /\
    AddApp.ico_Ns ico = AddApp.Namespace (AddApp.opts st) /\
    AddApp.ico_ValueFiles ico = AddApp.slice (AddApp.ValuesFiles (AddApp.opts st)) /\
    forallb (fun v => negb (Go.containsByte "," v)) (AddApp.ico_SetValues ico) = true /\
    Go.Join (AddApp.ico_SetValues ico) "," = Go.Join (AddApp.SetValues (AddApp.opts st)) ",".
Proof.
  intros Hhelm. destruct st as [o t]. cbn [AddApp.opts AddApp.trace] in *.
  unfold AddApp.installApp. unfold bind at 1, AddApp.call at 1.
  cbn [AddApp.opts AddApp.trace]. rewrite Hhelm.
  AddAppFacts.step.
  match goal with
  | |- context [AddApp.installChartOptions sys ?t' ?i] =>
      set (ico := i); destruct (AddApp.installChartOptions sys t' ico) as [e|]
  end; simpl.
  - exists ico, []. rewrite <- app_assoc. repeat split; try reflexivity.
    + apply SplitFacts.flat_Split_pieces.
    + apply (SplitFacts.Join_flat_Split (AddApp.SetValues o) ",").
  - match goal with
    | |- context [AddApp.OnAppInstall sys name version ?s] =>
        destruct (OnAppInstall_hook_only sys name version (AddApp.trace s) s
                    (Inv.since_start _ _ s Logic.I)) as (_ & new & Ht & Hnew)
    end.
    exists ico, new. rewrite Ht. cbn [AddApp.trace]. rewrite <- !app_assoc.
    repeat split; try reflexivity.
    + exact Hnew.
    + apply SplitFacts.flat_Split_pieces.
    + apply (SplitFacts.Join_flat_Split (AddApp.SetValues o) ",").
Qed.

Lemma X25_install_options_witness :
  exists ico rest,
    AddApp.trace (fst (AddApp.installApp (AddApp.sys0 false true "") "app" "/tmp/chart" "1.0.0"
                         (AddApp.start (AddApp.flagsSet ["a=1,b=2"; "c=3"]))))
    = [] ++ AddApp.EvEnsureHelm :: AddApp.EvInstallChart ico :: rest /\
    forallb AddApp.isInstallHook rest = true /\
    AddApp.ico_ReleaseName ico = "app" /\
    AddApp.ico_Chart ico = "/tmp/chart" /\
    AddApp.ico_Version ico = "1.0.0" /\
    AddApp.ico_Ns ico = "" /\
    AddApp.ico_ValueFiles ico = [] /\
    forallb (fun v => negb (Go.containsByte "," v)) (AddApp.ico_SetValues ico) = true /\
    Go.Join (AddApp.ico_SetValues ico) "," = Go.Join ["a=1,b=2"; "c=3"] ",".
Proof.
  exact (X25_install_options (AddApp.sys0 false true "") "app" "/tmp/chart" "1.0.0"
           (AddApp.start (AddApp.flagsSet ["a=1,b=2"; "c=3"])) eq_refl).
Defined.
